(** * rename_plugin.py: the template-rename script, embedded and verified

    The script [scripts/rename_plugin.py] derives two name variants from a
    plugin name, renames [lua/myplugin], rewrites a fixed list of files by
    literal substitution, and optionally sets the git remote and patches
    the repository reference in [lazy.lua].

    Modelling choices.
    - A Python [str] is a [string]: a sequence of 8-bit characters.  In
      the module [Py] the case maps are Python's on the ASCII range and
      leave characters above 127 as they are.  The module [Unicode] holds
      the name functions on sequences of code points, with the full case
      mappings of CPython 3.11 (Unicode 14.0.0); the two agree on names of
      ASCII characters.
    - The file system is a finite map from pathlib-normalised relative path
      strings to nodes (a regular file with its text, or a directory).
      [..] components and links are not resolved; permissions and
      encodings are not modelled.
    - [Path.exists] answers for a path that is there; for one that is not
      it raises when the path or a component reached under existing
      directories is too long for the file system, and answers no
      otherwise.  [Path.read_text] translates line ends as Python's text
      mode does; [Path.write_text] writes the text as it is (POSIX).
    - [shutil.move] and the spawned process are library and environment
      behaviour: they are parameters of the model.  [plain_move] is a
      stand-in used where a statement is evaluated on concrete input.
    - Effects are threaded through a state-and-exception monad over the
      [world]: file system, console lines, spawned command lines. *)

From stdpp Require Import gmap strings list fin_maps.
From Stdlib Require Import Ascii String NArith Lia.

Local Open Scope string_scope.

(** ** Python string primitives *)

Module Py.

Definition is_upper (c : ascii) : bool :=
  (65 <=? nat_of_ascii c)%nat && (nat_of_ascii c <=? 90)%nat.

Definition is_lower (c : ascii) : bool :=
  (97 <=? nat_of_ascii c)%nat && (nat_of_ascii c <=? 122)%nat.

Definition lower_char (c : ascii) : ascii :=
  if is_upper c then ascii_of_nat (nat_of_ascii c + 32) else c.

Definition upper_char (c : ascii) : ascii :=
  if is_lower c then ascii_of_nat (nat_of_ascii c - 32) else c.

Fixpoint str_map (f : ascii -> ascii) (s : string) : string :=
  match s with
  | "" => ""
  | String c r => String (f c) (str_map f r)
  end.

(** [s.lower()] *)
Definition str_lower (s : string) : string := str_map lower_char s.

(** [s.capitalize()]: first character upper-cased, the rest lower-cased. *)
Definition str_capitalize (s : string) : string :=
  match s with
  | "" => ""
  | String c r => String (upper_char c) (str_lower r)
  end.

(** [strip_prefix p s] is [Some rest] when [s = p ++ rest]. *)
Fixpoint strip_prefix (p s : string) : option string :=
  match p with
  | "" => Some s
  | String a p' =>
      match s with
      | "" => None
      | String b s' => if Ascii.eqb a b then strip_prefix p' s' else None
      end
  end.

(** The left-to-right scan behind [replace], [count] and [split]: at an
    occurrence of the pattern the scan jumps behind it, otherwise it
    moves on by one character.  [fuel] bounds the number of steps; the
    length of the text is always enough for a non-empty pattern. *)
Fixpoint replace_from (fuel : nat) (old new s : string) : string :=
  match fuel with
  | O => s
  | S fuel' =>
      match strip_prefix old s with
      | Some rest => new ++ replace_from fuel' old new rest
      | None =>
          match s with
          | "" => ""
          | String c s' => String c (replace_from fuel' old new s')
          end
      end
  end.

Fixpoint interleave (new s : string) : string :=
  match s with
  | "" => ""
  | String c r => String c (new ++ interleave new r)
  end.

(** [s.replace(old, new)]: every non-overlapping occurrence, leftmost
    first.  An empty [old] matches before every character and at the
    end. *)
Definition str_replace (s old new : string) : string :=
  match old with
  | "" => new ++ interleave new s
  | _ => replace_from (String.length s) old new s
  end.

Fixpoint count_from (fuel : nat) (sub s : string) : nat :=
  match fuel with
  | O => O
  | S fuel' =>
      match strip_prefix sub s with
      | Some rest => S (count_from fuel' sub rest)
      | None =>
          match s with
          | "" => O
          | String _ s' => count_from fuel' sub s'
          end
      end
  end.

(** [s.count(sub)]: the number of non-overlapping occurrences. *)
Definition str_count (s sub : string) : nat :=
  match sub with
  | "" => S (String.length s)
  | _ => count_from (String.length s) sub s
  end.

Fixpoint split_from (fuel : nat) (sep s : string) : list string :=
  match fuel with
  | O => [s]
  | S fuel' =>
      match strip_prefix sep s with
      | Some rest => "" :: split_from fuel' sep rest
      | None =>
          match s with
          | "" => [""]
          | String c s' =>
              match split_from fuel' sep s' with
              | seg :: segs => String c seg :: segs
              | [] => [String c ""]
              end
          end
      end
  end.

(** [s.split(sep)] for a non-empty separator (an empty one raises
    [ValueError] in Python; the script only ever splits on ["_"]). *)
Definition str_split (s sep : string) : list string :=
  split_from (String.length s) sep s.

(** [sep.join(parts)] *)
Fixpoint str_join (sep : string) (parts : list string) : string :=
  match parts with
  | [] => ""
  | [p] => p
  | p :: ps => p ++ sep ++ str_join sep ps
  end.

Fixpoint str_take (n : nat) (s : string) : string :=
  match n, s with
  | S n', String c r => String c (str_take n' r)
  | _, _ => ""
  end.

Fixpoint str_drop (n : nat) (s : string) : string :=
  match n, s with
  | S n', String _ r => str_drop n' r
  | _, _ => s
  end.

(** [s.endswith(suffix)] *)
Definition str_endswith (s suffix : string) : bool :=
  (String.length suffix <=? String.length s)%nat
  && String.eqb (str_drop (String.length s - String.length suffix) s) suffix.

(** [s[:-n]] for [n > 0]. *)
Definition str_drop_last (n : nat) (s : string) : string :=
  str_take (String.length s - n) s.

(** [sub in s] *)
Fixpoint str_contains (s sub : string) : bool :=
  match strip_prefix sub s with
  | Some _ => true
  | None =>
      match s with
      | "" => false
      | String _ s' => str_contains s' sub
      end
  end.

(** [Some t] when the path has a slash, [t] being what follows the last
    one. *)
Fixpoint after_last_slash (p : string) : option string :=
  match p with
  | "" => None
  | String c r =>
      match after_last_slash r with
      | Some t => Some t
      | None => if Ascii.eqb c "/" then Some r else None
      end
  end.

(** [os.path.basename(p)] on POSIX: [p[p.rfind('/') + 1:]]. *)
Definition os_path_basename (p : string) : string :=
  match after_last_slash p with
  | Some t => t
  | None => p
  end.

(** [str(Path(p))] for a relative POSIX path: empty and ["."] components
    are dropped, the rest joined by single slashes; no component at all
    is the current directory.  Every path the script builds is relative
    (it starts with [lua/] or is a bare file name). *)
Definition Path (p : string) : string :=
  match List.filter (fun x => negb (String.eqb x "") && negb (String.eqb x "."))
                    (str_split p "/") with
  | [] => "."
  | parts => str_join "/" parts
  end.

Fixpoint str_forall (p : ascii -> bool) (s : string) : bool :=
  match s with
  | "" => true
  | String c r => p c && str_forall p r
  end.

(** One of the two strings is a prefix of the other: they agree as far as
    both go. *)
Fixpoint comparable (a b : string) : bool :=
  match a, b with
  | String x a', String y b' => Ascii.eqb x y && comparable a' b'
  | _, _ => true
  end.

(** [p] holds of every non-empty suffix of [s]. *)
Fixpoint all_suffixes (p : string -> bool) (s : string) : bool :=
  match s with
  | "" => true
  | String _ r => p s && all_suffixes p r
  end.

(** No occurrence of [key] can overlap a copy of [value] set into a text:
    [key] does not run into or over the copy from the left (no non-empty
    suffix of [key] agrees with [value] from its start), and does not
    start inside the copy (no non-empty suffix of [value] agrees with
    [key] from its start).  An empty [value] never qualifies. *)
Definition overlap_free (value key : string) : bool :=
  all_suffixes (fun k => negb (comparable k value)) key
  && all_suffixes (fun v => negb (comparable key v)) value.

End Py.

Import Py.

(** ** Name derivation (rename_plugin.py, lines 19-26) *)

(** [name.replace('-', '_').lower()] *)
Definition to_snake_case (name : string) : string :=
  str_lower (str_replace name "-" "_").

(** [''.join(word.capitalize() for word in name.replace('-', '_').split('_'))] *)
Definition to_camel_case (name : string) : string :=
  str_join "" (List.map str_capitalize (str_split (str_replace name "-" "_") "_")).

(** ** Names as sequences of code points

    [str.lower] and [str.capitalize] are defined on code points: a mapping
    may give several code points for one, the first character of a word
    is put in title case, and a capital sigma is lowered by its context.
    This module follows CPython 3.11 ([do_lower], [do_capitalize],
    [lower_ucs4], [handle_capital_sigma] in [unicodeobject.c]) with the
    tables of Unicode 14.0.0. *)

Module Unicode.

(** [_PyUnicode_ToLowerFull]: the code points whose lower-case mapping is not
    the code point itself, each with its mapping (Unicode 14.0.0). *)
Definition lower_table : list (N * list N) :=
  [(65, [97]); (66, [98]); (67, [99]); (68, [100]); (69, [101]); (70, [102]);
   (71, [103]); (72, [104]); (73, [105]); (74, [106]); (75, [107]);
   (76, [108]); (77, [109]); (78, [110]); (79, [111]); (80, [112]);
   (81, [113]); (82, [114]); (83, [115]); (84, [116]); (85, [117]);
   (86, [118]); (87, [119]); (88, [120]); (89, [121]); (90, [122]);
   (192, [224]); (193, [225]); (194, [226]); (195, [227]); (196, [228]);
   (197, [229]); (198, [230]); (199, [231]); (200, [232]); (201, [233]);
   (202, [234]); (203, [235]); (204, [236]); (205, [237]); (206, [238]);
   (207, [239]); (208, [240]); (209, [241]); (210, [242]); (211, [243]);
   (212, [244]); (213, [245]); (214, [246]); (216, [248]); (217, [249]);
   (218, [250]); (219, [251]); (220, [252]); (221, [253]); (222, [254]);
   (256, [257]); (258, [259]); (260, [261]); (262, [263]); (264, [265]);
   (266, [267]); (268, [269]); (270, [271]); (272, [273]); (274, [275]);
   (276, [277]); (278, [279]); (280, [281]); (282, [283]); (284, [285]);
   (286, [287]); (288, [289]); (290, [291]); (292, [293]); (294, [295]);
   (296, [297]); (298, [299]); (300, [301]); (302, [303]); (304, [105; 775]);
   (306, [307]); (308, [309]); (310, [311]); (313, [314]); (315, [316]);
   (317, [318]); (319, [320]); (321, [322]); (323, [324]); (325, [326]);
   (327, [328]); (330, [331]); (332, [333]); (334, [335]); (336, [337]);
   (338, [339]); (340, [341]); (342, [343]); (344, [345]); (346, [347]);
   (348, [349]); (350, [351]); (352, [353]); (354, [355]); (356, [357]);
   (358, [359]); (360, [361]); (362, [363]); (364, [365]); (366, [367]);
   (368, [369]); (370, [371]); (372, [373]); (374, [375]); (376, [255]);
   (377, [378]); (379, [380]); (381, [382]); (385, [595]); (386, [387]);
   (388, [389]); (390, [596]); (391, [392]); (393, [598]); (394, [599]);
   (395, [396]); (398, [477]); (399, [601]); (400, [603]); (401, [402]);
   (403, [608]); (404, [611]); (406, [617]); (407, [616]); (408, [409]);
   (412, [623]); (413, [626]); (415, [629]); (416, [417]); (418, [419]);
   (420, [421]); (422, [640]); (423, [424]); (425, [643]); (428, [429]);
   (430, [648]); (431, [432]); (433, [650]); (434, [651]); (435, [436]);
   (437, [438]); (439, [658]); (440, [441]); (444, [445]); (452, [454]);
   (453, [454]); (455, [457]); (456, [457]); (458, [460]); (459, [460]);
   (461, [462]); (463, [464]); (465, [466]); (467, [468]); (469, [470]);
   (471, [472]); (473, [474]); (475, [476]); (478, [479]); (480, [481]);
   (482, [483]); (484, [485]); (486, [487]); (488, [489]); (490, [491]);
   (492, [493]); (494, [495]); (497, [499]); (498, [499]); (500, [501]);
   (502, [405]); (503, [447]); (504, [505]); (506, [507]); (508, [509]);
   (510, [511]); (512, [513]); (514, [515]); (516, [517]); (518, [519]);
   (520, [521]); (522, [523]); (524, [525]); (526, [527]); (528, [529]);
   (530, [531]); (532, [533]); (534, [535]); (536, [537]); (538, [539]);
   (540, [541]); (542, [543]); (544, [414]); (546, [547]); (548, [549]);
   (550, [551]); (552, [553]); (554, [555]); (556, [557]); (558, [559]);
   (560, [561]); (562, [563]); (570, [11365]); (571, [572]); (573, [410]);
   (574, [11366]); (577, [578]); (579, [384]); (580, [649]); (581, [652]);
   (582, [583]); (584, [585]); (586, [587]); (588, [589]); (590, [591]);
   (880, [881]); (882, [883]); (886, [887]); (895, [1011]); (902, [940]);
   (904, [941]); (905, [942]); (906, [943]); (908, [972]); (910, [973]);
   (911, [974]); (913, [945]); (914, [946]); (915, [947]); (916, [948]);
   (917, [949]); (918, [950]); (919, [951]); (920, [952]); (921, [953]);
   (922, [954]); (923, [955]); (924, [956]); (925, [957]); (926, [958]);
   (927, [959]); (928, [960]); (929, [961]); (931, [963]); (932, [964]);
   (933, [965]); (934, [966]); (935, [967]); (936, [968]); (937, [969]);
   (938, [970]); (939, [971]); (975, [983]); (984, [985]); (986, [987]);
   (988, [989]); (990, [991]); (992, [993]); (994, [995]); (996, [997]);
   (998, [999]); (1000, [1001]); (1002, [1003]); (1004, [1005]);
   (1006, [1007]); (1012, [952]); (1015, [1016]); (1017, [1010]);
   (1018, [1019]); (1021, [891]); (1022, [892]); (1023, [893]);
   (1024, [1104]); (1025, [1105]); (1026, [1106]); (1027, [1107]);
   (1028, [1108]); (1029, [1109]); (1030, [1110]); (1031, [1111]);
   (1032, [1112]); (1033, [1113]); (1034, [1114]); (1035, [1115]);
   (1036, [1116]); (1037, [1117]); (1038, [1118]); (1039, [1119]);
   (1040, [1072]); (1041, [1073]); (1042, [1074]); (1043, [1075]);
   (1044, [1076]); (1045, [1077]); (1046, [1078]); (1047, [1079]);
   (1048, [1080]); (1049, [1081]); (1050, [1082]); (1051, [1083]);
   (1052, [1084]); (1053, [1085]); (1054, [1086]); (1055, [1087]);
   (1056, [1088]); (1057, [1089]); (1058, [1090]); (1059, [1091]);
   (1060, [1092]); (1061, [1093]); (1062, [1094]); (1063, [1095]);
   (1064, [1096]); (1065, [1097]); (1066, [1098]); (1067, [1099]);
   (1068, [1100]); (1069, [1101]); (1070, [1102]); (1071, [1103]);
   (1120, [1121]); (1122, [1123]); (1124, [1125]); (1126, [1127]);
   (1128, [1129]); (1130, [1131]); (1132, [1133]); (1134, [1135]);
   (1136, [1137]); (1138, [1139]); (1140, [1141]); (1142, [1143]);
   (1144, [1145]); (1146, [1147]); (1148, [1149]); (1150, [1151]);
   (1152, [1153]); (1162, [1163]); (1164, [1165]); (1166, [1167]);
   (1168, [1169]); (1170, [1171]); (1172, [1173]); (1174, [1175]);
   (1176, [1177]); (1178, [1179]); (1180, [1181]); (1182, [1183]);
   (1184, [1185]); (1186, [1187]); (1188, [1189]); (1190, [1191]);
   (1192, [1193]); (1194, [1195]); (1196, [1197]); (1198, [1199]);
   (1200, [1201]); (1202, [1203]); (1204, [1205]); (1206, [1207]);
   (1208, [1209]); (1210, [1211]); (1212, [1213]); (1214, [1215]);
   (1216, [1231]); (1217, [1218]); (1219, [1220]); (1221, [1222]);
   (1223, [1224]); (1225, [1226]); (1227, [1228]); (1229, [1230]);
   (1232, [1233]); (1234, [1235]); (1236, [1237]); (1238, [1239]);
   (1240, [1241]); (1242, [1243]); (1244, [1245]); (1246, [1247]);
   (1248, [1249]); (1250, [1251]); (1252, [1253]); (1254, [1255]);
   (1256, [1257]); (1258, [1259]); (1260, [1261]); (1262, [1263]);
   (1264, [1265]); (1266, [1267]); (1268, [1269]); (1270, [1271]);
   (1272, [1273]); (1274, [1275]); (1276, [1277]); (1278, [1279]);
   (1280, [1281]); (1282, [1283]); (1284, [1285]); (1286, [1287]);
   (1288, [1289]); (1290, [1291]); (1292, [1293]); (1294, [1295]);
   (1296, [1297]); (1298, [1299]); (1300, [1301]); (1302, [1303]);
   (1304, [1305]); (1306, [1307]); (1308, [1309]); (1310, [1311]);
   (1312, [1313]); (1314, [1315]); (1316, [1317]); (1318, [1319]);
   (1320, [1321]); (1322, [1323]); (1324, [1325]); (1326, [1327]);
   (1329, [1377]); (1330, [1378]); (1331, [1379]); (1332, [1380]);
   (1333, [1381]); (1334, [1382]); (1335, [1383]); (1336, [1384]);
   (1337, [1385]); (1338, [1386]); (1339, [1387]); (1340, [1388]);
   (1341, [1389]); (1342, [1390]); (1343, [1391]); (1344, [1392]);
   (1345, [1393]); (1346, [1394]); (1347, [1395]); (1348, [1396]);
   (1349, [1397]); (1350, [1398]); (1351, [1399]); (1352, [1400]);
   (1353, [1401]); (1354, [1402]); (1355, [1403]); (1356, [1404]);
   (1357, [1405]); (1358, [1406]); (1359, [1407]); (1360, [1408]);
   (1361, [1409]); (1362, [1410]); (1363, [1411]); (1364, [1412]);
   (1365, [1413]); (1366, [1414]); (4256, [11520]); (4257, [11521]);
   (4258, [11522]); (4259, [11523]); (4260, [11524]); (4261, [11525]);
   (4262, [11526]); (4263, [11527]); (4264, [11528]); (4265, [11529]);
   (4266, [11530]); (4267, [11531]); (4268, [11532]); (4269, [11533]);
   (4270, [11534]); (4271, [11535]); (4272, [11536]); (4273, [11537]);
   (4274, [11538]); (4275, [11539]); (4276, [11540]); (4277, [11541]);
   (4278, [11542]); (4279, [11543]); (4280, [11544]); (4281, [11545]);
   (4282, [11546]); (4283, [11547]); (4284, [11548]); (4285, [11549]);
   (4286, [11550]); (4287, [11551]); (4288, [11552]); (4289, [11553]);
   (4290, [11554]); (4291, [11555]); (4292, [11556]); (4293, [11557]);
   (4295, [11559]); (4301, [11565]); (5024, [43888]); (5025, [43889]);
   (5026, [43890]); (5027, [43891]); (5028, [43892]); (5029, [43893]);
   (5030, [43894]); (5031, [43895]); (5032, [43896]); (5033, [43897]);
   (5034, [43898]); (5035, [43899]); (5036, [43900]); (5037, [43901]);
   (5038, [43902]); (5039, [43903]); (5040, [43904]); (5041, [43905]);
   (5042, [43906]); (5043, [43907]); (5044, [43908]); (5045, [43909]);
   (5046, [43910]); (5047, [43911]); (5048, [43912]); (5049, [43913]);
   (5050, [43914]); (5051, [43915]); (5052, [43916]); (5053, [43917]);
   (5054, [43918]); (5055, [43919]); (5056, [43920]); (5057, [43921]);
   (5058, [43922]); (5059, [43923]); (5060, [43924]); (5061, [43925]);
   (5062, [43926]); (5063, [43927]); (5064, [43928]); (5065, [43929]);
   (5066, [43930]); (5067, [43931]); (5068, [43932]); (5069, [43933]);
   (5070, [43934]); (5071, [43935]); (5072, [43936]); (5073, [43937]);
   (5074, [43938]); (5075, [43939]); (5076, [43940]); (5077, [43941]);
   (5078, [43942]); (5079, [43943]); (5080, [43944]); (5081, [43945]);
   (5082, [43946]); (5083, [43947]); (5084, [43948]); (5085, [43949]);
   (5086, [43950]); (5087, [43951]); (5088, [43952]); (5089, [43953]);
   (5090, [43954]); (5091, [43955]); (5092, [43956]); (5093, [43957]);
   (5094, [43958]); (5095, [43959]); (5096, [43960]); (5097, [43961]);
   (5098, [43962]); (5099, [43963]); (5100, [43964]); (5101, [43965]);
   (5102, [43966]); (5103, [43967]); (5104, [5112]); (5105, [5113]);
   (5106, [5114]); (5107, [5115]); (5108, [5116]); (5109, [5117]);
   (7312, [4304]); (7313, [4305]); (7314, [4306]); (7315, [4307]);
   (7316, [4308]); (7317, [4309]); (7318, [4310]); (7319, [4311]);
   (7320, [4312]); (7321, [4313]); (7322, [4314]); (7323, [4315]);
   (7324, [4316]); (7325, [4317]); (7326, [4318]); (7327, [4319]);
   (7328, [4320]); (7329, [4321]); (7330, [4322]); (7331, [4323]);
   (7332, [4324]); (7333, [4325]); (7334, [4326]); (7335, [4327]);
   (7336, [4328]); (7337, [4329]); (7338, [4330]); (7339, [4331]);
   (7340, [4332]); (7341, [4333]); (7342, [4334]); (7343, [4335]);
   (7344, [4336]); (7345, [4337]); (7346, [4338]); (7347, [4339]);
   (7348, [4340]); (7349, [4341]); (7350, [4342]); (7351, [4343]);
   (7352, [4344]); (7353, [4345]); (7354, [4346]); (7357, [4349]);
   (7358, [4350]); (7359, [4351]); (7680, [7681]); (7682, [7683]);
   (7684, [7685]); (7686, [7687]); (7688, [7689]); (7690, [7691]);
   (7692, [7693]); (7694, [7695]); (7696, [7697]); (7698, [7699]);
   (7700, [7701]); (7702, [7703]); (7704, [7705]); (7706, [7707]);
   (7708, [7709]); (7710, [7711]); (7712, [7713]); (7714, [7715]);
   (7716, [7717]); (7718, [7719]); (7720, [7721]); (7722, [7723]);
   (7724, [7725]); (7726, [7727]); (7728, [7729]); (7730, [7731]);
   (7732, [7733]); (7734, [7735]); (7736, [7737]); (7738, [7739]);
   (7740, [7741]); (7742, [7743]); (7744, [7745]); (7746, [7747]);
   (7748, [7749]); (7750, [7751]); (7752, [7753]); (7754, [7755]);
   (7756, [7757]); (7758, [7759]); (7760, [7761]); (7762, [7763]);
   (7764, [7765]); (7766, [7767]); (7768, [7769]); (7770, [7771]);
   (7772, [7773]); (7774, [7775]); (7776, [7777]); (7778, [7779]);
   (7780, [7781]); (7782, [7783]); (7784, [7785]); (7786, [7787]);
   (7788, [7789]); (7790, [7791]); (7792, [7793]); (7794, [7795]);
   (7796, [7797]); (7798, [7799]); (7800, [7801]); (7802, [7803]);
   (7804, [7805]); (7806, [7807]); (7808, [7809]); (7810, [7811]);
   (7812, [7813]); (7814, [7815]); (7816, [7817]); (7818, [7819]);
   (7820, [7821]); (7822, [7823]); (7824, [7825]); (7826, [7827]);
   (7828, [7829]); (7838, [223]); (7840, [7841]); (7842, [7843]);
   (7844, [7845]); (7846, [7847]); (7848, [7849]); (7850, [7851]);
   (7852, [7853]); (7854, [7855]); (7856, [7857]); (7858, [7859]);
   (7860, [7861]); (7862, [7863]); (7864, [7865]); (7866, [7867]);
   (7868, [7869]); (7870, [7871]); (7872, [7873]); (7874, [7875]);
   (7876, [7877]); (7878, [7879]); (7880, [7881]); (7882, [7883]);
   (7884, [7885]); (7886, [7887]); (7888, [7889]); (7890, [7891]);
   (7892, [7893]); (7894, [7895]); (7896, [7897]); (7898, [7899]);
   (7900, [7901]); (7902, [7903]); (7904, [7905]); (7906, [7907]);
   (7908, [7909]); (7910, [7911]); (7912, [7913]); (7914, [7915]);
   (7916, [7917]); (7918, [7919]); (7920, [7921]); (7922, [7923]);
   (7924, [7925]); (7926, [7927]); (7928, [7929]); (7930, [7931]);
   (7932, [7933]); (7934, [7935]); (7944, [7936]); (7945, [7937]);
   (7946, [7938]); (7947, [7939]); (7948, [7940]); (7949, [7941]);
   (7950, [7942]); (7951, [7943]); (7960, [7952]); (7961, [7953]);
   (7962, [7954]); (7963, [7955]); (7964, [7956]); (7965, [7957]);
   (7976, [7968]); (7977, [7969]); (7978, [7970]); (7979, [7971]);
   (7980, [7972]); (7981, [7973]); (7982, [7974]); (7983, [7975]);
   (7992, [7984]); (7993, [7985]); (7994, [7986]); (7995, [7987]);
   (7996, [7988]); (7997, [7989]); (7998, [7990]); (7999, [7991]);
   (8008, [8000]); (8009, [8001]); (8010, [8002]); (8011, [8003]);
   (8012, [8004]); (8013, [8005]); (8025, [8017]); (8027, [8019]);
   (8029, [8021]); (8031, [8023]); (8040, [8032]); (8041, [8033]);
   (8042, [8034]); (8043, [8035]); (8044, [8036]); (8045, [8037]);
   (8046, [8038]); (8047, [8039]); (8072, [8064]); (8073, [8065]);
   (8074, [8066]); (8075, [8067]); (8076, [8068]); (8077, [8069]);
   (8078, [8070]); (8079, [8071]); (8088, [8080]); (8089, [8081]);
   (8090, [8082]); (8091, [8083]); (8092, [8084]); (8093, [8085]);
   (8094, [8086]); (8095, [8087]); (8104, [8096]); (8105, [8097]);
   (8106, [8098]); (8107, [8099]); (8108, [8100]); (8109, [8101]);
   (8110, [8102]); (8111, [8103]); (8120, [8112]); (8121, [8113]);
   (8122, [8048]); (8123, [8049]); (8124, [8115]); (8136, [8050]);
   (8137, [8051]); (8138, [8052]); (8139, [8053]); (8140, [8131]);
   (8152, [8144]); (8153, [8145]); (8154, [8054]); (8155, [8055]);
   (8168, [8160]); (8169, [8161]); (8170, [8058]); (8171, [8059]);
   (8172, [8165]); (8184, [8056]); (8185, [8057]); (8186, [8060]);
   (8187, [8061]); (8188, [8179]); (8486, [969]); (8490, [107]);
   (8491, [229]); (8498, [8526]); (8544, [8560]); (8545, [8561]);
   (8546, [8562]); (8547, [8563]); (8548, [8564]); (8549, [8565]);
   (8550, [8566]); (8551, [8567]); (8552, [8568]); (8553, [8569]);
   (8554, [8570]); (8555, [8571]); (8556, [8572]); (8557, [8573]);
   (8558, [8574]); (8559, [8575]); (8579, [8580]); (9398, [9424]);
   (9399, [9425]); (9400, [9426]); (9401, [9427]); (9402, [9428]);
   (9403, [9429]); (9404, [9430]); (9405, [9431]); (9406, [9432]);
   (9407, [9433]); (9408, [9434]); (9409, [9435]); (9410, [9436]);
   (9411, [9437]); (9412, [9438]); (9413, [9439]); (9414, [9440]);
   (9415, [9441]); (9416, [9442]); (9417, [9443]); (9418, [9444]);
   (9419, [9445]); (9420, [9446]); (9421, [9447]); (9422, [9448]);
   (9423, [9449]); (11264, [11312]); (11265, [11313]); (11266, [11314]);
   (11267, [11315]); (11268, [11316]); (11269, [11317]); (11270, [11318]);
   (11271, [11319]); (11272, [11320]); (11273, [11321]); (11274, [11322]);
   (11275, [11323]); (11276, [11324]); (11277, [11325]); (11278, [11326]);
   (11279, [11327]); (11280, [11328]); (11281, [11329]); (11282, [11330]);
   (11283, [11331]); (11284, [11332]); (11285, [11333]); (11286, [11334]);
   (11287, [11335]); (11288, [11336]); (11289, [11337]); (11290, [11338]);
   (11291, [11339]); (11292, [11340]); (11293, [11341]); (11294, [11342]);
   (11295, [11343]); (11296, [11344]); (11297, [11345]); (11298, [11346]);
   (11299, [11347]); (11300, [11348]); (11301, [11349]); (11302, [11350]);
   (11303, [11351]); (11304, [11352]); (11305, [11353]); (11306, [11354]);
   (11307, [11355]); (11308, [11356]); (11309, [11357]); (11310, [11358]);
   (11311, [11359]); (11360, [11361]); (11362, [619]); (11363, [7549]);
   (11364, [637]); (11367, [11368]); (11369, [11370]); (11371, [11372]);
   (11373, [593]); (11374, [625]); (11375, [592]); (11376, [594]);
   (11378, [11379]); (11381, [11382]); (11390, [575]); (11391, [576]);
   (11392, [11393]); (11394, [11395]); (11396, [11397]); (11398, [11399]);
   (11400, [11401]); (11402, [11403]); (11404, [11405]); (11406, [11407]);
   (11408, [11409]); (11410, [11411]); (11412, [11413]); (11414, [11415]);
   (11416, [11417]); (11418, [11419]); (11420, [11421]); (11422, [11423]);
   (11424, [11425]); (11426, [11427]); (11428, [11429]); (11430, [11431]);
   (11432, [11433]); (11434, [11435]); (11436, [11437]); (11438, [11439]);
   (11440, [11441]); (11442, [11443]); (11444, [11445]); (11446, [11447]);
   (11448, [11449]); (11450, [11451]); (11452, [11453]); (11454, [11455]);
   (11456, [11457]); (11458, [11459]); (11460, [11461]); (11462, [11463]);
   (11464, [11465]); (11466, [11467]); (11468, [11469]); (11470, [11471]);
   (11472, [11473]); (11474, [11475]); (11476, [11477]); (11478, [11479]);
   (11480, [11481]); (11482, [11483]); (11484, [11485]); (11486, [11487]);
   (11488, [11489]); (11490, [11491]); (11499, [11500]); (11501, [11502]);
   (11506, [11507]); (42560, [42561]); (42562, [42563]); (42564, [42565]);
   (42566, [42567]); (42568, [42569]); (42570, [42571]); (42572, [42573]);
   (42574, [42575]); (42576, [42577]); (42578, [42579]); (42580, [42581]);
   (42582, [42583]); (42584, [42585]); (42586, [42587]); (42588, [42589]);
   (42590, [42591]); (42592, [42593]); (42594, [42595]); (42596, [42597]);
   (42598, [42599]); (42600, [42601]); (42602, [42603]); (42604, [42605]);
   (42624, [42625]); (42626, [42627]); (42628, [42629]); (42630, [42631]);
   (42632, [42633]); (42634, [42635]); (42636, [42637]); (42638, [42639]);
   (42640, [42641]); (42642, [42643]); (42644, [42645]); (42646, [42647]);
   (42648, [42649]); (42650, [42651]); (42786, [42787]); (42788, [42789]);
   (42790, [42791]); (42792, [42793]); (42794, [42795]); (42796, [42797]);
   (42798, [42799]); (42802, [42803]); (42804, [42805]); (42806, [42807]);
   (42808, [42809]); (42810, [42811]); (42812, [42813]); (42814, [42815]);
   (42816, [42817]); (42818, [42819]); (42820, [42821]); (42822, [42823]);
   (42824, [42825]); (42826, [42827]); (42828, [42829]); (42830, [42831]);
   (42832, [42833]); (42834, [42835]); (42836, [42837]); (42838, [42839]);
   (42840, [42841]); (42842, [42843]); (42844, [42845]); (42846, [42847]);
   (42848, [42849]); (42850, [42851]); (42852, [42853]); (42854, [42855]);
   (42856, [42857]); (42858, [42859]); (42860, [42861]); (42862, [42863]);
   (42873, [42874]); (42875, [42876]); (42877, [7545]); (42878, [42879]);
   (42880, [42881]); (42882, [42883]); (42884, [42885]); (42886, [42887]);
   (42891, [42892]); (42893, [613]); (42896, [42897]); (42898, [42899]);
   (42902, [42903]); (42904, [42905]); (42906, [42907]); (42908, [42909]);
   (42910, [42911]); (42912, [42913]); (42914, [42915]); (42916, [42917]);
   (42918, [42919]); (42920, [42921]); (42922, [614]); (42923, [604]);
   (42924, [609]); (42925, [620]); (42926, [618]); (42928, [670]);
   (42929, [647]); (42930, [669]); (42931, [43859]); (42932, [42933]);
   (42934, [42935]); (42936, [42937]); (42938, [42939]); (42940, [42941]);
   (42942, [42943]); (42944, [42945]); (42946, [42947]); (42948, [42900]);
   (42949, [642]); (42950, [7566]); (42951, [42952]); (42953, [42954]);
   (42960, [42961]); (42966, [42967]); (42968, [42969]); (42997, [42998]);
   (65313, [65345]); (65314, [65346]); (65315, [65347]); (65316, [65348]);
   (65317, [65349]); (65318, [65350]); (65319, [65351]); (65320, [65352]);
   (65321, [65353]); (65322, [65354]); (65323, [65355]); (65324, [65356]);
   (65325, [65357]); (65326, [65358]); (65327, [65359]); (65328, [65360]);
   (65329, [65361]); (65330, [65362]); (65331, [65363]); (65332, [65364]);
   (65333, [65365]); (65334, [65366]); (65335, [65367]); (65336, [65368]);
   (65337, [65369]); (65338, [65370]); (66560, [66600]); (66561, [66601]);
   (66562, [66602]); (66563, [66603]); (66564, [66604]); (66565, [66605]);
   (66566, [66606]); (66567, [66607]); (66568, [66608]); (66569, [66609]);
   (66570, [66610]); (66571, [66611]); (66572, [66612]); (66573, [66613]);
   (66574, [66614]); (66575, [66615]); (66576, [66616]); (66577, [66617]);
   (66578, [66618]); (66579, [66619]); (66580, [66620]); (66581, [66621]);
   (66582, [66622]); (66583, [66623]); (66584, [66624]); (66585, [66625]);
   (66586, [66626]); (66587, [66627]); (66588, [66628]); (66589, [66629]);
   (66590, [66630]); (66591, [66631]); (66592, [66632]); (66593, [66633]);
   (66594, [66634]); (66595, [66635]); (66596, [66636]); (66597, [66637]);
   (66598, [66638]); (66599, [66639]); (66736, [66776]); (66737, [66777]);
   (66738, [66778]); (66739, [66779]); (66740, [66780]); (66741, [66781]);
   (66742, [66782]); (66743, [66783]); (66744, [66784]); (66745, [66785]);
   (66746, [66786]); (66747, [66787]); (66748, [66788]); (66749, [66789]);
   (66750, [66790]); (66751, [66791]); (66752, [66792]); (66753, [66793]);
   (66754, [66794]); (66755, [66795]); (66756, [66796]); (66757, [66797]);
   (66758, [66798]); (66759, [66799]); (66760, [66800]); (66761, [66801]);
   (66762, [66802]); (66763, [66803]); (66764, [66804]); (66765, [66805]);
   (66766, [66806]); (66767, [66807]); (66768, [66808]); (66769, [66809]);
   (66770, [66810]); (66771, [66811]); (66928, [66967]); (66929, [66968]);
   (66930, [66969]); (66931, [66970]); (66932, [66971]); (66933, [66972]);
   (66934, [66973]); (66935, [66974]); (66936, [66975]); (66937, [66976]);
   (66938, [66977]); (66940, [66979]); (66941, [66980]); (66942, [66981]);
   (66943, [66982]); (66944, [66983]); (66945, [66984]); (66946, [66985]);
   (66947, [66986]); (66948, [66987]); (66949, [66988]); (66950, [66989]);
   (66951, [66990]); (66952, [66991]); (66953, [66992]); (66954, [66993]);
   (66956, [66995]); (66957, [66996]); (66958, [66997]); (66959, [66998]);
   (66960, [66999]); (66961, [67000]); (66962, [67001]); (66964, [67003]);
   (66965, [67004]); (68736, [68800]); (68737, [68801]); (68738, [68802]);
   (68739, [68803]); (68740, [68804]); (68741, [68805]); (68742, [68806]);
   (68743, [68807]); (68744, [68808]); (68745, [68809]); (68746, [68810]);
   (68747, [68811]); (68748, [68812]); (68749, [68813]); (68750, [68814]);
   (68751, [68815]); (68752, [68816]); (68753, [68817]); (68754, [68818]);
   (68755, [68819]); (68756, [68820]); (68757, [68821]); (68758, [68822]);
   (68759, [68823]); (68760, [68824]); (68761, [68825]); (68762, [68826]);
   (68763, [68827]); (68764, [68828]); (68765, [68829]); (68766, [68830]);
   (68767, [68831]); (68768, [68832]); (68769, [68833]); (68770, [68834]);
   (68771, [68835]); (68772, [68836]); (68773, [68837]); (68774, [68838]);
   (68775, [68839]); (68776, [68840]); (68777, [68841]); (68778, [68842]);
   (68779, [68843]); (68780, [68844]); (68781, [68845]); (68782, [68846]);
   (68783, [68847]); (68784, [68848]); (68785, [68849]); (68786, [68850]);
   (71840, [71872]); (71841, [71873]); (71842, [71874]); (71843, [71875]);
   (71844, [71876]); (71845, [71877]); (71846, [71878]); (71847, [71879]);
   (71848, [71880]); (71849, [71881]); (71850, [71882]); (71851, [71883]);
   (71852, [71884]); (71853, [71885]); (71854, [71886]); (71855, [71887]);
   (71856, [71888]); (71857, [71889]); (71858, [71890]); (71859, [71891]);
   (71860, [71892]); (71861, [71893]); (71862, [71894]); (71863, [71895]);
   (71864, [71896]); (71865, [71897]); (71866, [71898]); (71867, [71899]);
   (71868, [71900]); (71869, [71901]); (71870, [71902]); (71871, [71903]);
   (93760, [93792]); (93761, [93793]); (93762, [93794]); (93763, [93795]);
   (93764, [93796]); (93765, [93797]); (93766, [93798]); (93767, [93799]);
   (93768, [93800]); (93769, [93801]); (93770, [93802]); (93771, [93803]);
   (93772, [93804]); (93773, [93805]); (93774, [93806]); (93775, [93807]);
   (93776, [93808]); (93777, [93809]); (93778, [93810]); (93779, [93811]);
   (93780, [93812]); (93781, [93813]); (93782, [93814]); (93783, [93815]);
   (93784, [93816]); (93785, [93817]); (93786, [93818]); (93787, [93819]);
   (93788, [93820]); (93789, [93821]); (93790, [93822]); (93791, [93823]);
   (125184, [125218]); (125185, [125219]); (125186, [125220]);
   (125187, [125221]); (125188, [125222]); (125189, [125223]);
   (125190, [125224]); (125191, [125225]); (125192, [125226]);
   (125193, [125227]); (125194, [125228]); (125195, [125229]);
   (125196, [125230]); (125197, [125231]); (125198, [125232]);
   (125199, [125233]); (125200, [125234]); (125201, [125235]);
   (125202, [125236]); (125203, [125237]); (125204, [125238]);
   (125205, [125239]); (125206, [125240]); (125207, [125241]);
   (125208, [125242]); (125209, [125243]); (125210, [125244]);
   (125211, [125245]); (125212, [125246]); (125213, [125247]);
   (125214, [125248]); (125215, [125249]); (125216, [125250]);
   (125217, [125251])]%N.

(** [_PyUnicode_ToTitleFull]: the code points whose title-case mapping is not
    the code point itself, each with its mapping. *)
Definition title_table : list (N * list N) :=
  [(97, [65]); (98, [66]); (99, [67]); (100, [68]); (101, [69]); (102, [70]);
   (103, [71]); (104, [72]); (105, [73]); (106, [74]); (107, [75]);
   (108, [76]); (109, [77]); (110, [78]); (111, [79]); (112, [80]);
   (113, [81]); (114, [82]); (115, [83]); (116, [84]); (117, [85]);
   (118, [86]); (119, [87]); (120, [88]); (121, [89]); (122, [90]);
   (181, [924]); (223, [83; 115]); (224, [192]); (225, [193]); (226, [194]);
   (227, [195]); (228, [196]); (229, [197]); (230, [198]); (231, [199]);
   (232, [200]); (233, [201]); (234, [202]); (235, [203]); (236, [204]);
   (237, [205]); (238, [206]); (239, [207]); (240, [208]); (241, [209]);
   (242, [210]); (243, [211]); (244, [212]); (245, [213]); (246, [214]);
   (248, [216]); (249, [217]); (250, [218]); (251, [219]); (252, [220]);
   (253, [221]); (254, [222]); (255, [376]); (257, [256]); (259, [258]);
   (261, [260]); (263, [262]); (265, [264]); (267, [266]); (269, [268]);
   (271, [270]); (273, [272]); (275, [274]); (277, [276]); (279, [278]);
   (281, [280]); (283, [282]); (285, [284]); (287, [286]); (289, [288]);
   (291, [290]); (293, [292]); (295, [294]); (297, [296]); (299, [298]);
   (301, [300]); (303, [302]); (305, [73]); (307, [306]); (309, [308]);
   (311, [310]); (314, [313]); (316, [315]); (318, [317]); (320, [319]);
   (322, [321]); (324, [323]); (326, [325]); (328, [327]); (329, [700; 78]);
   (331, [330]); (333, [332]); (335, [334]); (337, [336]); (339, [338]);
   (341, [340]); (343, [342]); (345, [344]); (347, [346]); (349, [348]);
   (351, [350]); (353, [352]); (355, [354]); (357, [356]); (359, [358]);
   (361, [360]); (363, [362]); (365, [364]); (367, [366]); (369, [368]);
   (371, [370]); (373, [372]); (375, [374]); (378, [377]); (380, [379]);
   (382, [381]); (383, [83]); (384, [579]); (387, [386]); (389, [388]);
   (392, [391]); (396, [395]); (402, [401]); (405, [502]); (409, [408]);
   (410, [573]); (414, [544]); (417, [416]); (419, [418]); (421, [420]);
   (424, [423]); (429, [428]); (432, [431]); (436, [435]); (438, [437]);
   (441, [440]); (445, [444]); (447, [503]); (452, [453]); (454, [453]);
   (455, [456]); (457, [456]); (458, [459]); (460, [459]); (462, [461]);
   (464, [463]); (466, [465]); (468, [467]); (470, [469]); (472, [471]);
   (474, [473]); (476, [475]); (477, [398]); (479, [478]); (481, [480]);
   (483, [482]); (485, [484]); (487, [486]); (489, [488]); (491, [490]);
   (493, [492]); (495, [494]); (496, [74; 780]); (497, [498]); (499, [498]);
   (501, [500]); (505, [504]); (507, [506]); (509, [508]); (511, [510]);
   (513, [512]); (515, [514]); (517, [516]); (519, [518]); (521, [520]);
   (523, [522]); (525, [524]); (527, [526]); (529, [528]); (531, [530]);
   (533, [532]); (535, [534]); (537, [536]); (539, [538]); (541, [540]);
   (543, [542]); (547, [546]); (549, [548]); (551, [550]); (553, [552]);
   (555, [554]); (557, [556]); (559, [558]); (561, [560]); (563, [562]);
   (572, [571]); (575, [11390]); (576, [11391]); (578, [577]); (583, [582]);
   (585, [584]); (587, [586]); (589, [588]); (591, [590]); (592, [11375]);
   (593, [11373]); (594, [11376]); (595, [385]); (596, [390]); (598, [393]);
   (599, [394]); (601, [399]); (603, [400]); (604, [42923]); (608, [403]);
   (609, [42924]); (611, [404]); (613, [42893]); (614, [42922]);
   (616, [407]); (617, [406]); (618, [42926]); (619, [11362]);
   (620, [42925]); (623, [412]); (625, [11374]); (626, [413]); (629, [415]);
   (637, [11364]); (640, [422]); (642, [42949]); (643, [425]);
   (647, [42929]); (648, [430]); (649, [580]); (650, [433]); (651, [434]);
   (652, [581]); (658, [439]); (669, [42930]); (670, [42928]); (837, [921]);
   (881, [880]); (883, [882]); (887, [886]); (891, [1021]); (892, [1022]);
   (893, [1023]); (912, [921; 776; 769]); (940, [902]); (941, [904]);
   (942, [905]); (943, [906]); (944, [933; 776; 769]); (945, [913]);
   (946, [914]); (947, [915]); (948, [916]); (949, [917]); (950, [918]);
   (951, [919]); (952, [920]); (953, [921]); (954, [922]); (955, [923]);
   (956, [924]); (957, [925]); (958, [926]); (959, [927]); (960, [928]);
   (961, [929]); (962, [931]); (963, [931]); (964, [932]); (965, [933]);
   (966, [934]); (967, [935]); (968, [936]); (969, [937]); (970, [938]);
   (971, [939]); (972, [908]); (973, [910]); (974, [911]); (976, [914]);
   (977, [920]); (981, [934]); (982, [928]); (983, [975]); (985, [984]);
   (987, [986]); (989, [988]); (991, [990]); (993, [992]); (995, [994]);
   (997, [996]); (999, [998]); (1001, [1000]); (1003, [1002]);
   (1005, [1004]); (1007, [1006]); (1008, [922]); (1009, [929]);
   (1010, [1017]); (1011, [895]); (1013, [917]); (1016, [1015]);
   (1019, [1018]); (1072, [1040]); (1073, [1041]); (1074, [1042]);
   (1075, [1043]); (1076, [1044]); (1077, [1045]); (1078, [1046]);
   (1079, [1047]); (1080, [1048]); (1081, [1049]); (1082, [1050]);
   (1083, [1051]); (1084, [1052]); (1085, [1053]); (1086, [1054]);
   (1087, [1055]); (1088, [1056]); (1089, [1057]); (1090, [1058]);
   (1091, [1059]); (1092, [1060]); (1093, [1061]); (1094, [1062]);
   (1095, [1063]); (1096, [1064]); (1097, [1065]); (1098, [1066]);
   (1099, [1067]); (1100, [1068]); (1101, [1069]); (1102, [1070]);
   (1103, [1071]); (1104, [1024]); (1105, [1025]); (1106, [1026]);
   (1107, [1027]); (1108, [1028]); (1109, [1029]); (1110, [1030]);
   (1111, [1031]); (1112, [1032]); (1113, [1033]); (1114, [1034]);
   (1115, [1035]); (1116, [1036]); (1117, [1037]); (1118, [1038]);
   (1119, [1039]); (1121, [1120]); (1123, [1122]); (1125, [1124]);
   (1127, [1126]); (1129, [1128]); (1131, [1130]); (1133, [1132]);
   (1135, [1134]); (1137, [1136]); (1139, [1138]); (1141, [1140]);
   (1143, [1142]); (1145, [1144]); (1147, [1146]); (1149, [1148]);
   (1151, [1150]); (1153, [1152]); (1163, [1162]); (1165, [1164]);
   (1167, [1166]); (1169, [1168]); (1171, [1170]); (1173, [1172]);
   (1175, [1174]); (1177, [1176]); (1179, [1178]); (1181, [1180]);
   (1183, [1182]); (1185, [1184]); (1187, [1186]); (1189, [1188]);
   (1191, [1190]); (1193, [1192]); (1195, [1194]); (1197, [1196]);
   (1199, [1198]); (1201, [1200]); (1203, [1202]); (1205, [1204]);
   (1207, [1206]); (1209, [1208]); (1211, [1210]); (1213, [1212]);
   (1215, [1214]); (1218, [1217]); (1220, [1219]); (1222, [1221]);
   (1224, [1223]); (1226, [1225]); (1228, [1227]); (1230, [1229]);
   (1231, [1216]); (1233, [1232]); (1235, [1234]); (1237, [1236]);
   (1239, [1238]); (1241, [1240]); (1243, [1242]); (1245, [1244]);
   (1247, [1246]); (1249, [1248]); (1251, [1250]); (1253, [1252]);
   (1255, [1254]); (1257, [1256]); (1259, [1258]); (1261, [1260]);
   (1263, [1262]); (1265, [1264]); (1267, [1266]); (1269, [1268]);
   (1271, [1270]); (1273, [1272]); (1275, [1274]); (1277, [1276]);
   (1279, [1278]); (1281, [1280]); (1283, [1282]); (1285, [1284]);
   (1287, [1286]); (1289, [1288]); (1291, [1290]); (1293, [1292]);
   (1295, [1294]); (1297, [1296]); (1299, [1298]); (1301, [1300]);
   (1303, [1302]); (1305, [1304]); (1307, [1306]); (1309, [1308]);
   (1311, [1310]); (1313, [1312]); (1315, [1314]); (1317, [1316]);
   (1319, [1318]); (1321, [1320]); (1323, [1322]); (1325, [1324]);
   (1327, [1326]); (1377, [1329]); (1378, [1330]); (1379, [1331]);
   (1380, [1332]); (1381, [1333]); (1382, [1334]); (1383, [1335]);
   (1384, [1336]); (1385, [1337]); (1386, [1338]); (1387, [1339]);
   (1388, [1340]); (1389, [1341]); (1390, [1342]); (1391, [1343]);
   (1392, [1344]); (1393, [1345]); (1394, [1346]); (1395, [1347]);
   (1396, [1348]); (1397, [1349]); (1398, [1350]); (1399, [1351]);
   (1400, [1352]); (1401, [1353]); (1402, [1354]); (1403, [1355]);
   (1404, [1356]); (1405, [1357]); (1406, [1358]); (1407, [1359]);
   (1408, [1360]); (1409, [1361]); (1410, [1362]); (1411, [1363]);
   (1412, [1364]); (1413, [1365]); (1414, [1366]); (1415, [1333; 1410]);
   (5112, [5104]); (5113, [5105]); (5114, [5106]); (5115, [5107]);
   (5116, [5108]); (5117, [5109]); (7296, [1042]); (7297, [1044]);
   (7298, [1054]); (7299, [1057]); (7300, [1058]); (7301, [1058]);
   (7302, [1066]); (7303, [1122]); (7304, [42570]); (7545, [42877]);
   (7549, [11363]); (7566, [42950]); (7681, [7680]); (7683, [7682]);
   (7685, [7684]); (7687, [7686]); (7689, [7688]); (7691, [7690]);
   (7693, [7692]); (7695, [7694]); (7697, [7696]); (7699, [7698]);
   (7701, [7700]); (7703, [7702]); (7705, [7704]); (7707, [7706]);
   (7709, [7708]); (7711, [7710]); (7713, [7712]); (7715, [7714]);
   (7717, [7716]); (7719, [7718]); (7721, [7720]); (7723, [7722]);
   (7725, [7724]); (7727, [7726]); (7729, [7728]); (7731, [7730]);
   (7733, [7732]); (7735, [7734]); (7737, [7736]); (7739, [7738]);
   (7741, [7740]); (7743, [7742]); (7745, [7744]); (7747, [7746]);
   (7749, [7748]); (7751, [7750]); (7753, [7752]); (7755, [7754]);
   (7757, [7756]); (7759, [7758]); (7761, [7760]); (7763, [7762]);
   (7765, [7764]); (7767, [7766]); (7769, [7768]); (7771, [7770]);
   (7773, [7772]); (7775, [7774]); (7777, [7776]); (7779, [7778]);
   (7781, [7780]); (7783, [7782]); (7785, [7784]); (7787, [7786]);
   (7789, [7788]); (7791, [7790]); (7793, [7792]); (7795, [7794]);
   (7797, [7796]); (7799, [7798]); (7801, [7800]); (7803, [7802]);
   (7805, [7804]); (7807, [7806]); (7809, [7808]); (7811, [7810]);
   (7813, [7812]); (7815, [7814]); (7817, [7816]); (7819, [7818]);
   (7821, [7820]); (7823, [7822]); (7825, [7824]); (7827, [7826]);
   (7829, [7828]); (7830, [72; 817]); (7831, [84; 776]); (7832, [87; 778]);
   (7833, [89; 778]); (7834, [65; 702]); (7835, [7776]); (7841, [7840]);
   (7843, [7842]); (7845, [7844]); (7847, [7846]); (7849, [7848]);
   (7851, [7850]); (7853, [7852]); (7855, [7854]); (7857, [7856]);
   (7859, [7858]); (7861, [7860]); (7863, [7862]); (7865, [7864]);
   (7867, [7866]); (7869, [7868]); (7871, [7870]); (7873, [7872]);
   (7875, [7874]); (7877, [7876]); (7879, [7878]); (7881, [7880]);
   (7883, [7882]); (7885, [7884]); (7887, [7886]); (7889, [7888]);
   (7891, [7890]); (7893, [7892]); (7895, [7894]); (7897, [7896]);
   (7899, [7898]); (7901, [7900]); (7903, [7902]); (7905, [7904]);
   (7907, [7906]); (7909, [7908]); (7911, [7910]); (7913, [7912]);
   (7915, [7914]); (7917, [7916]); (7919, [7918]); (7921, [7920]);
   (7923, [7922]); (7925, [7924]); (7927, [7926]); (7929, [7928]);
   (7931, [7930]); (7933, [7932]); (7935, [7934]); (7936, [7944]);
   (7937, [7945]); (7938, [7946]); (7939, [7947]); (7940, [7948]);
   (7941, [7949]); (7942, [7950]); (7943, [7951]); (7952, [7960]);
   (7953, [7961]); (7954, [7962]); (7955, [7963]); (7956, [7964]);
   (7957, [7965]); (7968, [7976]); (7969, [7977]); (7970, [7978]);
   (7971, [7979]); (7972, [7980]); (7973, [7981]); (7974, [7982]);
   (7975, [7983]); (7984, [7992]); (7985, [7993]); (7986, [7994]);
   (7987, [7995]); (7988, [7996]); (7989, [7997]); (7990, [7998]);
   (7991, [7999]); (8000, [8008]); (8001, [8009]); (8002, [8010]);
   (8003, [8011]); (8004, [8012]); (8005, [8013]); (8016, [933; 787]);
   (8017, [8025]); (8018, [933; 787; 768]); (8019, [8027]);
   (8020, [933; 787; 769]); (8021, [8029]); (8022, [933; 787; 834]);
   (8023, [8031]); (8032, [8040]); (8033, [8041]); (8034, [8042]);
   (8035, [8043]); (8036, [8044]); (8037, [8045]); (8038, [8046]);
   (8039, [8047]); (8048, [8122]); (8049, [8123]); (8050, [8136]);
   (8051, [8137]); (8052, [8138]); (8053, [8139]); (8054, [8154]);
   (8055, [8155]); (8056, [8184]); (8057, [8185]); (8058, [8170]);
   (8059, [8171]); (8060, [8186]); (8061, [8187]); (8064, [8072]);
   (8065, [8073]); (8066, [8074]); (8067, [8075]); (8068, [8076]);
   (8069, [8077]); (8070, [8078]); (8071, [8079]); (8080, [8088]);
   (8081, [8089]); (8082, [8090]); (8083, [8091]); (8084, [8092]);
   (8085, [8093]); (8086, [8094]); (8087, [8095]); (8096, [8104]);
   (8097, [8105]); (8098, [8106]); (8099, [8107]); (8100, [8108]);
   (8101, [8109]); (8102, [8110]); (8103, [8111]); (8112, [8120]);
   (8113, [8121]); (8114, [8122; 837]); (8115, [8124]); (8116, [902; 837]);
   (8118, [913; 834]); (8119, [913; 834; 837]); (8126, [921]);
   (8130, [8138; 837]); (8131, [8140]); (8132, [905; 837]);
   (8134, [919; 834]); (8135, [919; 834; 837]); (8144, [8152]);
   (8145, [8153]); (8146, [921; 776; 768]); (8147, [921; 776; 769]);
   (8150, [921; 834]); (8151, [921; 776; 834]); (8160, [8168]);
   (8161, [8169]); (8162, [933; 776; 768]); (8163, [933; 776; 769]);
   (8164, [929; 787]); (8165, [8172]); (8166, [933; 834]);
   (8167, [933; 776; 834]); (8178, [8186; 837]); (8179, [8188]);
   (8180, [911; 837]); (8182, [937; 834]); (8183, [937; 834; 837]);
   (8526, [8498]); (8560, [8544]); (8561, [8545]); (8562, [8546]);
   (8563, [8547]); (8564, [8548]); (8565, [8549]); (8566, [8550]);
   (8567, [8551]); (8568, [8552]); (8569, [8553]); (8570, [8554]);
   (8571, [8555]); (8572, [8556]); (8573, [8557]); (8574, [8558]);
   (8575, [8559]); (8580, [8579]); (9424, [9398]); (9425, [9399]);
   (9426, [9400]); (9427, [9401]); (9428, [9402]); (9429, [9403]);
   (9430, [9404]); (9431, [9405]); (9432, [9406]); (9433, [9407]);
   (9434, [9408]); (9435, [9409]); (9436, [9410]); (9437, [9411]);
   (9438, [9412]); (9439, [9413]); (9440, [9414]); (9441, [9415]);
   (9442, [9416]); (9443, [9417]); (9444, [9418]); (9445, [9419]);
   (9446, [9420]); (9447, [9421]); (9448, [9422]); (9449, [9423]);
   (11312, [11264]); (11313, [11265]); (11314, [11266]); (11315, [11267]);
   (11316, [11268]); (11317, [11269]); (11318, [11270]); (11319, [11271]);
   (11320, [11272]); (11321, [11273]); (11322, [11274]); (11323, [11275]);
   (11324, [11276]); (11325, [11277]); (11326, [11278]); (11327, [11279]);
   (11328, [11280]); (11329, [11281]); (11330, [11282]); (11331, [11283]);
   (11332, [11284]); (11333, [11285]); (11334, [11286]); (11335, [11287]);
   (11336, [11288]); (11337, [11289]); (11338, [11290]); (11339, [11291]);
   (11340, [11292]); (11341, [11293]); (11342, [11294]); (11343, [11295]);
   (11344, [11296]); (11345, [11297]); (11346, [11298]); (11347, [11299]);
   (11348, [11300]); (11349, [11301]); (11350, [11302]); (11351, [11303]);
   (11352, [11304]); (11353, [11305]); (11354, [11306]); (11355, [11307]);
   (11356, [11308]); (11357, [11309]); (11358, [11310]); (11359, [11311]);
   (11361, [11360]); (11365, [570]); (11366, [574]); (11368, [11367]);
   (11370, [11369]); (11372, [11371]); (11379, [11378]); (11382, [11381]);
   (11393, [11392]); (11395, [11394]); (11397, [11396]); (11399, [11398]);
   (11401, [11400]); (11403, [11402]); (11405, [11404]); (11407, [11406]);
   (11409, [11408]); (11411, [11410]); (11413, [11412]); (11415, [11414]);
   (11417, [11416]); (11419, [11418]); (11421, [11420]); (11423, [11422]);
   (11425, [11424]); (11427, [11426]); (11429, [11428]); (11431, [11430]);
   (11433, [11432]); (11435, [11434]); (11437, [11436]); (11439, [11438]);
   (11441, [11440]); (11443, [11442]); (11445, [11444]); (11447, [11446]);
   (11449, [11448]); (11451, [11450]); (11453, [11452]); (11455, [11454]);
   (11457, [11456]); (11459, [11458]); (11461, [11460]); (11463, [11462]);
   (11465, [11464]); (11467, [11466]); (11469, [11468]); (11471, [11470]);
   (11473, [11472]); (11475, [11474]); (11477, [11476]); (11479, [11478]);
   (11481, [11480]); (11483, [11482]); (11485, [11484]); (11487, [11486]);
   (11489, [11488]); (11491, [11490]); (11500, [11499]); (11502, [11501]);
   (11507, [11506]); (11520, [4256]); (11521, [4257]); (11522, [4258]);
   (11523, [4259]); (11524, [4260]); (11525, [4261]); (11526, [4262]);
   (11527, [4263]); (11528, [4264]); (11529, [4265]); (11530, [4266]);
   (11531, [4267]); (11532, [4268]); (11533, [4269]); (11534, [4270]);
   (11535, [4271]); (11536, [4272]); (11537, [4273]); (11538, [4274]);
   (11539, [4275]); (11540, [4276]); (11541, [4277]); (11542, [4278]);
   (11543, [4279]); (11544, [4280]); (11545, [4281]); (11546, [4282]);
   (11547, [4283]); (11548, [4284]); (11549, [4285]); (11550, [4286]);
   (11551, [4287]); (11552, [4288]); (11553, [4289]); (11554, [4290]);
   (11555, [4291]); (11556, [4292]); (11557, [4293]); (11559, [4295]);
   (11565, [4301]); (42561, [42560]); (42563, [42562]); (42565, [42564]);
   (42567, [42566]); (42569, [42568]); (42571, [42570]); (42573, [42572]);
   (42575, [42574]); (42577, [42576]); (42579, [42578]); (42581, [42580]);
   (42583, [42582]); (42585, [42584]); (42587, [42586]); (42589, [42588]);
   (42591, [42590]); (42593, [42592]); (42595, [42594]); (42597, [42596]);
   (42599, [42598]); (42601, [42600]); (42603, [42602]); (42605, [42604]);
   (42625, [42624]); (42627, [42626]); (42629, [42628]); (42631, [42630]);
   (42633, [42632]); (42635, [42634]); (42637, [42636]); (42639, [42638]);
   (42641, [42640]); (42643, [42642]); (42645, [42644]); (42647, [42646]);
   (42649, [42648]); (42651, [42650]); (42787, [42786]); (42789, [42788]);
   (42791, [42790]); (42793, [42792]); (42795, [42794]); (42797, [42796]);
   (42799, [42798]); (42803, [42802]); (42805, [42804]); (42807, [42806]);
   (42809, [42808]); (42811, [42810]); (42813, [42812]); (42815, [42814]);
   (42817, [42816]); (42819, [42818]); (42821, [42820]); (42823, [42822]);
   (42825, [42824]); (42827, [42826]); (42829, [42828]); (42831, [42830]);
   (42833, [42832]); (42835, [42834]); (42837, [42836]); (42839, [42838]);
   (42841, [42840]); (42843, [42842]); (42845, [42844]); (42847, [42846]);
   (42849, [42848]); (42851, [42850]); (42853, [42852]); (42855, [42854]);
   (42857, [42856]); (42859, [42858]); (42861, [42860]); (42863, [42862]);
   (42874, [42873]); (42876, [42875]); (42879, [42878]); (42881, [42880]);
   (42883, [42882]); (42885, [42884]); (42887, [42886]); (42892, [42891]);
   (42897, [42896]); (42899, [42898]); (42900, [42948]); (42903, [42902]);
   (42905, [42904]); (42907, [42906]); (42909, [42908]); (42911, [42910]);
   (42913, [42912]); (42915, [42914]); (42917, [42916]); (42919, [42918]);
   (42921, [42920]); (42933, [42932]); (42935, [42934]); (42937, [42936]);
   (42939, [42938]); (42941, [42940]); (42943, [42942]); (42945, [42944]);
   (42947, [42946]); (42952, [42951]); (42954, [42953]); (42961, [42960]);
   (42967, [42966]); (42969, [42968]); (42998, [42997]); (43859, [42931]);
   (43888, [5024]); (43889, [5025]); (43890, [5026]); (43891, [5027]);
   (43892, [5028]); (43893, [5029]); (43894, [5030]); (43895, [5031]);
   (43896, [5032]); (43897, [5033]); (43898, [5034]); (43899, [5035]);
   (43900, [5036]); (43901, [5037]); (43902, [5038]); (43903, [5039]);
   (43904, [5040]); (43905, [5041]); (43906, [5042]); (43907, [5043]);
   (43908, [5044]); (43909, [5045]); (43910, [5046]); (43911, [5047]);
   (43912, [5048]); (43913, [5049]); (43914, [5050]); (43915, [5051]);
   (43916, [5052]); (43917, [5053]); (43918, [5054]); (43919, [5055]);
   (43920, [5056]); (43921, [5057]); (43922, [5058]); (43923, [5059]);
   (43924, [5060]); (43925, [5061]); (43926, [5062]); (43927, [5063]);
   (43928, [5064]); (43929, [5065]); (43930, [5066]); (43931, [5067]);
   (43932, [5068]); (43933, [5069]); (43934, [5070]); (43935, [5071]);
   (43936, [5072]); (43937, [5073]); (43938, [5074]); (43939, [5075]);
   (43940, [5076]); (43941, [5077]); (43942, [5078]); (43943, [5079]);
   (43944, [5080]); (43945, [5081]); (43946, [5082]); (43947, [5083]);
   (43948, [5084]); (43949, [5085]); (43950, [5086]); (43951, [5087]);
   (43952, [5088]); (43953, [5089]); (43954, [5090]); (43955, [5091]);
   (43956, [5092]); (43957, [5093]); (43958, [5094]); (43959, [5095]);
   (43960, [5096]); (43961, [5097]); (43962, [5098]); (43963, [5099]);
   (43964, [5100]); (43965, [5101]); (43966, [5102]); (43967, [5103]);
   (64256, [70; 102]); (64257, [70; 105]); (64258, [70; 108]);
   (64259, [70; 102; 105]); (64260, [70; 102; 108]); (64261, [83; 116]);
   (64262, [83; 116]); (64275, [1348; 1398]); (64276, [1348; 1381]);
   (64277, [1348; 1387]); (64278, [1358; 1398]); (64279, [1348; 1389]);
   (65345, [65313]); (65346, [65314]); (65347, [65315]); (65348, [65316]);
   (65349, [65317]); (65350, [65318]); (65351, [65319]); (65352, [65320]);
   (65353, [65321]); (65354, [65322]); (65355, [65323]); (65356, [65324]);
   (65357, [65325]); (65358, [65326]); (65359, [65327]); (65360, [65328]);
   (65361, [65329]); (65362, [65330]); (65363, [65331]); (65364, [65332]);
   (65365, [65333]); (65366, [65334]); (65367, [65335]); (65368, [65336]);
   (65369, [65337]); (65370, [65338]); (66600, [66560]); (66601, [66561]);
   (66602, [66562]); (66603, [66563]); (66604, [66564]); (66605, [66565]);
   (66606, [66566]); (66607, [66567]); (66608, [66568]); (66609, [66569]);
   (66610, [66570]); (66611, [66571]); (66612, [66572]); (66613, [66573]);
   (66614, [66574]); (66615, [66575]); (66616, [66576]); (66617, [66577]);
   (66618, [66578]); (66619, [66579]); (66620, [66580]); (66621, [66581]);
   (66622, [66582]); (66623, [66583]); (66624, [66584]); (66625, [66585]);
   (66626, [66586]); (66627, [66587]); (66628, [66588]); (66629, [66589]);
   (66630, [66590]); (66631, [66591]); (66632, [66592]); (66633, [66593]);
   (66634, [66594]); (66635, [66595]); (66636, [66596]); (66637, [66597]);
   (66638, [66598]); (66639, [66599]); (66776, [66736]); (66777, [66737]);
   (66778, [66738]); (66779, [66739]); (66780, [66740]); (66781, [66741]);
   (66782, [66742]); (66783, [66743]); (66784, [66744]); (66785, [66745]);
   (66786, [66746]); (66787, [66747]); (66788, [66748]); (66789, [66749]);
   (66790, [66750]); (66791, [66751]); (66792, [66752]); (66793, [66753]);
   (66794, [66754]); (66795, [66755]); (66796, [66756]); (66797, [66757]);
   (66798, [66758]); (66799, [66759]); (66800, [66760]); (66801, [66761]);
   (66802, [66762]); (66803, [66763]); (66804, [66764]); (66805, [66765]);
   (66806, [66766]); (66807, [66767]); (66808, [66768]); (66809, [66769]);
   (66810, [66770]); (66811, [66771]); (66967, [66928]); (66968, [66929]);
   (66969, [66930]); (66970, [66931]); (66971, [66932]); (66972, [66933]);
   (66973, [66934]); (66974, [66935]); (66975, [66936]); (66976, [66937]);
   (66977, [66938]); (66979, [66940]); (66980, [66941]); (66981, [66942]);
   (66982, [66943]); (66983, [66944]); (66984, [66945]); (66985, [66946]);
   (66986, [66947]); (66987, [66948]); (66988, [66949]); (66989, [66950]);
   (66990, [66951]); (66991, [66952]); (66992, [66953]); (66993, [66954]);
   (66995, [66956]); (66996, [66957]); (66997, [66958]); (66998, [66959]);
   (66999, [66960]); (67000, [66961]); (67001, [66962]); (67003, [66964]);
   (67004, [66965]); (68800, [68736]); (68801, [68737]); (68802, [68738]);
   (68803, [68739]); (68804, [68740]); (68805, [68741]); (68806, [68742]);
   (68807, [68743]); (68808, [68744]); (68809, [68745]); (68810, [68746]);
   (68811, [68747]); (68812, [68748]); (68813, [68749]); (68814, [68750]);
   (68815, [68751]); (68816, [68752]); (68817, [68753]); (68818, [68754]);
   (68819, [68755]); (68820, [68756]); (68821, [68757]); (68822, [68758]);
   (68823, [68759]); (68824, [68760]); (68825, [68761]); (68826, [68762]);
   (68827, [68763]); (68828, [68764]); (68829, [68765]); (68830, [68766]);
   (68831, [68767]); (68832, [68768]); (68833, [68769]); (68834, [68770]);
   (68835, [68771]); (68836, [68772]); (68837, [68773]); (68838, [68774]);
   (68839, [68775]); (68840, [68776]); (68841, [68777]); (68842, [68778]);
   (68843, [68779]); (68844, [68780]); (68845, [68781]); (68846, [68782]);
   (68847, [68783]); (68848, [68784]); (68849, [68785]); (68850, [68786]);
   (71872, [71840]); (71873, [71841]); (71874, [71842]); (71875, [71843]);
   (71876, [71844]); (71877, [71845]); (71878, [71846]); (71879, [71847]);
   (71880, [71848]); (71881, [71849]); (71882, [71850]); (71883, [71851]);
   (71884, [71852]); (71885, [71853]); (71886, [71854]); (71887, [71855]);
   (71888, [71856]); (71889, [71857]); (71890, [71858]); (71891, [71859]);
   (71892, [71860]); (71893, [71861]); (71894, [71862]); (71895, [71863]);
   (71896, [71864]); (71897, [71865]); (71898, [71866]); (71899, [71867]);
   (71900, [71868]); (71901, [71869]); (71902, [71870]); (71903, [71871]);
   (93792, [93760]); (93793, [93761]); (93794, [93762]); (93795, [93763]);
   (93796, [93764]); (93797, [93765]); (93798, [93766]); (93799, [93767]);
   (93800, [93768]); (93801, [93769]); (93802, [93770]); (93803, [93771]);
   (93804, [93772]); (93805, [93773]); (93806, [93774]); (93807, [93775]);
   (93808, [93776]); (93809, [93777]); (93810, [93778]); (93811, [93779]);
   (93812, [93780]); (93813, [93781]); (93814, [93782]); (93815, [93783]);
   (93816, [93784]); (93817, [93785]); (93818, [93786]); (93819, [93787]);
   (93820, [93788]); (93821, [93789]); (93822, [93790]); (93823, [93791]);
   (125218, [125184]); (125219, [125185]); (125220, [125186]);
   (125221, [125187]); (125222, [125188]); (125223, [125189]);
   (125224, [125190]); (125225, [125191]); (125226, [125192]);
   (125227, [125193]); (125228, [125194]); (125229, [125195]);
   (125230, [125196]); (125231, [125197]); (125232, [125198]);
   (125233, [125199]); (125234, [125200]); (125235, [125201]);
   (125236, [125202]); (125237, [125203]); (125238, [125204]);
   (125239, [125205]); (125240, [125206]); (125241, [125207]);
   (125242, [125208]); (125243, [125209]); (125244, [125210]);
   (125245, [125211]); (125246, [125212]); (125247, [125213]);
   (125248, [125214]); (125249, [125215]); (125250, [125216]);
   (125251, [125217])]%N.

(** [_PyUnicode_IsCaseIgnorable]: the ranges of the property Case_Ignorable. *)
Definition case_ignorable_ranges : list (N * N) :=
  [(39, 39); (46, 46); (58, 58); (94, 94); (96, 96); (168, 168); (173, 173);
   (175, 175); (180, 180); (183, 184); (688, 879); (884, 885); (890, 890);
   (900, 901); (903, 903); (1155, 1161); (1369, 1369); (1375, 1375);
   (1425, 1469); (1471, 1471); (1473, 1474); (1476, 1477); (1479, 1479);
   (1524, 1524); (1536, 1541); (1552, 1562); (1564, 1564); (1600, 1600);
   (1611, 1631); (1648, 1648); (1750, 1757); (1759, 1768); (1770, 1773);
   (1807, 1807); (1809, 1809); (1840, 1866); (1958, 1968); (2027, 2037);
   (2042, 2042); (2045, 2045); (2070, 2093); (2137, 2139); (2184, 2184);
   (2192, 2193); (2200, 2207); (2249, 2306); (2362, 2362); (2364, 2364);
   (2369, 2376); (2381, 2381); (2385, 2391); (2402, 2403); (2417, 2417);
   (2433, 2433); (2492, 2492); (2497, 2500); (2509, 2509); (2530, 2531);
   (2558, 2558); (2561, 2562); (2620, 2620); (2625, 2626); (2631, 2632);
   (2635, 2637); (2641, 2641); (2672, 2673); (2677, 2677); (2689, 2690);
   (2748, 2748); (2753, 2757); (2759, 2760); (2765, 2765); (2786, 2787);
   (2810, 2815); (2817, 2817); (2876, 2876); (2879, 2879); (2881, 2884);
   (2893, 2893); (2901, 2902); (2914, 2915); (2946, 2946); (3008, 3008);
   (3021, 3021); (3072, 3072); (3076, 3076); (3132, 3132); (3134, 3136);
   (3142, 3144); (3146, 3149); (3157, 3158); (3170, 3171); (3201, 3201);
   (3260, 3260); (3263, 3263); (3270, 3270); (3276, 3277); (3298, 3299);
   (3328, 3329); (3387, 3388); (3393, 3396); (3405, 3405); (3426, 3427);
   (3457, 3457); (3530, 3530); (3538, 3540); (3542, 3542); (3633, 3633);
   (3636, 3642); (3654, 3662); (3761, 3761); (3764, 3772); (3782, 3782);
   (3784, 3789); (3864, 3865); (3893, 3893); (3895, 3895); (3897, 3897);
   (3953, 3966); (3968, 3972); (3974, 3975); (3981, 3991); (3993, 4028);
   (4038, 4038); (4141, 4144); (4146, 4151); (4153, 4154); (4157, 4158);
   (4184, 4185); (4190, 4192); (4209, 4212); (4226, 4226); (4229, 4230);
   (4237, 4237); (4253, 4253); (4348, 4348); (4957, 4959); (5906, 5908);
   (5938, 5939); (5970, 5971); (6002, 6003); (6068, 6069); (6071, 6077);
   (6086, 6086); (6089, 6099); (6103, 6103); (6109, 6109); (6155, 6159);
   (6211, 6211); (6277, 6278); (6313, 6313); (6432, 6434); (6439, 6440);
   (6450, 6450); (6457, 6459); (6679, 6680); (6683, 6683); (6742, 6742);
   (6744, 6750); (6752, 6752); (6754, 6754); (6757, 6764); (6771, 6780);
   (6783, 6783); (6823, 6823); (6832, 6862); (6912, 6915); (6964, 6964);
   (6966, 6970); (6972, 6972); (6978, 6978); (7019, 7027); (7040, 7041);
   (7074, 7077); (7080, 7081); (7083, 7085); (7142, 7142); (7144, 7145);
   (7149, 7149); (7151, 7153); (7212, 7219); (7222, 7223); (7288, 7293);
   (7376, 7378); (7380, 7392); (7394, 7400); (7405, 7405); (7412, 7412);
   (7416, 7417); (7468, 7530); (7544, 7544); (7579, 7679); (8125, 8125);
   (8127, 8129); (8141, 8143); (8157, 8159); (8173, 8175); (8189, 8190);
   (8203, 8207); (8216, 8217); (8228, 8228); (8231, 8231); (8234, 8238);
   (8288, 8292); (8294, 8303); (8305, 8305); (8319, 8319); (8336, 8348);
   (8400, 8432); (11388, 11389); (11503, 11505); (11631, 11631);
   (11647, 11647); (11744, 11775); (11823, 11823); (12293, 12293);
   (12330, 12333); (12337, 12341); (12347, 12347); (12441, 12446);
   (12540, 12542); (40981, 40981); (42232, 42237); (42508, 42508);
   (42607, 42610); (42612, 42621); (42623, 42623); (42652, 42655);
   (42736, 42737); (42752, 42785); (42864, 42864); (42888, 42890);
   (42994, 42996); (43000, 43001); (43010, 43010); (43014, 43014);
   (43019, 43019); (43045, 43046); (43052, 43052); (43204, 43205);
   (43232, 43249); (43263, 43263); (43302, 43309); (43335, 43345);
   (43392, 43394); (43443, 43443); (43446, 43449); (43452, 43453);
   (43471, 43471); (43493, 43494); (43561, 43566); (43569, 43570);
   (43573, 43574); (43587, 43587); (43596, 43596); (43632, 43632);
   (43644, 43644); (43696, 43696); (43698, 43700); (43703, 43704);
   (43710, 43711); (43713, 43713); (43741, 43741); (43756, 43757);
   (43763, 43764); (43766, 43766); (43867, 43871); (43881, 43883);
   (44005, 44005); (44008, 44008); (44013, 44013); (64286, 64286);
   (64434, 64450); (65024, 65039); (65043, 65043); (65056, 65071);
   (65106, 65106); (65109, 65109); (65279, 65279); (65287, 65287);
   (65294, 65294); (65306, 65306); (65342, 65342); (65344, 65344);
   (65392, 65392); (65438, 65439); (65507, 65507); (65529, 65531);
   (66045, 66045); (66272, 66272); (66422, 66426); (67456, 67461);
   (67463, 67504); (67506, 67514); (68097, 68099); (68101, 68102);
   (68108, 68111); (68152, 68154); (68159, 68159); (68325, 68326);
   (68900, 68903); (69291, 69292); (69446, 69456); (69506, 69509);
   (69633, 69633); (69688, 69702); (69744, 69744); (69747, 69748);
   (69759, 69761); (69811, 69814); (69817, 69818); (69821, 69821);
   (69826, 69826); (69837, 69837); (69888, 69890); (69927, 69931);
   (69933, 69940); (70003, 70003); (70016, 70017); (70070, 70078);
   (70089, 70092); (70095, 70095); (70191, 70193); (70196, 70196);
   (70198, 70199); (70206, 70206); (70367, 70367); (70371, 70378);
   (70400, 70401); (70459, 70460); (70464, 70464); (70502, 70508);
   (70512, 70516); (70712, 70719); (70722, 70724); (70726, 70726);
   (70750, 70750); (70835, 70840); (70842, 70842); (70847, 70848);
   (70850, 70851); (71090, 71093); (71100, 71101); (71103, 71104);
   (71132, 71133); (71219, 71226); (71229, 71229); (71231, 71232);
   (71339, 71339); (71341, 71341); (71344, 71349); (71351, 71351);
   (71453, 71455); (71458, 71461); (71463, 71467); (71727, 71735);
   (71737, 71738); (71995, 71996); (71998, 71998); (72003, 72003);
   (72148, 72151); (72154, 72155); (72160, 72160); (72193, 72202);
   (72243, 72248); (72251, 72254); (72263, 72263); (72273, 72278);
   (72281, 72283); (72330, 72342); (72344, 72345); (72752, 72758);
   (72760, 72765); (72767, 72767); (72850, 72871); (72874, 72880);
   (72882, 72883); (72885, 72886); (73009, 73014); (73018, 73018);
   (73020, 73021); (73023, 73029); (73031, 73031); (73104, 73105);
   (73109, 73109); (73111, 73111); (73459, 73460); (78896, 78904);
   (92912, 92916); (92976, 92982); (92992, 92995); (94031, 94031);
   (94095, 94111); (94176, 94177); (94179, 94180); (110576, 110579);
   (110581, 110587); (110589, 110590); (113821, 113822); (113824, 113827);
   (118528, 118573); (118576, 118598); (119143, 119145); (119155, 119170);
   (119173, 119179); (119210, 119213); (119362, 119364); (121344, 121398);
   (121403, 121452); (121461, 121461); (121476, 121476); (121499, 121503);
   (121505, 121519); (122880, 122886); (122888, 122904); (122907, 122913);
   (122915, 122916); (122918, 122922); (123184, 123197); (123566, 123566);
   (123628, 123631); (125136, 125142); (125252, 125259); (127995, 127999);
   (917505, 917505); (917536, 917631); (917760, 917999)]%N.

(** [_PyUnicode_IsCased]: the ranges of the property Cased. *)
Definition cased_ranges : list (N * N) :=
  [(65, 90); (97, 122); (170, 170); (181, 181); (186, 186); (192, 214);
   (216, 246); (248, 442); (444, 447); (452, 659); (661, 696); (704, 705);
   (736, 740); (837, 837); (880, 883); (886, 887); (890, 893); (895, 895);
   (902, 902); (904, 906); (908, 908); (910, 929); (931, 1013); (1015, 1153);
   (1162, 1327); (1329, 1366); (1376, 1416); (4256, 4293); (4295, 4295);
   (4301, 4301); (4304, 4346); (4349, 4351); (5024, 5109); (5112, 5117);
   (7296, 7304); (7312, 7354); (7357, 7359); (7424, 7615); (7680, 7957);
   (7960, 7965); (7968, 8005); (8008, 8013); (8016, 8023); (8025, 8025);
   (8027, 8027); (8029, 8029); (8031, 8061); (8064, 8116); (8118, 8124);
   (8126, 8126); (8130, 8132); (8134, 8140); (8144, 8147); (8150, 8155);
   (8160, 8172); (8178, 8180); (8182, 8188); (8305, 8305); (8319, 8319);
   (8336, 8348); (8450, 8450); (8455, 8455); (8458, 8467); (8469, 8469);
   (8473, 8477); (8484, 8484); (8486, 8486); (8488, 8488); (8490, 8493);
   (8495, 8500); (8505, 8505); (8508, 8511); (8517, 8521); (8526, 8526);
   (8544, 8575); (8579, 8580); (9398, 9449); (11264, 11492); (11499, 11502);
   (11506, 11507); (11520, 11557); (11559, 11559); (11565, 11565);
   (42560, 42605); (42624, 42653); (42786, 42887); (42891, 42894);
   (42896, 42954); (42960, 42961); (42963, 42963); (42965, 42969);
   (42997, 42998); (43000, 43002); (43824, 43866); (43868, 43880);
   (43888, 43967); (64256, 64262); (64275, 64279); (65313, 65338);
   (65345, 65370); (66560, 66639); (66736, 66771); (66776, 66811);
   (66928, 66938); (66940, 66954); (66956, 66962); (66964, 66965);
   (66967, 66977); (66979, 66993); (66995, 67001); (67003, 67004);
   (67456, 67456); (67459, 67461); (67463, 67504); (67506, 67514);
   (68736, 68786); (68800, 68850); (71840, 71903); (93760, 93823);
   (119808, 119892); (119894, 119964); (119966, 119967); (119970, 119970);
   (119973, 119974); (119977, 119980); (119982, 119993); (119995, 119995);
   (119997, 120003); (120005, 120069); (120071, 120074); (120077, 120084);
   (120086, 120092); (120094, 120121); (120123, 120126); (120128, 120132);
   (120134, 120134); (120138, 120144); (120146, 120485); (120488, 120512);
   (120514, 120538); (120540, 120570); (120572, 120596); (120598, 120628);
   (120630, 120654); (120656, 120686); (120688, 120712); (120714, 120744);
   (120746, 120770); (120772, 120779); (122624, 122633); (122635, 122654);
   (125184, 125251); (127280, 127305); (127312, 127337); (127344, 127369)]%N.

Definition assoc (c : N) (table : list (N * list N)) : option (list N) :=
  match List.find (fun kv => N.eqb c (fst kv)) table with
  | Some kv => Some (snd kv)
  | None => None
  end.

Definition in_ranges (c : N) (ranges : list (N * N)) : bool :=
  existsb (fun r => N.leb (fst r) c && N.leb c (snd r)) ranges.

Definition to_lower_full (c : N) : list N :=
  match assoc c lower_table with
  | Some mapped => mapped
  | None => [c]
  end.

Definition to_title_full (c : N) : list N :=
  match assoc c title_table with
  | Some mapped => mapped
  | None => [c]
  end.

Definition is_case_ignorable (c : N) : bool := in_ranges c case_ignorable_ranges.

Definition is_cased (c : N) : bool := in_ranges c cased_ranges.

(** The first code point that is not case-ignorable. *)
Fixpoint first_not_ignorable (s : list N) : option N :=
  match s with
  | [] => None
  | c :: rest => if is_case_ignorable c then first_not_ignorable rest else Some c
  end.

(** [handle_capital_sigma]: U+03A3 is a final sigma when a cased code point
    precedes it and none follows it, case-ignorable code points skipped on
    both sides.  [before] is what precedes, nearest first. *)
Definition final_sigma (before after : list N) : bool :=
  match first_not_ignorable before with
  | Some c =>
      is_cased c
      && match first_not_ignorable after with
         | Some d => negb (is_cased d)
         | None => true
         end
  | None => false
  end.

(** [lower_ucs4] *)
Definition lower_ucs4 (before : list N) (c : N) (after : list N) : list N :=
  if N.eqb c 931 then [if final_sigma before after then 962%N else 963%N]
  else to_lower_full c.

(** [do_lower] from a position on; [before] is what precedes it in the
    string, nearest first. *)
Fixpoint do_lower (before s : list N) : list N :=
  match s with
  | [] => []
  | c :: rest => (lower_ucs4 before c rest ++ do_lower (c :: before) rest)%list
  end.

(** [s.lower()] *)
Definition str_lower (s : list N) : list N := do_lower [] s.

(** [s.capitalize()]: the first code point in title case, the others in
    lower case. *)
Definition str_capitalize (s : list N) : list N :=
  match s with
  | [] => []
  | c :: rest => (to_title_full c ++ do_lower [c] rest)%list
  end.

Fixpoint strip_prefix (p s : list N) : option (list N) :=
  match p with
  | [] => Some s
  | a :: p' =>
      match s with
      | [] => None
      | b :: s' => if N.eqb a b then strip_prefix p' s' else None
      end
  end.

Fixpoint replace_from (fuel : nat) (old new s : list N) : list N :=
  match fuel with
  | O => s
  | S fuel' =>
      match strip_prefix old s with
      | Some rest => (new ++ replace_from fuel' old new rest)%list
      | None =>
          match s with
          | [] => []
          | c :: s' => c :: replace_from fuel' old new s'
          end
      end
  end.

(** [s.replace(old, new)] for a non-empty [old]. *)
Definition str_replace (s old new : list N) : list N :=
  replace_from (List.length s) old new s.

Fixpoint split_from (fuel : nat) (sep s : list N) : list (list N) :=
  match fuel with
  | O => [s]
  | S fuel' =>
      match strip_prefix sep s with
      | Some rest => [] :: split_from fuel' sep rest
      | None =>
          match s with
          | [] => [[]]
          | c :: s' =>
              match split_from fuel' sep s' with
              | seg :: segs => (c :: seg) :: segs
              | [] => [[c]]
              end
          end
      end
  end.

(** [s.split(sep)] for a non-empty [sep]. *)
Definition str_split (s sep : list N) : list (list N) :=
  split_from (List.length s) sep s.

(** The code points of a string of ASCII characters. *)
Definition codes (s : string) : list N :=
  List.map N_of_ascii (list_ascii_of_string s).

(** [to_snake_case] and [to_camel_case] of the script, on code points. *)
Definition to_snake_case (name : list N) : list N :=
  str_lower (str_replace name (codes "-") (codes "_")).

Definition to_camel_case (name : list N) : list N :=
  List.concat (List.map str_capitalize
                 (str_split (str_replace name (codes "-") (codes "_")) (codes "_"))).

Definition ascii_lower (c : N) : N :=
  if ((65 <=? c) && (c <=? 90))%N then (c + 32)%N else c.

Definition ascii_upper (c : N) : N :=
  if ((97 <=? c) && (c <=? 122))%N then (c - 32)%N else c.

Definition is_delimiter (c : N) : bool := N.eqb c 45 || N.eqb c 95.

(** The segments between the delimiters ['-'] and ['_'] (empty ones
    included). *)
Fixpoint segments (name : list N) : list (list N) :=
  match name with
  | [] => [[]]
  | c :: rest =>
      if is_delimiter c then [] :: segments rest
      else match segments rest with
           | seg :: segs => (c :: seg) :: segs
           | [] => [[c]]
           end
  end.

End Unicode.

(** ** The name forms as the specification words them *)

Module Spec.

Definition dash_to_underscore (c : ascii) : ascii :=
  if Ascii.eqb c "-" then "_"%char else c.

(** Snake form: every ['-'] replaced by ['_'], the whole lower-cased. *)
Definition snake_form (name : string) : string :=
  str_lower (str_map dash_to_underscore name).

Definition is_delimiter (c : ascii) : bool :=
  Ascii.eqb c "-" || Ascii.eqb c "_".

(** The segments between delimiters (empty ones included). *)
Fixpoint segments (name : string) : list string :=
  match name with
  | "" => [""]
  | String c r =>
      if is_delimiter c then "" :: segments r
      else match segments r with
           | seg :: segs => String c seg :: segs
           | [] => [String c ""]
           end
  end.

Fixpoint concat_all (parts : list string) : string :=
  match parts with
  | [] => ""
  | p :: ps => p ++ concat_all ps
  end.

(** Capitalized form: split on ['-'] and ['_'], capitalize each segment,
    concatenate with no separator. *)
Definition capitalized_form (name : string) : string :=
  concat_all (List.map str_capitalize (segments name)).

End Spec.

(** ** The world the script runs in *)

Inductive node : Type :=
| File (text : string)
| Dir.

(** The exceptions that can arise; all are subclasses of [Exception]. *)
Inductive exn : Type :=
| FileNotFoundError
| IsADirectoryError
| ShutilError
| CalledProcessError
| SpawnError
| NameTooLongError.

Inductive result (A : Type) : Type :=
| Ok (a : A)
| Raise (e : exn).
Arguments Ok {A} a.
Arguments Raise {A} e.

Record world : Type := World {
  fs : gmap string node;
  console : list string;
  spawned : list (list string)
}.

(** State-and-exception monad: the world reached is returned also when an
    exception is raised (what was written before stays written). *)
Definition M (A : Type) : Type := world -> world * result A.

Definition ret {A} (a : A) : M A := fun w => (w, Ok a).

Definition bind {A B} (m : M A) (k : A -> M B) : M B :=
  fun w =>
    match m w with
    | (w', Ok a) => k a w'
    | (w', Raise e) => (w', Raise e)
    end.

Notation "x <- m ;; k" := (bind m (fun x => k))
  (at level 100, m at next level, right associativity).
Notation "m ;; k" := (bind m (fun _ => k))
  (at level 100, right associativity).

(** [try: body except Exception: handler] *)
Definition try_except {A} (body handler : M A) : M A :=
  fun w =>
    match body w with
    | (w', Ok a) => (w', Ok a)
    | (w', Raise _) => handler w'
    end.

Fixpoint for_each {A} (items : list A) (body : A -> M unit) : M unit :=
  match items with
  | [] => ret tt
  | x :: rest => body x ;; for_each rest body
  end.

Definition set_fs (w : world) (f : gmap string node) : world :=
  World f (console w) (spawned w).

(** [typer.echo(msg)] *)
Definition typer_echo (msg : string) : M unit :=
  fun w => (World (fs w) (console w ++ [msg]) (spawned w), Ok tt).

Definition carriage_return : ascii := ascii_of_nat 13.
Definition line_feed : ascii := ascii_of_nat 10.

(** Text mode on reading: every [\r\n] and every other [\r] becomes
    [\n]. *)
Fixpoint universal_newlines (s : string) : string :=
  match s with
  | "" => ""
  | String c r =>
      if Ascii.eqb c carriage_return then
        match r with
        | String d r' =>
            if Ascii.eqb d line_feed then String line_feed (universal_newlines r')
            else String line_feed (universal_newlines r)
        | "" => String line_feed ""
        end
      else String c (universal_newlines r)
  end.

(** The walk of [stat] along the components of an absent relative path
    (Linux): it fails with [ENAMETOOLONG] when it reaches a component of
    more than 255 bytes, every component before it being a directory that
    is there; a component that is missing, or is a file, ends the walk
    with [ENOENT] or [ENOTDIR] first. *)
Fixpoint name_too_long_from (f : gmap string node) (dir : string)
                            (components : list string) : bool :=
  match components with
  | [] => false
  | c :: rest =>
      if (255 <? String.length c)%nat then true
      else
        let here := match dir with "" => c | _ => dir ++ "/" ++ c end in
        match f !! here with
        | Some Dir => name_too_long_from f here rest
        | _ => false
        end
  end.

(** [stat] on an absent path answers [ENAMETOOLONG], not [ENOENT]: the
    path has 4096 bytes or more, or the walk meets an over-long
    component. *)
Definition stat_name_too_long (f : gmap string node) (path : string) : bool :=
  (4096 <=? String.length path)%nat
  || name_too_long_from f "" (str_split path "/").

(** [path.exists()]: true for files and for directories, false for a path
    that is not there; [Path.exists] (up to Python 3.12) lets every
    [OSError] but [ENOENT], [ENOTDIR], [EBADF] and [ELOOP] through, so an
    over-long name raises. *)
Definition path_exists (path : string) : M bool :=
  fun w =>
    match fs w !! path with
    | Some _ => (w, Ok true)
    | None =>
        if stat_name_too_long (fs w) path then (w, Raise NameTooLongError)
        else (w, Ok false)
    end.

(** [path.read_text()]: the text of the file with newlines translated.
    (Decoding is not modelled: a text is taken to be valid UTF-8 and a
    [str] is identified with its encoding.) *)
Definition read_text (path : string) : M string :=
  fun w =>
    match fs w !! path with
    | Some (File text) => (w, Ok (universal_newlines text))
    | Some Dir => (w, Raise IsADirectoryError)
    | None => (w, Raise FileNotFoundError)
    end.

(** [path.write_text(text)]: the file is overwritten whole.  (The script
    only writes a path it has just read.) *)
Definition write_text (path text : string) : M unit :=
  fun w =>
    match fs w !! path with
    | Some Dir => (w, Raise IsADirectoryError)
    | _ => (set_fs w (<[path := File text]> (fs w)), Ok tt)
    end.

(** Process exit status: an uncaught exception ends the interpreter with
    status 1. *)
Definition exit_code (r : result unit) : nat :=
  match r with
  | Ok _ => 0
  | Raise _ => 1
  end.

Definition newline : string := String (ascii_of_nat 10) "".

(** ** The script (rename_plugin.py, lines 29-100) *)

(** The [replacements] dict, in insertion order (the order [items()]
    iterates in). *)
Definition replacements (plugin_name username : string) : list (string * string) :=
  let plugin_snake := to_snake_case plugin_name in
  let plugin_camel := to_camel_case plugin_name in
  [ ("myplugin", plugin_snake);
    ("MyPlugin", plugin_camel);
    ("your-username", username);
    ("your-plugin-name", plugin_name);
    ("YourPluginName", plugin_camel) ].

Definition files_to_update (plugin_snake : string) : list string :=
  [ "lua/" ++ plugin_snake ++ "/init.lua";
    "lua/" ++ plugin_snake ++ "/config.lua";
    "lua/" ++ plugin_snake ++ "/commands.lua";
    "lazy.lua";
    "README.md" ].

(** [for old, new in replacements.items(): content = content.replace(old, new)] *)
Definition apply_replacements (table : list (string * string)) (content : string) : string :=
  List.fold_left (fun c pr => str_replace c (fst pr) (snd pr)) table content.

Section Script.

(** [shutil.move(src, dst)] on the file system: the new file system and
    whether it raised. *)
Variable shutil_move : gmap string node -> string -> string -> gmap string node * result unit.

(** How the environment answers a spawned command line:
    [Ok] for exit status 0, [Raise CalledProcessError] for another
    status, [Raise SpawnError] when the binary cannot be started. *)
Variable process_outcome : list string -> result unit.

Definition move (src dst : string) : M unit :=
  fun w => let '(f, r) := shutil_move (fs w) src dst in (set_fs w f, r).

(** [subprocess.run(args, check=True)] *)
Definition subprocess_run (args : list string) : M unit :=
  fun w => (World (fs w) (console w) (spawned w ++ [args]), process_outcome args).

(** Step 1, lines 51-55. *)
Definition rename_directory (plugin_snake : string) : M unit :=
  let old_dir := Path "lua/myplugin" in
  let new_dir := Path ("lua/" ++ plugin_snake) in
  present <- path_exists old_dir ;;
  if present then
    move old_dir new_dir ;;
    typer_echo ("✓ Renamed " ++ old_dir ++ " → " ++ new_dir)
  else ret tt.

(** Body of the loop of step 2, lines 67-73. *)
Definition update_file (table : list (string * string)) (file_path : string) : M unit :=
  let path := Path file_path in
  present <- path_exists path ;;
  if present then
    content <- read_text path ;;
    write_text path (apply_replacements table content) ;;
    typer_echo ("✓ Updated " ++ file_path)
  else ret tt.

(** Step 2, lines 58-73. *)
Definition update_file_contents (plugin_name username : string) : M unit :=
  for_each (files_to_update (to_snake_case plugin_name))
           (update_file (replacements plugin_name username)).

(** Step 3, lines 77-81. *)
Definition set_git_remote (git_url : string) : M unit :=
  try_except
    (subprocess_run ["git"; "remote"; "set-url"; "origin"; git_url] ;;
     typer_echo ("✓ Set git remote: " ++ git_url))
    (typer_echo "! Could not set git remote").

(** Step 4, lines 84-93. *)
Definition update_lazy_spec (git_url : string) : M unit :=
  let repo_name := os_path_basename git_url in
  let suffix := "nvim" in
  if str_endswith repo_name suffix then
    let repo_stripped := str_drop_last (String.length suffix) repo_name in
    let lazy_path := Path "lazy.lua" in
    present <- path_exists lazy_path ;;
    if present then
      lazy_content <- read_text lazy_path ;;
      write_text lazy_path
        (str_replace lazy_content "/nvim-plugin-template" ("/" ++ repo_stripped)) ;;
      typer_echo "✓ Updated lazy.lua repo reference"
    else ret tt
  else ret tt.

(** [if git_url:] is false for [None] and for the empty string. *)
Definition truthy (git_url : option string) : option string :=
  match git_url with
  | Some "" => None
  | other => other
  end.

(** The block guarded by [if git_url:], lines 76-93. *)
Definition remote_steps (git_url : option string) : M unit :=
  match truthy git_url with
  | Some url => set_git_remote url ;; update_lazy_spec url
  | None => ret tt
  end.

Definition main (plugin_name username : string) (git_url : option string) : M unit :=
  let plugin_snake := to_snake_case plugin_name in
  let plugin_camel := to_camel_case plugin_name in
  typer_echo ("Renaming: " ++ plugin_name ++ " (" ++ plugin_snake ++ ", "
              ++ plugin_camel ++ ") for " ++ username) ;;
  rename_directory plugin_snake ;;
  update_file_contents plugin_name username ;;
  remote_steps git_url ;;
  typer_echo (newline ++ "🎉 Done! Test with: require('" ++ plugin_snake ++ "').setup()").

(** Names for parts of [main], used to state what a run does. *)

Definition banner (plugin_name username : string) : string :=
  "Renaming: " ++ plugin_name ++ " (" ++ to_snake_case plugin_name ++ ", "
  ++ to_camel_case plugin_name ++ ") for " ++ username.

Definition done_message (plugin_name : string) : string :=
  newline ++ "🎉 Done! Test with: require('" ++ to_snake_case plugin_name ++ "').setup()".

(** Lines 36-73: everything before the [if git_url:] block. *)
Definition local_steps (plugin_name username : string) : M unit :=
  typer_echo (banner plugin_name username) ;;
  rename_directory (to_snake_case plugin_name) ;;
  update_file_contents plugin_name username.

End Script.

(** A stand-in for [shutil.move] to close the concrete runs below, in none
    of which [lua/myplugin] exists, so that it is never called.  It covers
    the cases of [shutil.move] that a rename serves: source and
    destination the same path (nothing happens), a free destination (the
    entry and all entries below it are re-keyed), a destination that is a
    directory (the source is moved into it under its own name, an error
    when that name is taken), a file moved onto a file (overwritten); a
    directory moved onto a file is an error.  The theorems hold for every
    behaviour of the move. *)
Definition rekey (src dst key : string) : string :=
  if String.eqb key src then dst
  else match strip_prefix (src ++ "/") key with
       | Some rest => dst ++ "/" ++ rest
       | None => key
       end.

Definition rekey_all (src dst : string) (f : gmap string node) : gmap string node :=
  list_to_map (List.map (fun kv => (rekey src dst (fst kv), snd kv)) (map_to_list f)).

Definition plain_move (f : gmap string node) (src dst : string)
  : gmap string node * result unit :=
  if String.eqb src dst then (f, Ok tt)
  else
    match f !! dst with
    | None => (rekey_all src dst f, Ok tt)
    | Some Dir =>
        let inside := dst ++ "/" ++ os_path_basename src in
        match f !! inside with
        | Some _ => (f, Raise ShutilError)
        | None => (rekey_all src inside f, Ok tt)
        end
    | Some (File _) =>
        match f !! src with
        | Some (File _) => (rekey_all src dst (delete dst f), Ok tt)
        | _ => (f, Raise ShutilError)
        end
    end.

Definition git_succeeds (args : list string) : result unit := Ok tt.
Definition git_exits_nonzero (args : list string) : result unit := Raise CalledProcessError.

Definition world_of (files : list (string * node)) : world :=
  World (list_to_map files) [] [].

(** The world after [update_file] has rewritten a regular file. *)
Definition updated (table : list (string * string)) (file_path text : string) (w : world) : world :=
  World (<[Path file_path := File (apply_replacements table (universal_newlines text))]> (fs w))
        (console w ++ ["✓ Updated " ++ file_path]) (spawned w).

(** The world after a git call that failed and was reported. *)
Definition warned (git_url : string) (w : world) : world :=
  World (fs w) (console w ++ ["! Could not set git remote"])
        (spawned w ++ [["git"; "remote"; "set-url"; "origin"; git_url]]).

(** The world after a git call that succeeded. *)
Definition remote_set (git_url : string) (w : world) : world :=
  World (fs w) (console w ++ ["✓ Set git remote: " ++ git_url])
        (spawned w ++ [["git"; "remote"; "set-url"; "origin"; git_url]]).

Definition not_a_directory (w : world) (path : string) : Prop :=
  fs w !! path <> Some Dir.

Definition regular_at (path : string) (w : world) : Prop :=
  exists text, fs w !! path = Some (File text).

(** The condition under which a table cannot bring [key] back: every
    placeholder is non-empty and no replacement can overlap [key]. *)
Definition table_avoids (key : string) (table : list (string * string)) : Prop :=
  forall old new, In (old, new) table ->
                  old <> "" /\ overlap_free new key = true.






(** Number of characters of [s] that satisfy [p]. *)
Fixpoint count_chars (p : ascii -> bool) (s : string) : nat :=
  match s with
  | "" => 0
  | String c r => (if p c then 1 else 0) + count_chars p r
  end.

(** A character the snake form can hold: neither ['-'] nor an upper-case
    letter. *)
Definition snake_char_ok (c : ascii) : bool :=
  negb (Ascii.eqb c "-") && negb (is_upper c).

(** [s * n] *)
Fixpoint str_repeat (n : nat) (s : string) : string :=
  match n with
  | O => ""
  | S n' => s ++ str_repeat n' s
  end.

(** Equality test on sequences of code points. *)
Definition code_list_eqb (a b : list N) : bool :=
  if decide (a = b) then true else false.

(** Every character is below 128. *)
Definition is_ascii (s : string) : bool :=
  str_forall (fun c => (nat_of_ascii c <? 128)%nat) s.

(** * Checks on concrete inputs *)

Example snake_my_plugin : to_snake_case "my-plugin" = "my_plugin".
Proof. reflexivity. Qed.

Example camel_my_plugin : to_camel_case "my-plugin" = "MyPlugin".
Proof. reflexivity. Qed.

Example camel_mixed : to_camel_case "myABC-plugin__x-" = "MyabcPluginX".
Proof. reflexivity. Qed.

Example replace_overlap : str_replace "aaa" "aa" "b" = "ba".
Proof. reflexivity. Qed.

Example replace_empty_pattern : str_replace "ab" "" "X" = "XaXbX".
Proof. reflexivity. Qed.

Example split_edges :
  str_split "" "_" = [""] /\ str_split "a_" "_" = ["a"; ""]
  /\ str_split "_" "_" = [""; ""] /\ str_split "a__b" "_" = ["a"; ""; "b"].
Proof. repeat split; reflexivity. Qed.

Example basename_url :
  os_path_basename "https://github.com/alice/foo.nvim" = "foo.nvim"
  /\ os_path_basename "foo/" = "" /\ os_path_basename "foo" = "foo".
Proof. repeat split; reflexivity. Qed.

Example path_normalised :
  Path "lua//a/./init.lua" = "lua/a/init.lua" /\ Path "lua/" = "lua"
  /\ Path "lazy.lua" = "lazy.lua" /\ Path "lua/../x" = "lua/../x".
Proof. repeat split; reflexivity. Qed.

(** Code points: ['ΑΣ'.lower()] ends in a final sigma, a lone ['Σ'] does
    not; ['İ'] lowers to two code points; ['ßx'.capitalize()] is ['Ssx']. *)
Example lower_final_sigma :
  Unicode.str_lower [913; 931]%N = [945; 962]%N
  /\ Unicode.str_lower [931]%N = [963]%N
  /\ Unicode.str_lower [913; 931; 913]%N = [945; 963; 945]%N.
Proof. vm_compute. repeat split; reflexivity. Qed.

Example lower_and_title_expand :
  Unicode.str_lower [304]%N = [105; 775]%N
  /\ Unicode.str_capitalize [223; 120]%N = [83; 115; 120]%N.
Proof. vm_compute. split; reflexivity. Qed.

Example code_point_forms_of_my_plugin :
  Unicode.to_snake_case (Unicode.codes "My-Plugin") = Unicode.codes "my_plugin"
  /\ Unicode.to_camel_case (Unicode.codes "my-plugin") = Unicode.codes "MyPlugin".
Proof. vm_compute. split; reflexivity. Qed.

(** * Characters *)

Ltac ascii_cases c :=
  destruct c as [[] [] [] [] [] [] [] []]; try reflexivity; try discriminate.

Lemma lower_char_idem (c : ascii) : lower_char (lower_char c) = lower_char c.
Proof. ascii_cases c. Qed.

Lemma lower_char_not_upper (c : ascii) : is_upper (lower_char c) = false.
Proof. ascii_cases c. Qed.

Lemma snake_char_idem (c : ascii) :
  lower_char (Spec.dash_to_underscore (lower_char (Spec.dash_to_underscore c)))
  = lower_char (Spec.dash_to_underscore c).
Proof. ascii_cases c. Qed.

(** * Strings: prefixes and the scan *)

Lemma strip_prefix_app (p s rest : string) :
  strip_prefix p s = Some rest <-> s = p ++ rest.
Proof.
  revert s. induction p as [|a p IH]; intros s; simpl.
  - split; [intros [= ->] | intros ->]; reflexivity.
  - destruct s as [|b s].
    + split; discriminate.
    + destruct (Ascii.eqb_spec a b) as [->|Hne].
      * rewrite IH. split; [intros -> | intros [= ->]]; reflexivity.
      * split; [discriminate | intros [= Hab _]; congruence].
Qed.

Lemma str_app_cons (c : ascii) (a b : string) :
  String c a ++ b = String c (a ++ b).
Proof. reflexivity. Qed.

Lemma str_length_app (a b : string) :
  String.length (a ++ b) = String.length a + String.length b.
Proof. induction a as [|c a IH]; simpl; [reflexivity | now rewrite IH]. Qed.

Lemma strip_prefix_length (p s rest : string) :
  strip_prefix p s = Some rest ->
  String.length s = String.length p + String.length rest.
Proof. intros H. apply strip_prefix_app in H. subst. apply str_length_app. Qed.

Lemma strip_prefix_shorter (p s rest : string) :
  p <> "" -> strip_prefix p s = Some rest -> String.length rest < String.length s.
Proof.
  intros Hp H. apply strip_prefix_length in H.
  destruct p; [congruence | simpl in H; lia].
Qed.

Lemma strip_prefix_nil (p : string) : p <> "" -> strip_prefix p "" = None.
Proof. destruct p; [congruence | reflexivity]. Qed.

(** Induction along the scan: the text is consumed either by a match,
    which jumps behind the pattern, or by one character. *)
Lemma scan_ind (old : string) (P : string -> Prop) :
  old <> "" ->
  P "" ->
  (forall s rest, strip_prefix old s = Some rest -> P rest -> P s) ->
  (forall c s, strip_prefix old (String c s) = None -> P s -> P (String c s)) ->
  forall s, P s.
Proof.
  intros Hold Hnil Hhit Hmiss s.
  remember (String.length s) as n eqn:Hn.
  revert s Hn. induction n as [n IH] using lt_wf_ind. intros s ->.
  destruct (strip_prefix old s) as [rest|] eqn:E.
  - apply (Hhit _ _ E). apply (IH (String.length rest)); [|reflexivity].
    eapply strip_prefix_shorter; eauto.
  - destruct s as [|c s]; [exact Hnil|].
    apply (Hmiss _ _ E). apply (IH (String.length s)); [simpl; lia | reflexivity].
Qed.

Section Scan.

Variables old new : string.
Hypothesis old_nonempty : old <> "".

Lemma replace_from_fuel (f1 f2 : nat) (s : string) :
  String.length s <= f1 -> String.length s <= f2 ->
  replace_from f1 old new s = replace_from f2 old new s.
Proof.
  revert f2 s. induction f1 as [|f1 IH]; intros f2 s H1 H2.
  - destruct s; [|simpl in H1; lia].
    destruct f2; simpl; [reflexivity|]. now rewrite strip_prefix_nil.
  - destruct f2 as [|f2].
    + destruct s; [|simpl in H2; lia]. simpl. now rewrite strip_prefix_nil.
    + simpl. destruct (strip_prefix old s) as [rest|] eqn:E.
      * f_equal. pose proof (strip_prefix_shorter _ _ _ old_nonempty E).
        apply IH; lia.
      * destruct s as [|c s]; [reflexivity|]. f_equal.
        simpl in H1, H2. apply IH; lia.
Qed.

Lemma str_replace_scan (s : string) :
  str_replace s old new = replace_from (String.length s) old new s.
Proof. unfold str_replace. destruct old; [congruence | reflexivity]. Qed.

Lemma str_replace_nil : str_replace "" old new = "".
Proof. rewrite str_replace_scan. reflexivity. Qed.

Lemma str_replace_hit (s rest : string) :
  strip_prefix old s = Some rest ->
  str_replace s old new = new ++ str_replace rest old new.
Proof.
  intros E. rewrite !str_replace_scan.
  pose proof (strip_prefix_shorter _ _ _ old_nonempty E) as Hlt.
  destruct (String.length s) as [|n] eqn:Hn; [lia|].
  simpl. rewrite E. f_equal. apply replace_from_fuel; lia.
Qed.

Lemma str_replace_miss (c : ascii) (s : string) :
  strip_prefix old (String c s) = None ->
  str_replace (String c s) old new = String c (str_replace s old new).
Proof.
  intros E. rewrite !str_replace_scan.
  change (String.length (String c s)) with (S (String.length s)).
  cbn [replace_from]. now rewrite E.
Qed.

Lemma count_from_fuel (f1 f2 : nat) (s : string) :
  String.length s <= f1 -> String.length s <= f2 ->
  count_from f1 old s = count_from f2 old s.
Proof.
  revert f2 s. induction f1 as [|f1 IH]; intros f2 s H1 H2.
  - destruct s; [|simpl in H1; lia].
    destruct f2; simpl; [reflexivity|]. now rewrite strip_prefix_nil.
  - destruct f2 as [|f2].
    + destruct s; [|simpl in H2; lia]. simpl. now rewrite strip_prefix_nil.
    + simpl. destruct (strip_prefix old s) as [rest|] eqn:E.
      * f_equal. pose proof (strip_prefix_shorter _ _ _ old_nonempty E).
        apply IH; lia.
      * destruct s as [|c s]; [reflexivity|].
        simpl in H1, H2. apply IH; lia.
Qed.

Lemma str_count_scan (s : string) :
  str_count s old = count_from (String.length s) old s.
Proof. unfold str_count. destruct old; [congruence | reflexivity]. Qed.

Lemma str_count_nil : str_count "" old = 0.
Proof. rewrite str_count_scan. reflexivity. Qed.

Lemma str_count_hit (s rest : string) :
  strip_prefix old s = Some rest ->
  str_count s old = S (str_count rest old).
Proof.
  intros E. rewrite !str_count_scan.
  pose proof (strip_prefix_shorter _ _ _ old_nonempty E) as Hlt.
  destruct (String.length s) as [|n] eqn:Hn; [lia|].
  simpl. rewrite E. f_equal. apply count_from_fuel; lia.
Qed.

Lemma str_count_miss (c : ascii) (s : string) :
  strip_prefix old (String c s) = None ->
  str_count (String c s) old = str_count s old.
Proof.
  intros E. rewrite !str_count_scan.
  change (String.length (String c s)) with (S (String.length s)).
  cbn [count_from]. now rewrite E.
Qed.

Lemma split_from_fuel (f1 f2 : nat) (s : string) :
  String.length s <= f1 -> String.length s <= f2 ->
  split_from f1 old s = split_from f2 old s.
Proof.
  revert f2 s. induction f1 as [|f1 IH]; intros f2 s H1 H2.
  - destruct s; [|simpl in H1; lia].
    destruct f2; simpl; [reflexivity|]. now rewrite strip_prefix_nil.
  - destruct f2 as [|f2].
    + destruct s; [|simpl in H2; lia]. simpl. now rewrite strip_prefix_nil.
    + simpl. destruct (strip_prefix old s) as [rest|] eqn:E.
      * f_equal. pose proof (strip_prefix_shorter _ _ _ old_nonempty E).
        apply IH; lia.
      * destruct s as [|c s]; [reflexivity|].
        simpl in H1, H2. rewrite (IH f2 s); [reflexivity | lia | lia].
Qed.

Lemma str_split_nil : str_split "" old = [""].
Proof. reflexivity. Qed.

Lemma str_split_hit (s rest : string) :
  strip_prefix old s = Some rest ->
  str_split s old = "" :: str_split rest old.
Proof.
  intros E. unfold str_split.
  pose proof (strip_prefix_shorter _ _ _ old_nonempty E) as Hlt.
  destruct (String.length s) as [|n] eqn:Hn; [lia|].
  simpl. rewrite E. f_equal. apply split_from_fuel; lia.
Qed.

Lemma str_split_miss (c : ascii) (s : string) :
  strip_prefix old (String c s) = None ->
  str_split (String c s) old =
    match str_split s old with
    | seg :: segs => String c seg :: segs
    | [] => [String c ""]
    end.
Proof.
  intros E. unfold str_split.
  change (String.length (String c s)) with (S (String.length s)).
  cbn [split_from]. now rewrite E.
Qed.

End Scan.

(** * Name derivation *)

Lemma str_app_nil_r (s : string) : s ++ "" = s.
Proof. induction s as [|c s IH]; [reflexivity | now rewrite str_app_cons, IH]. Qed.

Lemma str_map_map (f g : ascii -> ascii) (s : string) :
  str_map f (str_map g s) = str_map (fun c => f (g c)) s.
Proof. induction s as [|c s IH]; simpl; [reflexivity | now rewrite IH]. Qed.

Lemma str_map_ext (f g : ascii -> ascii) (s : string) :
  (forall c, f c = g c) -> str_map f s = str_map g s.
Proof. intros H. induction s as [|c s IH]; simpl; [reflexivity | now rewrite H, IH]. Qed.

Lemma str_map_length (f : ascii -> ascii) (s : string) :
  String.length (str_map f s) = String.length s.
Proof. induction s as [|c s IH]; simpl; [reflexivity | now rewrite IH]. Qed.

Lemma single_char_pattern (a : ascii) : String a "" <> "".
Proof. discriminate. Qed.

(** Replacing a one-character pattern by one character is a character
    map. *)
Lemma replace_char_by_char (a b : ascii) (s : string) :
  str_replace s (String a "") (String b "")
  = str_map (fun c => if Ascii.eqb c a then b else c) s.
Proof.
  induction s as [|c s IH].
  - reflexivity.
  - cbn [str_map]. destruct (Ascii.eqb_spec c a) as [->|Hne].
    + rewrite (str_replace_hit _ _ (single_char_pattern a) _ s).
      * now rewrite IH.
      * simpl. now rewrite Ascii.eqb_refl.
    + rewrite str_replace_miss.
      * now rewrite IH.
      * apply single_char_pattern.
      * simpl. destruct (Ascii.eqb_spec a c); [congruence | reflexivity].
Qed.

Lemma replace_dash (name : string) :
  str_replace name "-" "_" = str_map Spec.dash_to_underscore name.
Proof. apply replace_char_by_char. Qed.

Lemma snake_case_char_map (name : string) :
  to_snake_case name
  = str_map (fun c => lower_char (Spec.dash_to_underscore c)) name.
Proof.
  unfold to_snake_case, str_lower. rewrite replace_dash. apply str_map_map.
Qed.

Lemma delimiter_becomes_underscore (c : ascii) :
  Ascii.eqb "_" (Spec.dash_to_underscore c) = Spec.is_delimiter c.
Proof. ascii_cases c. Qed.

Lemma non_delimiter_kept (c : ascii) :
  Spec.is_delimiter c = false -> Spec.dash_to_underscore c = c.
Proof.
  destruct c as [[] [] [] [] [] [] [] []]; intros H;
    try reflexivity; vm_compute in H; discriminate H.
Qed.

Lemma split_after_replace (name : string) :
  str_split (str_replace name "-" "_") "_" = Spec.segments name.
Proof.
  rewrite replace_dash. induction name as [|c r IH]; [reflexivity|].
  cbn [str_map Spec.segments]. pose proof (delimiter_becomes_underscore c) as Hc.
  destruct (Spec.is_delimiter c) eqn:Hd.
  - rewrite (str_split_hit "_" (single_char_pattern _) _ (str_map Spec.dash_to_underscore r)).
    + now rewrite IH.
    + cbn [strip_prefix]. now rewrite Hc.
  - rewrite str_split_miss;
      [ now rewrite IH, (non_delimiter_kept c Hd) | .. ];
      first [ apply single_char_pattern | cbn [strip_prefix]; now rewrite Hc ].
Qed.

Lemma join_no_separator (parts : list string) :
  str_join "" parts = Spec.concat_all parts.
Proof.
  induction parts as [|p ps IH]; [reflexivity|].
  destruct ps as [|q ps].
  - cbn [str_join Spec.concat_all]. now rewrite str_app_nil_r.
  - change (str_join "" (p :: q :: ps)) with (p ++ "" ++ str_join "" (q :: ps)).
    rewrite IH. reflexivity.
Qed.

Lemma camel_case_segments (name : string) :
  to_camel_case name = Spec.concat_all (List.map str_capitalize (Spec.segments name)).
Proof. unfold to_camel_case. now rewrite split_after_replace, join_no_separator. Qed.

Lemma lowered_has_no_upper (s : string) :
  str_forall (fun ch => negb (is_upper ch)) (str_lower s) = true.
Proof.
  induction s as [|c s IH]; [reflexivity|].
  unfold str_lower in *. cbn [str_map str_forall].
  now rewrite lower_char_not_upper, IH.
Qed.

Lemma capitalize_tail (seg : string) :
  str_drop 1 (str_capitalize seg) = str_lower (str_drop 1 seg).
Proof. destruct seg; reflexivity. Qed.

(** C3: the snake form is the input with every ['-'] replaced by ['_'] and
    the whole lower-cased; the capitalized form is the concatenation of the
    capitalized segments obtained by splitting on ['-'] and ['_'];
    ["my-plugin"] gives ["my_plugin"] and ["MyPlugin"]. *)
Theorem name_forms_as_specified :
  (forall name : string,
      to_snake_case name = Spec.snake_form name
      /\ to_camel_case name = Spec.capitalized_form name)
  /\ to_snake_case "my-plugin" = "my_plugin"
  /\ to_camel_case "my-plugin" = "MyPlugin".
Proof.
  split; [|split; reflexivity].
  intros name. split.
  - unfold to_snake_case, Spec.snake_form. now rewrite replace_dash.
  - apply camel_case_segments.
Qed.

(** C10: the snake-form derivation is idempotent. *)
Theorem to_snake_case_idempotent (s : string) :
  to_snake_case (to_snake_case s) = to_snake_case s.
Proof.
  rewrite !snake_case_char_map, str_map_map.
  apply str_map_ext. intros c. apply snake_char_idem.
Qed.

(** * Names as code points *)

Lemma unicode_replace_cons (a c : N) (new s : list N) :
  Unicode.str_replace (c :: s) [a] new
  = ((if N.eqb a c then new else [c]) ++ Unicode.str_replace s [a] new)%list.
Proof.
  unfold Unicode.str_replace.
  cbn [List.length Unicode.replace_from Unicode.strip_prefix].
  now destruct (N.eqb a c).
Qed.

Lemma unicode_split_cons (a c : N) (s : list N) :
  Unicode.str_split (c :: s) [a]
  = if N.eqb a c then [] :: Unicode.str_split s [a]
    else match Unicode.str_split s [a] with
         | seg :: segs => (c :: seg) :: segs
         | [] => [[c]]
         end.
Proof.
  unfold Unicode.str_split.
  cbn [List.length Unicode.split_from Unicode.strip_prefix].
  now destruct (N.eqb a c).
Qed.

(** Replacing ['-'] by ['_'] and splitting on ['_'] gives the segments
    between the two delimiters. *)
Lemma unicode_split_segments (name : list N) :
  Unicode.str_split (Unicode.str_replace name (Unicode.codes "-") (Unicode.codes "_"))
                    (Unicode.codes "_")
  = Unicode.segments name.
Proof.
  change (Unicode.codes "-") with [45%N]. change (Unicode.codes "_") with [95%N].
  induction name as [|c name IH]; [reflexivity|].
  rewrite unicode_replace_cons. cbn [Unicode.segments]. unfold Unicode.is_delimiter.
  destruct (N.eqb_spec 45 c) as [<-|H45].
  - cbn [app]. rewrite unicode_split_cons, IH. reflexivity.
  - cbn [app]. rewrite unicode_split_cons, IH.
    rewrite (N.eqb_sym c 45). destruct (N.eqb_spec 45 c) as [|_]; [congruence|].
    rewrite (N.eqb_sym c 95). cbn [orb]. reflexivity.
Qed.

Lemma unicode_assoc_in (c : N) (table : list (N * list N)) (mapped : list N) :
  Unicode.assoc c table = Some mapped -> In (c, mapped) table.
Proof.
  unfold Unicode.assoc. destruct (List.find _ table) as [[k v]|] eqn:E; [|discriminate].
  intros [= <-]. apply List.find_some in E as [Hin Hk]. cbn [fst snd] in *.
  apply N.eqb_eq in Hk. now subst.
Qed.

(** No code point of a lower-case mapping has a lower-case mapping of its
    own. *)
Lemma lower_table_closed :
  forallb (fun kv => forallb (fun d => match Unicode.assoc d Unicode.lower_table with
                                       | None => true
                                       | Some _ => false
                                       end) (snd kv))
          Unicode.lower_table = true.
Proof. vm_compute. reflexivity. Qed.

Lemma to_lower_full_fixed (c d : N) :
  In d (Unicode.to_lower_full c) -> Unicode.to_lower_full d = [d].
Proof.
  unfold Unicode.to_lower_full at 1.
  destruct (Unicode.assoc c Unicode.lower_table) as [mapped|] eqn:E.
  - intros Hd. apply unicode_assoc_in in E.
    pose proof lower_table_closed as H. rewrite forallb_forall in H.
    specialize (H _ E). cbn [snd] in H. rewrite forallb_forall in H.
    specialize (H _ Hd). unfold Unicode.to_lower_full.
    now destruct (Unicode.assoc d Unicode.lower_table).
  - intros [<-|[]]. unfold Unicode.to_lower_full. now rewrite E.
Qed.

Lemma lower_ucs4_fixed (before after : list N) (c d : N) :
  In d (Unicode.lower_ucs4 before c after) -> Unicode.to_lower_full d = [d].
Proof.
  unfold Unicode.lower_ucs4. destruct (N.eqb c 931).
  - intros [<-|[]]. now destruct (Unicode.final_sigma before after).
  - apply to_lower_full_fixed.
Qed.

(** Every code point that [do_lower] writes is its own lower case. *)
Lemma do_lower_fixed (s before : list N) (d : N) :
  In d (Unicode.do_lower before s) -> Unicode.to_lower_full d = [d].
Proof.
  revert before. induction s as [|c s IH]; intros before; [intros []|].
  cbn [Unicode.do_lower]. intros H. apply in_app_or in H as [H|H].
  - eapply lower_ucs4_fixed; eauto.
  - eapply IH; eauto.
Qed.

Lemma below_128_cases (P : N -> bool) :
  forallb P (map N.of_nat (seq 0 128)) = true ->
  forall c, (c < 128)%N -> P c = true.
Proof.
  intros H c Hc. rewrite forallb_forall in H. apply H.
  apply in_map_iff. exists (N.to_nat c). split; [apply N2Nat.id|].
  apply in_seq. lia.
Qed.

Lemma code_list_eqb_eq (a b : list N) : code_list_eqb a b = true -> a = b.
Proof. unfold code_list_eqb. now case_decide. Qed.

(** On the ASCII range the mappings are the usual ones, and a code point
    is lowered without regard to its context. *)
Lemma ascii_title (c : N) :
  (c < 128)%N -> Unicode.to_title_full c = [Unicode.ascii_upper c].
Proof.
  intros Hc. apply code_list_eqb_eq.
  revert c Hc.
  apply (below_128_cases
           (fun c => code_list_eqb (Unicode.to_title_full c) [Unicode.ascii_upper c])).
  vm_compute. reflexivity.
Qed.

Lemma ascii_lower_ucs4 (before after : list N) (c : N) :
  (c < 128)%N -> Unicode.lower_ucs4 before c after = [Unicode.ascii_lower c].
Proof.
  intros Hc. unfold Unicode.lower_ucs4.
  destruct (N.eqb_spec c 931) as [->|_]; [lia|].
  apply code_list_eqb_eq. revert c Hc.
  apply (below_128_cases
           (fun c => code_list_eqb (Unicode.to_lower_full c) [Unicode.ascii_lower c])).
  vm_compute. reflexivity.
Qed.

Lemma ascii_do_lower (s before : list N) :
  Forall (fun x => (x < 128)%N) s ->
  Unicode.do_lower before s = map Unicode.ascii_lower s.
Proof.
  revert before. induction s as [|c s IH]; intros before H; [reflexivity|].
  inversion H as [|? ? Hc Hs]; subst.
  cbn [Unicode.do_lower map]. now rewrite (ascii_lower_ucs4 _ _ _ Hc), IH.
Qed.

(** * Occurrences and substitution passes *)

Lemma str_contains_nil (sub : string) : sub <> "" -> str_contains "" sub = false.
Proof. intros H. simpl. now rewrite strip_prefix_nil. Qed.

Lemma str_contains_hit (s sub rest : string) :
  strip_prefix sub s = Some rest -> str_contains s sub = true.
Proof. intros E. destruct s; simpl; now rewrite E. Qed.

Lemma str_contains_miss (c : ascii) (s sub : string) :
  strip_prefix sub (String c s) = None ->
  str_contains (String c s) sub = str_contains s sub.
Proof. intros E. cbn [str_contains]. now rewrite E. Qed.

Lemma str_contains_cons (c : ascii) (s sub : string) :
  str_contains s sub = true -> str_contains (String c s) sub = true.
Proof.
  intros H. cbn [str_contains].
  destruct (strip_prefix sub (String c s)); [reflexivity | exact H].
Qed.

Lemma str_contains_app_r (a s sub : string) :
  str_contains s sub = true -> str_contains (a ++ s) sub = true.
Proof.
  intros H. induction a as [|c a IH]; [exact H|].
  rewrite str_app_cons. now apply str_contains_cons.
Qed.


Lemma comparable_nil_r (a : string) : comparable a "" = true.
Proof. destruct a; reflexivity. Qed.

(** A string that matches at the start of [ins ++ t] agrees with [ins]. *)
Lemma strip_prefix_comparable (key ins t : string) :
  strip_prefix key (ins ++ t) <> None -> comparable key ins = true.
Proof.
  revert ins. induction key as [|k key IH]; intros ins H; [reflexivity|].
  destruct ins as [|n ins]; [reflexivity|].
  rewrite str_app_cons in H. cbn [strip_prefix comparable] in *.
  destruct (Ascii.eqb k n); [now apply IH | congruence].
Qed.

Lemma overlap_free_left (value key : string) :
  overlap_free value key = true ->
  all_suffixes (fun k => negb (comparable k value)) key = true.
Proof. unfold overlap_free. intros H. now apply andb_prop in H as [H _]. Qed.

Lemma overlap_free_inside (value key : string) :
  overlap_free value key = true ->
  all_suffixes (fun v => negb (comparable key v)) value = true.
Proof. unfold overlap_free. intros H. now apply andb_prop in H as [_ H]. Qed.




Section Pass.

Variables old new : string.
Hypothesis old_nonempty : old <> "".

(** A string none of whose suffixes agrees with the replacement can start
    in the rewritten text only where it started in the original. *)
Lemma prefix_through_replace (s : string) :
  forall key, all_suffixes (fun k => negb (comparable k new)) key = true ->
              strip_prefix key (str_replace s old new) <> None ->
              strip_prefix key s <> None.
Proof.
  pattern s. revert s. apply (scan_ind old); [exact old_nonempty | | | ].
  - intros key _. now rewrite str_replace_nil.
  - intros s rest E _ key Hfree.
    rewrite (str_replace_hit _ new old_nonempty _ _ E).
    destruct key as [|k key]; [discriminate|].
    intros H. apply strip_prefix_comparable in H.
    cbn [all_suffixes] in Hfree. rewrite H in Hfree. discriminate.
  - intros c s E IH key Hfree.
    rewrite (str_replace_miss _ new old_nonempty _ _ E).
    destruct key as [|k key]; [discriminate|].
    cbn [strip_prefix]. destruct (Ascii.eqb k c); [|congruence].
    apply IH. cbn [all_suffixes] in Hfree. now apply andb_prop in Hfree as [_ Hfree].
Qed.

(** An occurrence in [ins ++ t] of a string that cannot start inside [ins]
    is an occurrence in [t]. *)
Lemma contains_app_free (key t : string) :
  forall ins, all_suffixes (fun v => negb (comparable key v)) ins = true ->
  str_contains (ins ++ t) key = true -> str_contains t key = true.
Proof.
  intros ins. induction ins as [|n ins IH]; intros Hfree H; [exact H|].
  cbn [all_suffixes] in Hfree. apply andb_prop in Hfree as [Hn Hfree].
  destruct (strip_prefix key (String n ins ++ t)) eqn:E.
  - rewrite (strip_prefix_comparable key (String n ins) t) in Hn; [discriminate|].
    rewrite E. discriminate.
  - rewrite str_app_cons in H, E. rewrite (str_contains_miss _ _ _ E) in H.
    now apply IH.
Qed.

(** A pass creates no occurrence of a string that the replacement cannot
    overlap. *)
Lemma contains_through_replace (key : string) :
  overlap_free new key = true ->
  forall s, str_contains (str_replace s old new) key = true ->
            str_contains s key = true.
Proof.
  intros Hfree.
  pose proof (overlap_free_left _ _ Hfree) as Hl.
  pose proof (overlap_free_inside _ _ Hfree) as Hi.
  apply (scan_ind old (fun s => str_contains (str_replace s old new) key = true
                                -> str_contains s key = true));
    [exact old_nonempty | | | ].
  - now rewrite str_replace_nil.
  - intros s rest E IH. rewrite (str_replace_hit _ new old_nonempty _ _ E).
    intros H. apply contains_app_free in H; [|exact Hi].
    apply strip_prefix_app in E. subst s.
    apply str_contains_app_r, IH, H.
  - intros c s E IH H.
    destruct (strip_prefix key (str_replace (String c s) old new)) as [r|] eqn:Ek.
    + destruct (strip_prefix key (String c s)) as [r'|] eqn:Ek'.
      * eapply str_contains_hit; eauto.
      * exfalso. eapply (prefix_through_replace (String c s)); eauto.
        rewrite Ek. discriminate.
    + rewrite (str_replace_miss _ new old_nonempty _ _ E) in H, Ek.
      rewrite (str_contains_miss _ _ _ Ek) in H.
      apply str_contains_cons, IH, H.
Qed.

(** After its pass a placeholder is gone, when the replacement cannot
    overlap it. *)
Lemma replaced_is_gone (s : string) :
  overlap_free new old = true ->
  str_contains (str_replace s old new) old = false.
Proof.
  intros Hfree.
  pose proof (overlap_free_left _ _ Hfree) as Hl.
  pose proof (overlap_free_inside _ _ Hfree) as Hi.
  pattern s. revert s.
  apply (scan_ind old); [exact old_nonempty | | | ].
  - rewrite str_replace_nil by exact old_nonempty. now apply str_contains_nil.
  - intros s rest E IH. rewrite (str_replace_hit _ new old_nonempty _ _ E).
    destruct (str_contains (new ++ str_replace rest old new) old) eqn:H; [|reflexivity].
    apply contains_app_free in H; [congruence | exact Hi].
  - intros c s E IH.
    destruct (strip_prefix old (str_replace (String c s) old new)) as [r|] eqn:Ek.
    + exfalso. eapply (prefix_through_replace (String c s)); eauto.
      rewrite Ek. discriminate.
    + rewrite (str_replace_miss _ new old_nonempty _ _ E) in Ek |- *.
      now rewrite (str_contains_miss _ _ _ Ek).
Qed.






End Pass.

Lemma table_avoids_tail (key : string) (pr : string * string) table :
  table_avoids key (pr :: table) -> table_avoids key table.
Proof. intros H old new Hin. apply H. now right. Qed.

Lemma table_keeps_clear (key : string) (table : list (string * string)) :
  table_avoids key table ->
  forall s, str_contains s key = false ->
            str_contains (apply_replacements table s) key = false.
Proof.
  induction table as [|[old new] table IH]; intros Hav s Hs; [exact Hs|].
  unfold apply_replacements. cbn [List.fold_left fst snd].
  apply (IH (table_avoids_tail _ _ _ Hav)).
  destruct (Hav old new (or_introl eq_refl)) as (Ho & Hd).
  destruct (str_contains (str_replace s old new) key) eqn:H; [|reflexivity].
  apply contains_through_replace in H; auto. congruence.
Qed.

Lemma table_clears (key : string) (table : list (string * string)) :
  table_avoids key table ->
  (exists new, In (key, new) table) ->
  forall s, str_contains (apply_replacements table s) key = false.
Proof.
  induction table as [|[old new] table IH]; intros Hav [v Hin] s; [destruct Hin|].
  unfold apply_replacements. cbn [List.fold_left fst snd].
  destruct (Hav old new (or_introl eq_refl)) as (Ho & Hd).
  destruct Hin as [[= -> ->]|Hin].
  - apply table_keeps_clear; [eapply table_avoids_tail; eauto |].
    now apply replaced_is_gone.
  - apply IH; [eapply table_avoids_tail; eauto | eauto].
Qed.

(** ** Counts through the passes of a table *)













(** * The monad and the file operations *)

Lemma bind_assoc {A B C} (m : M A) (k : A -> M B) (h : B -> M C) (w : world) :
  bind (bind m k) h w = bind m (fun a => bind (k a) h) w.
Proof. unfold bind. destruct (m w) as [w1 [a|e]]; reflexivity. Qed.

Lemma bind_ok {A B} (m : M A) (k : A -> M B) (w w1 : world) (a : A) :
  m w = (w1, Ok a) -> bind m k w = k a w1.
Proof. intros H. unfold bind. now rewrite H. Qed.

Lemma bind_raise {A B} (m : M A) (k : A -> M B) (w w1 : world) (e : exn) :
  m w = (w1, Raise e) -> bind m k w = (w1, Raise e).
Proof. intros H. unfold bind. now rewrite H. Qed.

Lemma for_each_app {A} (l1 l2 : list A) (body : A -> M unit) (w : world) :
  for_each (l1 ++ l2) body w = bind (for_each l1 body) (fun _ => for_each l2 body) w.
Proof.
  revert w. induction l1 as [|x l1 IH]; intros w.
  - reflexivity.
  - cbn [for_each app]. rewrite bind_assoc.
    destruct (body x w) as [w1 [[]|e]] eqn:E.
    + rewrite !(bind_ok _ _ _ _ _ E). apply IH.
    + now rewrite !(bind_raise _ _ _ _ _ E).
Qed.

Lemma path_exists_present path n w :
  fs w !! path = Some n -> path_exists path w = (w, Ok true).
Proof. intros H. unfold path_exists. now rewrite H. Qed.

Lemma path_exists_absent path w :
  fs w !! path = None -> stat_name_too_long (fs w) path = false ->
  path_exists path w = (w, Ok false).
Proof. intros H Hs. unfold path_exists. now rewrite H, Hs. Qed.

Lemma path_exists_refused path w :
  fs w !! path = None -> stat_name_too_long (fs w) path = true ->
  path_exists path w = (w, Raise NameTooLongError).
Proof. intros H Hs. unfold path_exists. now rewrite H, Hs. Qed.

(** The existence test changes nothing; when it answers, the answer is
    whether the path is there. *)
Lemma path_exists_answer path b w :
  snd (path_exists path w) = Ok b ->
  path_exists path w = (w, Ok b) /\ (b = false <-> fs w !! path = None).
Proof.
  unfold path_exists. destruct (fs w !! path) as [n|].
  - cbn. intros [= <-]. split; [reflexivity | split; discriminate].
  - destruct (stat_name_too_long (fs w) path); cbn; [discriminate|].
    intros [= <-]. split; [reflexivity | tauto].
Qed.

(** The two fixed paths are within the limits of the file system. *)
Lemma lazy_stat_ok (f : gmap string node) :
  stat_name_too_long f (Path "lazy.lua") = false.
Proof.
  change (Path "lazy.lua") with "lazy.lua". unfold stat_name_too_long.
  change (str_split "lazy.lua" "/") with ["lazy.lua"].
  cbn. now destruct (f !! "lazy.lua") as [[|]|].
Qed.

Lemma template_stat_ok (f : gmap string node) :
  stat_name_too_long f (Path "lua/myplugin") = false.
Proof.
  change (Path "lua/myplugin") with "lua/myplugin". unfold stat_name_too_long.
  change (str_split "lua/myplugin" "/") with ["lua"; "myplugin"].
  cbn. destruct (f !! "lua") as [[|]|]; try reflexivity.
  now destruct (f !! ("lua" ++ "/" ++ "myplugin")) as [[|]|].
Qed.

Lemma update_file_absent table p w :
  fs w !! Path p = None -> stat_name_too_long (fs w) (Path p) = false ->
  update_file table p w = (w, Ok tt).
Proof.
  intros H Hs. unfold update_file.
  now rewrite (bind_ok _ _ _ _ _ (path_exists_absent _ _ H Hs)).
Qed.

Lemma update_file_refused table p w :
  fs w !! Path p = None -> stat_name_too_long (fs w) (Path p) = true ->
  update_file table p w = (w, Raise NameTooLongError).
Proof.
  intros H Hs. unfold update_file.
  now rewrite (bind_raise _ _ _ _ _ (path_exists_refused _ _ H Hs)).
Qed.

Lemma update_file_dir table p w :
  fs w !! Path p = Some Dir -> update_file table p w = (w, Raise IsADirectoryError).
Proof.
  intros H. unfold update_file.
  rewrite (bind_ok _ _ _ _ _ (path_exists_present _ _ _ H)).
  unfold bind, read_text. now rewrite H.
Qed.

Lemma update_file_regular table p text w :
  fs w !! Path p = Some (File text) ->
  update_file table p w = (updated table p text w, Ok tt).
Proof.
  intros H. unfold update_file.
  rewrite (bind_ok _ _ _ _ _ (path_exists_present _ _ _ H)).
  unfold bind, read_text. rewrite H. unfold write_text. rewrite H. reflexivity.
Qed.

(** What [update_file] does, by what is at the path. *)
Lemma update_file_cases table p w :
  (fs w !! Path p = None
   /\ exists r, update_file table p w = (w, r)
                /\ (r = Ok tt \/ r = Raise NameTooLongError))
  \/ (fs w !! Path p = Some Dir /\ update_file table p w = (w, Raise IsADirectoryError))
  \/ (exists text, fs w !! Path p = Some (File text)
                   /\ update_file table p w = (updated table p text w, Ok tt)).
Proof.
  destruct (fs w !! Path p) as [[text|]|] eqn:E.
  - right; right. exists text. split; [reflexivity | now apply update_file_regular].
  - right; left. split; [reflexivity | now apply update_file_dir].
  - left. split; [reflexivity|].
    destruct (stat_name_too_long (fs w) (Path p)) eqn:Hs.
    + eexists. split; [now apply update_file_refused | now right].
    + eexists. split; [now apply update_file_absent | now left].
Qed.

Lemma update_file_spawned table p w :
  spawned (fst (update_file table p w)) = spawned w.
Proof.
  destruct (update_file_cases table p w)
    as [(_ & r & -> & _)|[[_ ->]|(text & _ & ->)]]; reflexivity.
Qed.

Lemma updated_lookup table p text w q :
  fs (updated table p text w) !! q
  = if decide (Path p = q)
    then Some (File (apply_replacements table (universal_newlines text)))
    else fs w !! q.
Proof. unfold updated. cbn [fs]. apply lookup_insert. Qed.

(** A path that is not a directory stays so. *)
Lemma update_file_keeps_kind table p w q :
  not_a_directory w q -> not_a_directory (fst (update_file table p w)) q.
Proof.
  intros Hq. unfold not_a_directory in *.
  destruct (update_file_cases table p w)
    as [(_ & r & -> & _)|[[_ ->]|(text & _ & ->)]];
    cbn [fst]; try exact Hq.
  rewrite updated_lookup. case_decide; [discriminate | exact Hq].
Qed.

Lemma update_file_ok_regular table p w w1 :
  update_file table p w = (w1, Ok tt) -> not_a_directory w1 (Path p).
Proof.
  unfold not_a_directory.
  destruct (update_file_cases table p w)
    as [(E & r & -> & _)|[[_ ->]|(text & _ & ->)]];
    intros [= <-]; subst.
  - now rewrite E.
  - rewrite updated_lookup. case_decide; [discriminate | congruence].
Qed.

Lemma for_each_keeps_kind table files w q :
  not_a_directory w q ->
  not_a_directory (fst (for_each files (update_file table) w)) q.
Proof.
  revert w. induction files as [|p files IH]; intros w Hq; [exact Hq|].
  cbn [for_each]. destruct (update_file table p w) as [w1 [[]|e]] eqn:E.
  - rewrite (bind_ok _ _ _ _ _ E). apply IH.
    change w1 with (fst (w1, @Ok unit tt)). rewrite <- E.
    now apply update_file_keeps_kind.
  - rewrite (bind_raise _ _ _ _ _ E). cbn [fst].
    change w1 with (fst (w1, @Raise unit e)). rewrite <- E.
    now apply update_file_keeps_kind.
Qed.

Lemma for_each_spawned table files w :
  spawned (fst (for_each files (update_file table) w)) = spawned w.
Proof.
  revert w. induction files as [|p files IH]; intros w; [reflexivity|].
  cbn [for_each]. pose proof (update_file_spawned table p w) as Hs.
  destruct (update_file table p w) as [w1 [[]|e]] eqn:E; cbn [fst] in Hs.
  - rewrite (bind_ok _ _ _ _ _ E), IH. exact Hs.
  - rewrite (bind_raise _ _ _ _ _ E). exact Hs.
Qed.

(** When the loop completes, none of its paths is a directory. *)
Lemma for_each_ok_regular table files w w' :
  for_each files (update_file table) w = (w', Ok tt) ->
  forall p, In p files -> not_a_directory w' (Path p).
Proof.
  revert w. induction files as [|q files IH]; intros w Hrun p Hin; [destruct Hin|].
  cbn [for_each] in Hrun.
  destruct (update_file table q w) as [w1 [[]|e]] eqn:E.
  - rewrite (bind_ok _ _ _ _ _ E) in Hrun. destruct Hin as [->|Hin].
    + change w' with (fst (w', @Ok unit tt)). rewrite <- Hrun.
      apply for_each_keeps_kind. eapply update_file_ok_regular; eauto.
    + eapply IH; eauto.
  - rewrite (bind_raise _ _ _ _ _ E) in Hrun. discriminate.
Qed.

(** A directory among the paths of the loop makes it raise. *)
Lemma for_each_dir_raises table files w p :
  In p files -> fs w !! Path p = Some Dir ->
  exists e, snd (for_each files (update_file table) w) = Raise e.
Proof.
  revert w. induction files as [|q files IH]; intros w Hin Hd; [destruct Hin|].
  cbn [for_each].
  destruct (update_file_cases table q w)
    as [(Hq & r & E & [->| ->])|[[_ E]|(text & Hq & E)]].
  - rewrite (bind_ok _ _ _ _ _ E). destruct Hin as [->|Hin]; [congruence|].
    now apply IH.
  - rewrite (bind_raise _ _ _ _ _ E). eauto.
  - rewrite (bind_raise _ _ _ _ _ E). eauto.
  - rewrite (bind_ok _ _ _ _ _ E). destruct Hin as [->|Hin]; [congruence|].
    apply IH; [exact Hin|]. rewrite updated_lookup.
    case_decide as Hpq; [|exact Hd]. rewrite Hpq in Hq. congruence.
Qed.

(** * The remote block and the shape of a run *)

Section Run.

Variable mv : gmap string node -> string -> string -> gmap string node * result unit.
Variable git : list string -> result unit.

Lemma set_git_remote_failed url e w :
  git ["git"; "remote"; "set-url"; "origin"; url] = Raise e ->
  set_git_remote git url w = (warned url w, Ok tt).
Proof.
  intros H. unfold set_git_remote, try_except, bind, subprocess_run.
  rewrite H. reflexivity.
Qed.

Lemma set_git_remote_done url w :
  git ["git"; "remote"; "set-url"; "origin"; url] = Ok tt ->
  set_git_remote git url w = (remote_set url w, Ok tt).
Proof.
  intros H. unfold set_git_remote, try_except, bind, subprocess_run.
  rewrite H. reflexivity.
Qed.

(** The git call never raises out of its [try], and leaves the files. *)
Lemma set_git_remote_total url w :
  exists w1, set_git_remote git url w = (w1, Ok tt) /\ fs w1 = fs w.
Proof.
  destruct (git ["git"; "remote"; "set-url"; "origin"; url]) as [[]|e] eqn:E.
  - exists (remote_set url w). split; [now apply set_git_remote_done | reflexivity].
  - exists (warned url w). split; [eapply set_git_remote_failed; eauto | reflexivity].
Qed.

Lemma update_lazy_spec_noop url w :
  str_endswith (os_path_basename url) "nvim" = false
  \/ fs w !! Path "lazy.lua" = None ->
  update_lazy_spec url w = (w, Ok tt).
Proof.
  intros [H|H]; unfold update_lazy_spec.
  - now rewrite H.
  - destruct (str_endswith _ _); [|reflexivity].
    now rewrite (bind_ok _ _ _ _ _ (path_exists_absent _ _ H (lazy_stat_ok _))).
Qed.

Lemma update_lazy_spec_regular url text w :
  str_endswith (os_path_basename url) "nvim" = true ->
  fs w !! Path "lazy.lua" = Some (File text) ->
  update_lazy_spec url w =
    (World (<[Path "lazy.lua" :=
                File (str_replace (universal_newlines text) "/nvim-plugin-template"
                        ("/" ++ str_drop_last 4 (os_path_basename url)))]> (fs w))
           (console w ++ ["✓ Updated lazy.lua repo reference"]) (spawned w),
     Ok tt).
Proof.
  intros Hs H. unfold update_lazy_spec. rewrite Hs.
  rewrite (bind_ok _ _ _ _ _ (path_exists_present _ _ _ H)).
  unfold bind, read_text. rewrite H. unfold write_text. rewrite H. reflexivity.
Qed.

Lemma update_lazy_spec_dir url w :
  str_endswith (os_path_basename url) "nvim" = true ->
  fs w !! Path "lazy.lua" = Some Dir ->
  update_lazy_spec url w = (w, Raise IsADirectoryError).
Proof.
  intros Hs H. unfold update_lazy_spec. rewrite Hs.
  rewrite (bind_ok _ _ _ _ _ (path_exists_present _ _ _ H)).
  unfold bind, read_text. now rewrite H.
Qed.

Lemma update_lazy_spec_ok url w :
  not_a_directory w (Path "lazy.lua") -> snd (update_lazy_spec url w) = Ok tt.
Proof.
  intros Hreg.
  destruct (str_endswith (os_path_basename url) "nvim") eqn:Hs;
    [|rewrite update_lazy_spec_noop by (now left); reflexivity].
  destruct (fs w !! Path "lazy.lua") as [[text|]|] eqn:E.
  - now rewrite (update_lazy_spec_regular _ _ _ Hs E).
  - now destruct Hreg.
  - rewrite update_lazy_spec_noop by (now right). reflexivity.
Qed.

Lemma update_lazy_spec_spawned url w :
  spawned (fst (update_lazy_spec url w)) = spawned w.
Proof.
  destruct (str_endswith (os_path_basename url) "nvim") eqn:Hs;
    [|rewrite update_lazy_spec_noop by (now left); reflexivity].
  destruct (fs w !! Path "lazy.lua") as [[text|]|] eqn:E.
  - now rewrite (update_lazy_spec_regular _ _ _ Hs E).
  - now rewrite (update_lazy_spec_dir _ _ Hs E).
  - rewrite update_lazy_spec_noop by (now right). reflexivity.
Qed.

Lemma remote_steps_ok url w :
  not_a_directory w (Path "lazy.lua") -> snd (remote_steps git url w) = Ok tt.
Proof.
  intros Hreg. unfold remote_steps. destruct (truthy url) as [u|]; [|reflexivity].
  destruct (set_git_remote_total u w) as (w1 & E & Hfs).
  rewrite (bind_ok _ _ _ _ _ E). apply update_lazy_spec_ok.
  unfold not_a_directory in *. now rewrite Hfs.
Qed.

Lemma main_split plugin user url w :
  main mv git plugin user url w
  = bind (local_steps mv plugin user)
         (fun _ => bind (remote_steps git url)
                        (fun _ => typer_echo (done_message plugin))) w.
Proof.
  unfold main, local_steps, banner, done_message, bind, typer_echo.
  destruct (rename_directory mv (to_snake_case plugin) _) as [w1 [[]|e]];
    [|reflexivity].
  destruct (update_file_contents plugin user w1) as [w2 [[]|e]]; reflexivity.
Qed.

Lemma typer_echo_run msg w :
  typer_echo msg w = (World (fs w) (console w ++ [msg]) (spawned w), Ok tt).
Proof. reflexivity. Qed.

(** When the local steps complete, no target path is a directory. *)
Lemma local_steps_ok_regular plugin user w w2 :
  local_steps mv plugin user w = (w2, Ok tt) ->
  forall p, In p (files_to_update (to_snake_case plugin)) ->
            not_a_directory w2 (Path p).
Proof.
  intros Hloc. unfold local_steps in Hloc.
  unfold bind at 1 in Hloc. rewrite typer_echo_run in Hloc.
  match type of Hloc with
  | bind _ _ ?w0 = _ =>
      destruct (rename_directory mv (to_snake_case plugin) w0) as [w1 [[]|e]] eqn:E
  end.
  - rewrite (bind_ok _ _ _ _ _ E) in Hloc.
    eapply for_each_ok_regular; exact Hloc.
  - rewrite (bind_raise _ _ _ _ _ E) in Hloc. discriminate.
Qed.

(** Once the local steps have completed, nothing later raises. *)
Lemma main_after_local_steps plugin user url w w2 :
  local_steps mv plugin user w = (w2, Ok tt) ->
  exists w', main mv git plugin user url w = (w', Ok tt)
             /\ last (console w') = Some (done_message plugin).
Proof.
  intros Hloc. rewrite main_split, (bind_ok _ _ _ _ _ Hloc).
  assert (Hreg : not_a_directory w2 (Path "lazy.lua")).
  { eapply local_steps_ok_regular; [exact Hloc|].
    unfold files_to_update. cbn [In]. tauto. }
  pose proof (remote_steps_ok url w2 Hreg) as Hr.
  destruct (remote_steps git url w2) as [w3 r] eqn:E. cbn [snd] in Hr. subst r.
  rewrite (bind_ok _ _ _ _ _ E), typer_echo_run.
  eexists. split; [reflexivity|]. cbn [console]. apply last_snoc.
Qed.

End Run.

(** * Substitution over the target files *)

Lemma update_file_keeps_regular table p w q :
  regular_at q w -> regular_at q (fst (update_file table p w)).
Proof.
  intros [t Ht]. unfold regular_at.
  destruct (update_file_cases table p w)
    as [(_ & r & -> & _)|[[_ ->]|(text & _ & ->)]];
    cbn [fst]; eauto.
  rewrite updated_lookup. case_decide; eauto.
Qed.

(** A processed regular file is reported on the console, and the console
    only grows. *)
Lemma update_file_console table p w :
  exists more, console (fst (update_file table p w)) = (console w ++ more)%list.
Proof.
  destruct (update_file_cases table p w)
    as [(_ & r & -> & _)|[[_ ->]|(text & _ & ->)]]; cbn [fst].
  - exists []. now rewrite app_nil_r.
  - exists []. now rewrite app_nil_r.
  - eexists. reflexivity.
Qed.

Lemma for_each_console table files w :
  exists more,
    console (fst (for_each files (update_file table) w)) = (console w ++ more)%list.
Proof.
  revert w. induction files as [|p files IH]; intros w.
  - exists []. cbn. now rewrite app_nil_r.
  - cbn [for_each]. destruct (update_file_console table p w) as [m1 H1].
    destruct (update_file table p w) as [w1 [[]|e]] eqn:E; cbn [fst] in H1.
    + rewrite (bind_ok _ _ _ _ _ E). destruct (IH w1) as [m2 H2].
      exists (m1 ++ m2)%list. now rewrite H2, H1, app_assoc.
    + rewrite (bind_raise _ _ _ _ _ E). now exists m1.
Qed.

Lemma for_each_reports table files w w' q :
  for_each files (update_file table) w = (w', Ok tt) ->
  In q files -> regular_at (Path q) w ->
  In ("✓ Updated " ++ q) (console w').
Proof.
  revert w. induction files as [|p files IH]; intros w Hrun Hin Hreg; [destruct Hin|].
  cbn [for_each] in Hrun.
  destruct (update_file table p w) as [w1 [[]|e]] eqn:E.
  - rewrite (bind_ok _ _ _ _ _ E) in Hrun. destruct Hin as [->|Hin].
    + destruct Hreg as [text Ht].
      rewrite (update_file_regular table q text w Ht) in E. injection E as <-.
      destruct (for_each_console table files (updated table q text w)) as [more Hm].
      rewrite Hrun in Hm. cbn [fst] in Hm. rewrite Hm.
      apply in_or_app. left. unfold updated. cbn [console].
      apply in_or_app. right. now left.
    + apply (IH w1 Hrun Hin).
      change w1 with (fst (w1, @Ok unit tt)). rewrite <- E.
      now apply update_file_keeps_regular.
  - rewrite (bind_raise _ _ _ _ _ E) in Hrun. discriminate.
Qed.

Lemma replacements_keys_nonempty plugin user old new :
  In (old, new) (replacements plugin user) -> old <> "".
Proof.
  unfold replacements. cbn [In].
  intros [H|[H|[H|[H|[H|[]]]]]]; injection H as <- _; discriminate.
Qed.

(** Each pass puts one copy of the replacement in place of each of the
    counted occurrences of its placeholder. *)
Lemma pass_length (old new : string) :
  old <> "" ->
  forall s, String.length (str_replace s old new) + str_count s old * String.length old
            = String.length s + str_count s old * String.length new.
Proof.
  intros Hold. apply (scan_ind old); [exact Hold | | | ].
  - rewrite str_replace_nil, str_count_nil by exact Hold. reflexivity.
  - intros s rest E IH.
    rewrite (str_replace_hit _ new Hold _ _ E), (str_count_hit _ Hold _ _ E).
    rewrite str_length_app, (strip_prefix_length _ _ _ E). lia.
  - intros c s E IH.
    rewrite (str_replace_miss _ new Hold _ _ E), (str_count_miss _ Hold _ _ E).
    cbn [String.length]. lia.
Qed.

(** * Step 1 and the local steps *)

Section Local.

Variable mv : gmap string node -> string -> string -> gmap string node * result unit.

Lemma rename_directory_absent snake w :
  fs w !! Path "lua/myplugin" = None -> rename_directory mv snake w = (w, Ok tt).
Proof.
  intros H. unfold rename_directory.
  now rewrite (bind_ok _ _ _ _ _ (path_exists_absent _ _ H (template_stat_ok _))).
Qed.

(** Step 1 reads and writes the file system only: console and spawned
    commands do not influence it, and it spawns nothing. *)
Lemma rename_directory_frame snake w c sp :
  let r := rename_directory mv snake w in
  let r' := rename_directory mv snake (World (fs w) c sp) in
  fs (fst r') = fs (fst r) /\ snd r' = snd r /\ spawned (fst r') = sp.
Proof.
  unfold rename_directory.
  generalize (Path "lua/myplugin"), (Path ("lua/" ++ snake)). intros a b.
  destruct w as [f0 c0 sp0].
  unfold bind, path_exists, move, typer_echo, set_fs. cbn.
  destruct (f0 !! a); cbn; [|destruct (stat_name_too_long f0 a); cbn; auto].
  destruct (mv f0 a b) as [f [[]|e]]; cbn; auto.
Qed.

Lemma rename_directory_spawned snake w :
  spawned (fst (rename_directory mv snake w)) = spawned w.
Proof.
  destruct w as [f c sp].
  apply (rename_directory_frame snake (World f c sp) c sp).
Qed.

Lemma local_steps_spawned plugin user w :
  spawned (fst (local_steps mv plugin user w)) = spawned w.
Proof.
  unfold local_steps. unfold bind at 1. rewrite typer_echo_run.
  match goal with
  | |- context [bind _ _ ?w0] =>
      pose proof (rename_directory_spawned (to_snake_case plugin) w0) as Hs;
      destruct (rename_directory mv (to_snake_case plugin) w0) as [w1 [[]|e]] eqn:E
  end; cbn [fst spawned] in Hs.
  - rewrite (bind_ok _ _ _ _ _ E). unfold update_file_contents.
    now rewrite for_each_spawned.
  - now rewrite (bind_raise _ _ _ _ _ E).
Qed.

(** When the local steps complete, the move (if any) did not raise and,
    after it, no target path is a directory. *)
Lemma local_steps_ok_means plugin user w w2 :
  local_steps mv plugin user w = (w2, Ok tt) ->
  snd (rename_directory mv (to_snake_case plugin) w) = Ok tt
  /\ forall p, In p (files_to_update (to_snake_case plugin)) ->
               not_a_directory (fst (rename_directory mv (to_snake_case plugin) w))
                               (Path p).
Proof.
  unfold local_steps. unfold bind at 1. rewrite typer_echo_run.
  destruct (rename_directory_frame (to_snake_case plugin) w
              (console w ++ [banner plugin user]) (spawned w)) as (Hfs & Hres & _).
  cbv zeta in Hfs, Hres.
  destruct (rename_directory mv (to_snake_case plugin) (World _ _ _))
    as [w1 [[]|e]] eqn:E; cbn [fst snd] in Hfs, Hres.
  - rewrite (bind_ok _ _ _ _ _ E). unfold update_file_contents. intros Hrun.
    split; [now rewrite <- Hres|]. intros p Hp Hd.
    rewrite <- Hfs in Hd.
    destruct (for_each_dir_raises (replacements plugin user) _ w1 p Hp Hd) as [e He].
    rewrite Hrun in He. discriminate.
  - rewrite (bind_raise _ _ _ _ _ E). discriminate.
Qed.

End Local.

(** * The claims *)

(** C4 (as amended): a run exits with status 0 only if the directory move,
    when attempted, did not raise and no target path was a directory after
    it: an exception of the move or of reading a directory is not caught
    and ends the run with a non-zero status.  The name forms are those of
    the script for a plugin name of ASCII characters. *)
Theorem exit_status_zero_needs_local_steps
  (mv : gmap string node -> string -> string -> gmap string node * result unit)
  (git : list string -> result unit)
  (plugin user : string) (url : option string) (w : world) :
  is_ascii plugin = true ->
  exit_code (snd (main mv git plugin user url w)) = 0 ->
  snd (rename_directory mv (to_snake_case plugin) w) = Ok tt
  /\ (forall p, In p (files_to_update (to_snake_case plugin)) ->
                not_a_directory (fst (rename_directory mv (to_snake_case plugin) w))
                                (Path p)).
Proof.
  intros _ Hexit.
  destruct (local_steps mv plugin user w) as [w2 [[]|e]] eqn:E.
  - exact (local_steps_ok_means mv plugin user w w2 E).
  - rewrite main_split, (bind_raise _ _ _ _ _ E) in Hexit. discriminate.
Qed.

Lemma exit_status_zero_witness :
  let w := world_of [("lua/myplugin", Dir); ("README.md", File "myplugin")] in
  snd (rename_directory plain_move (to_snake_case "foo") w) = Ok tt
  /\ not_a_directory (fst (rename_directory plain_move (to_snake_case "foo") w))
                     (Path "README.md").
Proof.
  intros w.
  destruct (exit_status_zero_needs_local_steps plain_move git_exits_nonzero
              "foo" "alice" (Some "https://github.com/alice/foo.nvim") w)
    as [H1 H2].
  - reflexivity.
  - vm_compute. reflexivity.
  - split; [exact H1|]. apply H2. cbn. auto 10.
Defined.

(** A directory where a target file is expected: [read_text] raises
    [IsADirectoryError], nothing catches it, exit status 1. *)
Lemma directory_target_gives_nonzero_exit :
  let w := world_of [("README.md", Dir)] in
  path_exists (Path "README.md") w = (w, Ok true)
  /\ main plain_move git_succeeds "foo" "alice" None w
     = (World (fs w) ["Renaming: foo (foo, Foo) for alice"] [], Raise IsADirectoryError)
  /\ exit_code (snd (main plain_move git_succeeds "foo" "alice" None w)) = 1.
Proof. vm_compute. repeat split; reflexivity. Qed.

(** C6, the counterexample: with a plugin name of 256 characters the first
    target path has a component longer than a file name may be; the path
    is absent, yet the existence test raises instead of answering no, the
    run ends there, and the file after it in the list is not processed. *)
Lemma overlong_name_aborts_at_absent_target :
  let name := str_repeat 256 "a" in
  let w := world_of [("lua", Dir); ("README.md", File "myplugin")] in
  let run := main plain_move git_succeeds name "alice" None w in
  fs w !! Path "lua/myplugin" = None
  /\ fs w !! Path ("lua/" ++ to_snake_case name ++ "/init.lua") = None
  /\ In "README.md" (files_to_update (to_snake_case name))
  /\ snd run = Raise NameTooLongError
  /\ exit_code (snd run) = 1
  /\ fs (fst run) !! Path "README.md" = Some (File "myplugin").
Proof. vm_compute. repeat split; auto 10. Qed.

(** C6 (as amended): when the existence test of [lua/myplugin] answers no,
    the rename step changes nothing and raises nothing, and the run goes on
    with the content substitution; a target file whose existence test
    answers no is skipped without a trace: the loop goes on with the next
    file, in the world it had reached, and every later file that is a
    regular file is reported as updated when the loop completes.  (The
    test answers no for an absent path within the length limits of the
    file system, see [path_exists_absent].) *)
Theorem absent_paths_are_skipped_when_the_test_answers
  (mv : gmap string node -> string -> string -> gmap string node * result unit)
  (git : list string -> result unit)
  (plugin user : string) (url : option string) (w : world)
  (table : list (string * string)) (before after : list string)
  (p : string) (w0 : world) :
  snd (path_exists (Path "lua/myplugin") w) = Ok false ->
  snd (path_exists (Path p) (fst (for_each before (update_file table) w0)))
  = Ok false ->
  rename_directory mv (to_snake_case plugin) w = (w, Ok tt)
  /\ main mv git plugin user url w
     = bind (typer_echo (banner plugin user))
            (fun _ => bind (update_file_contents plugin user)
                        (fun _ => bind (remote_steps git url)
                                    (fun _ => typer_echo (done_message plugin)))) w
  /\ update_file table p (fst (for_each before (update_file table) w0))
     = (fst (for_each before (update_file table) w0), Ok tt)
  /\ for_each (before ++ p :: after)%list (update_file table) w0
     = bind (for_each before (update_file table))
            (fun _ => for_each after (update_file table)) w0
  /\ (forall q rest, after = q :: rest ->
        for_each (before ++ p :: after)%list (update_file table) w0
        = bind (for_each before (update_file table))
               (fun _ => bind (update_file table q)
                           (fun _ => for_each rest (update_file table))) w0)
  /\ (forall q w',
        for_each (before ++ p :: after)%list (update_file table) w0 = (w', Ok tt) ->
        In q after ->
        regular_at (Path q) (fst (for_each before (update_file table) w0)) ->
        In ("✓ Updated " ++ q) (console w')).
Proof.
  intros Hdir Hp.
  apply path_exists_answer in Hdir as [Hdir _].
  apply path_exists_answer in Hp as [Hp _].
  assert (Hrename : forall c sp,
             rename_directory mv (to_snake_case plugin) (World (fs w) c sp)
             = (World (fs w) c sp, Ok tt)).
  { intros c sp. unfold rename_directory.
    assert (E : path_exists (Path "lua/myplugin") (World (fs w) c sp)
                = (World (fs w) c sp, Ok false)).
    { revert Hdir. unfold path_exists. cbn [fs].
      destruct (fs w !! Path "lua/myplugin"); [discriminate|].
      destruct (stat_name_too_long (fs w) (Path "lua/myplugin"));
        [discriminate | reflexivity]. }
    now rewrite (bind_ok _ _ _ _ _ E). }
  assert (Hskip : forall w1, path_exists (Path p) w1 = (w1, Ok false) ->
                             update_file table p w1 = (w1, Ok tt)).
  { intros w1 E. unfold update_file. now rewrite (bind_ok _ _ _ _ _ E). }
  assert (Hloop : for_each (before ++ p :: after)%list (update_file table) w0
                  = bind (for_each before (update_file table))
                         (fun _ => for_each after (update_file table)) w0).
  { rewrite for_each_app.
    destruct (for_each before (update_file table) w0) as [w1 [[]|e]] eqn:E;
      cbn [fst] in Hp.
    + rewrite !(bind_ok _ _ _ _ _ E). cbn [for_each].
      now rewrite (bind_ok _ _ _ _ _ (Hskip w1 Hp)).
    + now rewrite !(bind_raise _ _ _ _ _ E). }
  split; [|split; [|split; [|split; [|split]]]].
  - destruct w as [f c sp]. apply Hrename.
  - unfold main, banner, done_message.
    rewrite !(bind_ok _ _ w _ tt (typer_echo_run _ w)).
    now rewrite (bind_ok _ _ _ _ _ (Hrename _ _)).
  - now apply Hskip.
  - exact Hloop.
  - intros q rest ->. exact Hloop.
  - intros q w' Hrun Hq Hreg. rewrite Hloop in Hrun.
    destruct (for_each before (update_file table) w0) as [w1 [[]|e]] eqn:E;
      cbn [fst] in Hreg.
    + rewrite (bind_ok _ _ _ _ _ E) in Hrun.
      exact (for_each_reports table after w1 w' q Hrun Hq Hreg).
    + rewrite (bind_raise _ _ _ _ _ E) in Hrun. discriminate.
Qed.

Lemma absent_paths_witness :
  let w := world_of [("README.md", File "myplugin")] in
  let table := replacements "foo" "alice" in
  rename_directory plain_move (to_snake_case "foo") w = (w, Ok tt)
  /\ update_file table "lazy.lua" (fst (for_each ["lua/foo/init.lua"] (update_file table) w))
     = (fst (for_each ["lua/foo/init.lua"] (update_file table) w), Ok tt)
  /\ In "✓ Updated README.md"
        (console (fst (for_each ["lua/foo/init.lua"; "lazy.lua"; "README.md"]
                                (update_file table) w))).
Proof.
  intros w table.
  destruct (absent_paths_are_skipped_when_the_test_answers plain_move git_succeeds
              "foo" "alice" None w table ["lua/foo/init.lua"] ["README.md"]
              "lazy.lua" w) as (H1 & _ & H3 & _ & _ & H6).
  - reflexivity.
  - reflexivity.
  - split; [exact H1|]. split; [exact H3|].
    apply (H6 "README.md").
    + vm_compute. reflexivity.
    + now left.
    + exists "myplugin". reflexivity.
Defined.

(** C5: with a URL supplied, a failing git call (non-zero exit or failure
    to start) is caught and reported by a warning; the run goes on with the
    lazy.lua patch and the completion message, and ends normally. *)
Theorem failed_git_call_is_only_a_warning
  (mv : gmap string node -> string -> string -> gmap string node * result unit)
  (git : list string -> result unit)
  (plugin user url : string) (e : exn) (w w2 : world) :
  url <> "" ->
  git ["git"; "remote"; "set-url"; "origin"; url] = Raise e ->
  local_steps mv plugin user w = (w2, Ok tt) ->
  set_git_remote git url w2 = (warned url w2, Ok tt)
  /\ main mv git plugin user (Some url) w
     = bind (update_lazy_spec url)
            (fun _ => typer_echo (done_message plugin)) (warned url w2)
  /\ exists w', main mv git plugin user (Some url) w = (w', Ok tt)
                /\ last (console w') = Some (done_message plugin)
                /\ In "! Could not set git remote" (console w').
Proof.
  intros Hurl Hgit Hloc.
  pose proof (set_git_remote_failed git url e w2 Hgit) as Hset.
  assert (Hmain : main mv git plugin user (Some url) w
                  = bind (update_lazy_spec url)
                         (fun _ => typer_echo (done_message plugin)) (warned url w2)).
  { rewrite main_split, (bind_ok _ _ _ _ _ Hloc).
    unfold remote_steps, truthy. destruct url as [|c url]; [congruence|].
    now rewrite bind_assoc, (bind_ok _ _ _ _ _ Hset). }
  split; [exact Hset|]. split; [exact Hmain|].
  rewrite Hmain.
  assert (Hreg : not_a_directory (warned url w2) (Path "lazy.lua")).
  { unfold not_a_directory, warned. cbn [fs].
    eapply (local_steps_ok_regular mv plugin user w w2 Hloc).
    unfold files_to_update. cbn [In]. tauto. }
  pose proof (update_lazy_spec_ok url _ Hreg) as Hok.
  assert (Hcons : exists more, console (fst (update_lazy_spec url (warned url w2)))
                               = (console w2 ++ "! Could not set git remote" :: more)%list).
  { destruct (str_endswith (os_path_basename url) "nvim") eqn:Hs.
    - destruct (fs (warned url w2) !! Path "lazy.lua") as [[text|]|] eqn:E.
      + rewrite (update_lazy_spec_regular _ _ _ Hs E). cbn [fst console warned].
        eexists. now rewrite <- app_assoc.
      + now destruct Hreg.
      + rewrite update_lazy_spec_noop by (now right). now exists [].
    - rewrite update_lazy_spec_noop by (now left). now exists []. }
  destruct (update_lazy_spec url (warned url w2)) as [w3 r] eqn:E.
  cbn [fst snd] in Hok, Hcons. subst r. destruct Hcons as [more Hcons].
  rewrite (bind_ok _ _ _ _ _ E), typer_echo_run.
  eexists. split; [reflexivity|]. cbn [console]. split; [apply last_snoc|].
  rewrite Hcons. apply in_or_app. left. apply in_or_app. right. now left.
Qed.

Lemma failed_git_call_witness :
  let w := world_of [("lazy.lua", File "x/nvim-plugin-template")] in
  exists w', main plain_move git_exits_nonzero "foo" "alice" (Some "https://example.org/alice/foo") w
             = (w', Ok tt)
             /\ last (console w') = Some (done_message "foo")
             /\ In "! Could not set git remote" (console w').
Proof.
  intros w.
  apply (failed_git_call_is_only_a_warning plain_move git_exits_nonzero
           "foo" "alice" "https://example.org/alice/foo" CalledProcessError w
           (fst (local_steps plain_move "foo" "alice" w))).
  - discriminate.
  - reflexivity.
  - vm_compute. reflexivity.
Defined.

(** C7: with no URL the remote block does nothing at all: the world is
    returned as it was (so lazy.lua keeps its text), no process is spawned
    during the whole run, and the run is the local steps followed by the
    completion message. *)
Theorem no_url_skips_remote_block
  (mv : gmap string node -> string -> string -> gmap string node * result unit)
  (git : list string -> result unit)
  (plugin user : string) (w : world) :
  (forall w1, remote_steps git None w1 = (w1, Ok tt))
  /\ main mv git plugin user None w
     = bind (local_steps mv plugin user)
            (fun _ => typer_echo (done_message plugin)) w
  /\ spawned (fst (main mv git plugin user None w)) = spawned w.
Proof.
  split; [reflexivity|].
  assert (Hmain : main mv git plugin user None w
                  = bind (local_steps mv plugin user)
                         (fun _ => typer_echo (done_message plugin)) w).
  { rewrite main_split. unfold bind at 1 3.
    destruct (local_steps mv plugin user w) as [w2 [[]|e]]; reflexivity. }
  split; [exact Hmain|]. rewrite Hmain.
  pose proof (local_steps_spawned mv plugin user w) as Hs.
  destruct (local_steps mv plugin user w) as [w2 [[]|e]] eqn:E; cbn [fst] in Hs.
  - rewrite (bind_ok _ _ _ _ _ E). exact Hs.
  - rewrite (bind_raise _ _ _ _ _ E). exact Hs.
Qed.



(** C1: the run on the URL [https://github.com/alice/foo.nvim].  The
    suffix the script strips is ["nvim"], without the dot, so
    [foo.nvim] becomes [foo.] and lazy.lua ends up with [/foo.] where
    [/nvim-plugin-template] stood, not with [/foo]. *)
Theorem lazy_reference_keeps_the_dot
  (mv : gmap string node -> string -> string -> gmap string node * result unit)
  (git : list string -> result unit) :
  let text := "return { 'alice/nvim-plugin-template' }" in
  let w := world_of [("lazy.lua", File text)] in
  let w' := fst (main mv git "foo" "alice" (Some "https://github.com/alice/foo.nvim") w) in
  os_path_basename "https://github.com/alice/foo.nvim" = "foo.nvim"
  /\ str_drop_last 4 "foo.nvim" = "foo."
  /\ fs w' !! "lazy.lua" = Some (File "return { 'alice/foo.' }")
  /\ str_replace text "/nvim-plugin-template" "/foo" = "return { 'alice/foo' }"
  /\ "return { 'alice/foo.' }" <> "return { 'alice/foo' }".
Proof.
  intros text w w'. split; [reflexivity|]. split; [reflexivity|].
  split; [|split; [reflexivity | discriminate]].
  subst w'. rewrite main_split.
  assert (Hloc : local_steps mv "foo" "alice" w
                 = (World (fs w) ["Renaming: foo (foo, Foo) for alice"; "✓ Updated lazy.lua"] [],
                    Ok tt)) by (vm_compute; reflexivity).
  rewrite (bind_ok _ _ _ _ _ Hloc). unfold remote_steps, truthy.
  rewrite bind_assoc.
  destruct (git ["git"; "remote"; "set-url"; "origin"; "https://github.com/alice/foo.nvim"])
    as [[]|e] eqn:Hgit.
  - rewrite (bind_ok _ _ _ _ _ (set_git_remote_done git _ _ Hgit)).
    vm_compute. reflexivity.
  - rewrite (bind_ok _ _ _ _ _ (set_git_remote_failed git _ _ _ Hgit)).
    vm_compute. reflexivity.
Qed.




(** C9, the counterexample: the name ['ŉ-x'] (U+0149, ['-'], ['x']).  The
    title case of U+0149 is two code points, U+02BC and ['N']: the second
    character of the capitalized form is the upper-case letter ['N'],
    which is not the first character of a segment. *)
Lemma title_case_leaves_an_upper_case_letter :
  let name := [329; 45; 120]%N in
  Unicode.segments name = [[329]; [120]]%N
  /\ Unicode.to_camel_case name = [700; 78; 88]%N
  /\ nth_error (Unicode.to_camel_case name) 1 = Some 78%N
  /\ Unicode.to_lower_full 78 = [110]%N.
Proof. vm_compute. repeat split; reflexivity. Qed.

(** C9 (as amended): the capitalized form is the concatenation, over the
    segments between ['-'] and ['_'], of the title case of the segment's
    first character (which may be more than one character) followed by
    the lower case of its other characters; every character written for
    those others is its own lower case, so no upper-case letter inside a
    segment is preserved.  For a segment of ASCII characters this is the
    first character upper-cased and the others lower-cased:
    ['myABC-plugin'] gives ['MyabcPlugin']. *)
Theorem capitalized_form_by_segments (name : list N) :
  Unicode.to_camel_case name
  = List.concat (map Unicode.str_capitalize (Unicode.segments name))
  /\ (forall c rest,
        Unicode.str_capitalize (c :: rest)
        = (Unicode.to_title_full c ++ Unicode.do_lower [c] rest)%list
        /\ (forall d, In d (Unicode.do_lower [c] rest) ->
                      Unicode.to_lower_full d = [d] /\ Unicode.ascii_lower d = d)
        /\ (Forall (fun x => (x < 128)%N) (c :: rest) ->
            Unicode.str_capitalize (c :: rest)
            = Unicode.ascii_upper c :: map Unicode.ascii_lower rest))
  /\ Unicode.to_camel_case (Unicode.codes "myABC-plugin")
     = Unicode.codes "MyabcPlugin".
Proof.
  split; [|split; [|vm_compute; reflexivity]].
  - unfold Unicode.to_camel_case. now rewrite unicode_split_segments.
  - intros c rest. split; [reflexivity|]. split.
    + intros d Hd. pose proof (do_lower_fixed _ _ _ Hd) as Hfix.
      split; [exact Hfix|].
      unfold Unicode.ascii_lower.
      destruct ((65 <=? d)%N && (d <=? 90)%N) eqn:E; [|reflexivity].
      apply andb_prop in E as [E1 E2].
      apply N.leb_le in E1, E2.
      assert (Hd128 : (d < 128)%N) by lia.
      pose proof (ascii_lower_ucs4 [] [] d Hd128) as Hl.
      unfold Unicode.lower_ucs4 in Hl.
      destruct (N.eqb_spec d 931) as [->|_]; [lia|].
      rewrite Hfix in Hl. injection Hl as Hl. unfold Unicode.ascii_lower in Hl.
      apply N.leb_le in E1, E2. rewrite E1, E2 in Hl. cbn [andb] in Hl. lia.
    + intros H. inversion H as [|? ? Hc Hrest]; subst.
      cbn [Unicode.str_capitalize].
      now rewrite (ascii_title _ Hc), (ascii_do_lower _ _ Hrest).
Qed.

(** * Further properties of the name forms *)

Lemma snake_char_is_ok (c : ascii) :
  snake_char_ok (lower_char (Spec.dash_to_underscore c)) = true.
Proof. ascii_cases c. Qed.

Lemma ok_char_kept (c : ascii) :
  snake_char_ok c = true -> lower_char (Spec.dash_to_underscore c) = c.
Proof.
  destruct c as [[] [] [] [] [] [] [] []]; intros H;
    try reflexivity; vm_compute in H; discriminate H.
Qed.

Lemma str_forall_map (p : ascii -> bool) (f : ascii -> ascii) (s : string) :
  (forall c, p (f c) = true) -> str_forall p (str_map f s) = true.
Proof.
  intros H. induction s as [|c s IH]; [reflexivity|].
  cbn [str_map str_forall]. now rewrite H, IH.
Qed.

Lemma str_map_app (f : ascii -> ascii) (a b : string) :
  str_map f (a ++ b) = str_map f a ++ str_map f b.
Proof.
  induction a as [|c a IH]; [reflexivity|].
  rewrite !str_app_cons. cbn [str_map]. now rewrite str_app_cons, IH.
Qed.

(** X1: the snake form of a name of ASCII characters has the length of
    the name and holds neither a ['-'] nor an upper-case letter. *)
Theorem snake_form_shape (name : string) :
  is_ascii name = true ->
  String.length (to_snake_case name) = String.length name
  /\ str_forall snake_char_ok (to_snake_case name) = true.
Proof.
  intros _. rewrite snake_case_char_map. split.
  - apply str_map_length.
  - apply str_forall_map, snake_char_is_ok.
Qed.

Lemma snake_form_shape_witness :
  String.length (to_snake_case "Markdown-Editor") = 15
  /\ str_forall snake_char_ok (to_snake_case "Markdown-Editor") = true.
Proof. apply (snake_form_shape "Markdown-Editor"). reflexivity. Defined.

(** X2: the names of ASCII characters that the snake form leaves as they
    are are exactly those without ['-'] and without upper-case letters. *)
Theorem snake_form_fixed_points (name : string) :
  is_ascii name = true ->
  to_snake_case name = name <-> str_forall snake_char_ok name = true.
Proof.
  intros _. split.
  - intros H. rewrite <- H, snake_case_char_map.
    apply str_forall_map, snake_char_is_ok.
  - rewrite snake_case_char_map. induction name as [|c r IH]; [reflexivity|].
    cbn [str_map str_forall]. intros H. apply andb_prop in H as [Hc Hr].
    now rewrite (ok_char_kept c Hc), (IH Hr).
Qed.

Lemma snake_form_fixed_points_witness :
  to_snake_case "markdown_editor" = "markdown_editor"
  <-> str_forall snake_char_ok "markdown_editor" = true.
Proof. apply (snake_form_fixed_points "markdown_editor"). reflexivity. Defined.

Lemma case_keeps_non_delimiter (c : ascii) :
  Spec.is_delimiter c = false ->
  Spec.is_delimiter (upper_char c) = false /\ Spec.is_delimiter (lower_char c) = false.
Proof.
  destruct c as [[] [] [] [] [] [] [] []]; intros H;
    try (split; reflexivity); vm_compute in H; discriminate H.
Qed.

Lemma upper_char_not_lower (c : ascii) : is_lower (upper_char c) = false.
Proof. ascii_cases c. Qed.

Lemma upper_of_lower (c : ascii) : upper_char (lower_char c) = upper_char c.
Proof. ascii_cases c. Qed.

Lemma snake_char_delimiter (c : ascii) :
  Spec.is_delimiter (lower_char (Spec.dash_to_underscore c)) = Spec.is_delimiter c.
Proof. ascii_cases c. Qed.

Lemma snake_char_lower (c : ascii) :
  Spec.is_delimiter c = false ->
  lower_char (Spec.dash_to_underscore c) = lower_char c.
Proof. intros H. now rewrite (non_delimiter_kept c H). Qed.

Lemma str_forall_app (p : ascii -> bool) (a b : string) :
  str_forall p (a ++ b) = str_forall p a && str_forall p b.
Proof.
  induction a as [|c a IH]; [reflexivity|].
  rewrite str_app_cons. cbn [str_forall]. now rewrite IH, andb_assoc.
Qed.

Lemma segments_nonempty (name : string) : Spec.segments name <> [].
Proof.
  destruct name as [|c r]; cbn [Spec.segments]; [discriminate|].
  destruct (Spec.is_delimiter c); [discriminate|].
  destruct (Spec.segments r); discriminate.
Qed.

(** No segment holds a delimiter. *)
Lemma segments_no_delimiter (name : string) :
  Forall (fun seg => str_forall (fun c => negb (Spec.is_delimiter c)) seg = true)
         (Spec.segments name).
Proof.
  induction name as [|c r IH]; cbn [Spec.segments].
  - repeat constructor.
  - destruct (Spec.is_delimiter c) eqn:Hc.
    + constructor; [reflexivity | exact IH].
    + destruct (Spec.segments r) as [|seg segs].
      * repeat constructor. cbn [str_forall]. now rewrite Hc.
      * inversion IH as [|? ? Hseg Hsegs]; subst. constructor; [|exact Hsegs].
        cbn [str_forall]. now rewrite Hc, Hseg.
Qed.

(** The segments and the delimiters make up the name. *)
Lemma segments_length (name : string) :
  String.length (Spec.concat_all (Spec.segments name))
  + count_chars Spec.is_delimiter name = String.length name.
Proof.
  induction name as [|c r IH]; [reflexivity|].
  cbn [Spec.segments count_chars String.length].
  destruct (Spec.is_delimiter c).
  - cbn [Spec.concat_all]. change ("" ++ ?x) with x. lia.
  - pose proof (segments_nonempty r) as Hne.
    destruct (Spec.segments r) as [|seg segs]; [congruence|].
    cbn [Spec.concat_all] in *. rewrite str_app_cons. cbn [String.length]. lia.
Qed.

Lemma capitalize_length (seg : string) :
  String.length (str_capitalize seg) = String.length seg.
Proof.
  destruct seg as [|c r]; [reflexivity|].
  cbn [str_capitalize String.length]. unfold str_lower. now rewrite str_map_length.
Qed.

Lemma capitalize_no_delimiter (seg : string) :
  str_forall (fun c => negb (Spec.is_delimiter c)) seg = true ->
  str_forall (fun c => negb (Spec.is_delimiter c)) (str_capitalize seg) = true.
Proof.
  destruct seg as [|c r]; [reflexivity|].
  cbn [str_capitalize str_forall]. intros H. apply andb_prop in H as [Hc Hr].
  apply negb_true_iff in Hc.
  destruct (case_keeps_non_delimiter c Hc) as [-> _]. cbn [negb andb].
  unfold str_lower. clear Hc. induction r as [|d r IH]; [reflexivity|].
  cbn [str_map str_forall] in *. apply andb_prop in Hr as [Hd Hr].
  apply negb_true_iff in Hd.
  destruct (case_keeps_non_delimiter d Hd) as [_ ->]. cbn [negb andb]. now apply IH.
Qed.

Lemma concat_capitalized_length (parts : list string) :
  String.length (Spec.concat_all (List.map str_capitalize parts))
  = String.length (Spec.concat_all parts).
Proof.
  induction parts as [|p ps IH]; [reflexivity|].
  cbn [List.map Spec.concat_all]. now rewrite !str_length_app, capitalize_length, IH.
Qed.

Lemma concat_capitalized_no_delimiter (parts : list string) :
  Forall (fun seg => str_forall (fun c => negb (Spec.is_delimiter c)) seg = true) parts ->
  str_forall (fun c => negb (Spec.is_delimiter c))
             (Spec.concat_all (List.map str_capitalize parts)) = true.
Proof.
  induction 1 as [|p ps Hp _ IH]; [reflexivity|].
  cbn [List.map Spec.concat_all]. rewrite str_forall_app, IH.
  now rewrite (capitalize_no_delimiter p Hp).
Qed.

(** X3: the capitalized form of a name of ASCII characters holds neither
    ['-'] nor ['_'], and its length is the length of the name less the
    number of delimiters in it. *)
Theorem capitalized_form_shape (name : string) :
  is_ascii name = true ->
  str_forall (fun c => negb (Spec.is_delimiter c)) (to_camel_case name) = true
  /\ String.length (to_camel_case name) + count_chars Spec.is_delimiter name
     = String.length name.
Proof.
  intros _. rewrite camel_case_segments. split.
  - apply concat_capitalized_no_delimiter, segments_no_delimiter.
  - rewrite concat_capitalized_length. apply segments_length.
Qed.

Lemma capitalized_form_shape_witness :
  str_forall (fun c => negb (Spec.is_delimiter c)) (to_camel_case "my-plugin_x") = true
  /\ String.length (to_camel_case "my-plugin_x") + 2 = 11.
Proof. apply (capitalized_form_shape "my-plugin_x"). reflexivity. Defined.

Lemma count_chars_le (p : ascii -> bool) (s : string) :
  count_chars p s <= String.length s.
Proof.
  induction s as [|c r IH]; [reflexivity|].
  cbn [count_chars String.length]. destruct (p c); lia.
Qed.

Lemma count_chars_all (p : ascii -> bool) (s : string) :
  count_chars p s = String.length s <-> str_forall p s = true.
Proof.
  induction s as [|c r IH]; [easy|].
  cbn [count_chars String.length str_forall].
  pose proof (count_chars_le p r). destruct (p c); cbn [andb].
  - rewrite <- IH. lia.
  - split; [lia | discriminate].
Qed.

(** X4: the capitalized form is empty exactly when the name consists of
    delimiters only (the empty name included). *)
Theorem capitalized_form_empty_iff (name : string) :
  to_camel_case name = "" <-> str_forall Spec.is_delimiter name = true.
Proof.
  rewrite <- count_chars_all, camel_case_segments.
  pose proof (segments_length name) as Hlen.
  rewrite <- (concat_capitalized_length (Spec.segments name)) in Hlen.
  split.
  - intros H. rewrite H in Hlen. exact Hlen.
  - intros H. rewrite H in Hlen.
    destruct (Spec.concat_all (List.map str_capitalize (Spec.segments name)));
      [reflexivity | cbn [String.length] in Hlen; lia].
Qed.

Lemma concat_capitalized_head (parts : list string) :
  match Spec.concat_all (List.map str_capitalize parts) with
  | "" => True
  | String c _ => is_lower c = false
  end.
Proof.
  induction parts as [|p ps IH]; [exact I|].
  cbn [List.map Spec.concat_all]. destruct p as [|c r]; [exact IH|].
  cbn [str_capitalize]. rewrite str_app_cons. apply upper_char_not_lower.
Qed.

(** X5: a non-empty capitalized form never starts with a lower-case
    letter. *)
Theorem capitalized_form_head (name : string) :
  match to_camel_case name with
  | "" => True
  | String c _ => is_lower c = false
  end.
Proof. rewrite camel_case_segments. apply concat_capitalized_head. Qed.

Lemma segments_of_snake (name : string) :
  Spec.segments (str_map (fun c => lower_char (Spec.dash_to_underscore c)) name)
  = List.map str_lower (Spec.segments name).
Proof.
  induction name as [|c r IH]; [reflexivity|].
  cbn [str_map Spec.segments]. rewrite snake_char_delimiter.
  destruct (Spec.is_delimiter c) eqn:Hc.
  - now rewrite IH.
  - rewrite IH, (snake_char_lower c Hc).
    destruct (Spec.segments r); reflexivity.
Qed.

Lemma lower_idem (s : string) : str_lower (str_lower s) = str_lower s.
Proof.
  unfold str_lower. rewrite str_map_map. apply str_map_ext, lower_char_idem.
Qed.

Lemma capitalize_lower (seg : string) :
  str_capitalize (str_lower seg) = str_capitalize seg.
Proof.
  destruct seg as [|c r]; [reflexivity|].
  unfold str_lower at 1. cbn [str_map str_capitalize].
  fold (str_lower r). now rewrite upper_of_lower, lower_idem.
Qed.

(** X6: for a name of ASCII characters, the capitalized form of the snake
    form is the capitalized form of the name. *)
Theorem capitalized_form_of_snake_form (name : string) :
  is_ascii name = true ->
  to_camel_case (to_snake_case name) = to_camel_case name.
Proof.
  intros _.
  rewrite !camel_case_segments, snake_case_char_map, segments_of_snake.
  rewrite List.map_map. f_equal. apply List.map_ext. intros seg. apply capitalize_lower.
Qed.

Lemma capitalized_form_of_snake_form_witness :
  to_camel_case (to_snake_case "Markdown-Editor") = to_camel_case "Markdown-Editor".
Proof. apply (capitalized_form_of_snake_form "Markdown-Editor"). reflexivity. Defined.

Lemma segments_app_delimiter (a b : string) (d : ascii) :
  Spec.is_delimiter d = true ->
  Spec.segments (a ++ String d b) = (Spec.segments a ++ Spec.segments b)%list.
Proof.
  intros Hd. induction a as [|c a IH].
  - change ("" ++ String d b) with (String d b). cbn [Spec.segments]. now rewrite Hd.
  - rewrite str_app_cons. cbn [Spec.segments]. rewrite IH.
    destruct (Spec.is_delimiter c); [reflexivity|].
    pose proof (segments_nonempty a) as Hne.
    destruct (Spec.segments a); [congruence | reflexivity].
Qed.

Lemma concat_all_app (l1 l2 : list string) :
  Spec.concat_all (l1 ++ l2) = Spec.concat_all l1 ++ Spec.concat_all l2.
Proof.
  induction l1 as [|p l1 IH]; [reflexivity|].
  cbn [app Spec.concat_all]. rewrite IH.
  clear. induction p as [|c p IHp]; [reflexivity|].
  rewrite !str_app_cons. now rewrite IHp.
Qed.

Lemma camel_case_app_delimiter (a b : string) (d : ascii) :
  Spec.is_delimiter d = true ->
  to_camel_case (a ++ String d b) = to_camel_case a ++ to_camel_case b.
Proof.
  intros Hd. rewrite !camel_case_segments, (segments_app_delimiter a b d Hd).
  now rewrite List.map_app, concat_all_app.
Qed.

(** X7: for names of ASCII characters both forms are built part by part:
    the snake form of a concatenation is the concatenation of the snake
    forms, and the capitalized form of two names joined by ['-'] or ['_']
    is the concatenation of their capitalized forms. *)
Theorem name_forms_of_joined_names (a b : string) :
  is_ascii a = true -> is_ascii b = true ->
  to_snake_case (a ++ b) = to_snake_case a ++ to_snake_case b
  /\ to_camel_case (a ++ "-" ++ b) = to_camel_case a ++ to_camel_case b
  /\ to_camel_case (a ++ "_" ++ b) = to_camel_case a ++ to_camel_case b.
Proof.
  intros _ _.
  split; [rewrite !snake_case_char_map; apply str_map_app|].
  split; apply camel_case_app_delimiter; reflexivity.
Qed.

Lemma name_forms_of_joined_names_witness :
  to_camel_case ("markdown" ++ "-" ++ "editor")
  = to_camel_case "markdown" ++ to_camel_case "editor".
Proof.
  apply (name_forms_of_joined_names "markdown" "editor"); reflexivity.
Defined.

(** ** The two models of a name agree on ASCII *)

Lemma codes_cons (c : ascii) (s : string) :
  Unicode.codes (String c s) = N_of_ascii c :: Unicode.codes s.
Proof. reflexivity. Qed.

Lemma codes_app (a b : string) :
  Unicode.codes (a ++ b) = (Unicode.codes a ++ Unicode.codes b)%list.
Proof.
  induction a as [|c a IH]; [reflexivity|].
  rewrite str_app_cons, !codes_cons, IH. reflexivity.
Qed.

Lemma codes_concat_all (parts : list string) :
  Unicode.codes (Spec.concat_all parts) = List.concat (map Unicode.codes parts).
Proof.
  induction parts as [|p parts IH]; [reflexivity|].
  cbn [Spec.concat_all map List.concat]. now rewrite codes_app, IH.
Qed.

Lemma codes_str_map (f : ascii -> ascii) (g : N -> N) (s : string) :
  (forall c, N_of_ascii (f c) = g (N_of_ascii c)) ->
  Unicode.codes (str_map f s) = map g (Unicode.codes s).
Proof.
  intros H. induction s as [|c s IH]; [reflexivity|].
  cbn [str_map]. rewrite !codes_cons. cbn [map]. now rewrite H, IH.
Qed.

Lemma code_of_lower_char (c : ascii) :
  N_of_ascii (lower_char c) = Unicode.ascii_lower (N_of_ascii c).
Proof. ascii_cases c. Qed.

Lemma code_of_upper_char (c : ascii) :
  N_of_ascii (upper_char c) = Unicode.ascii_upper (N_of_ascii c).
Proof. ascii_cases c. Qed.

Lemma code_of_dash_to_underscore (c : ascii) :
  N_of_ascii (Spec.dash_to_underscore c)
  = if N.eqb 45 (N_of_ascii c) then 95%N else N_of_ascii c.
Proof. ascii_cases c. Qed.

Lemma code_is_delimiter (c : ascii) :
  Unicode.is_delimiter (N_of_ascii c) = Spec.is_delimiter c.
Proof. ascii_cases c. Qed.

Lemma is_ascii_codes (s : string) :
  is_ascii s = true -> Forall (fun x => (x < 128)%N) (Unicode.codes s).
Proof.
  induction s as [|c s IH]; [constructor|].
  unfold is_ascii. cbn [str_forall]. intros H. apply andb_prop in H as [Hc Hs].
  rewrite codes_cons. constructor; [|now apply IH].
  apply Nat.ltb_lt in Hc. unfold nat_of_ascii in Hc. lia.
Qed.

Lemma unicode_replace_dash (s : list N) :
  Unicode.str_replace s (Unicode.codes "-") (Unicode.codes "_")
  = map (fun c => if N.eqb 45 c then 95%N else c) s.
Proof.
  change (Unicode.codes "-") with [45%N]. change (Unicode.codes "_") with [95%N].
  induction s as [|c s IH]; [reflexivity|].
  rewrite unicode_replace_cons, IH. cbn [map]. now destruct (N.eqb 45 c).
Qed.

Lemma codes_segments (s : string) :
  Unicode.segments (Unicode.codes s) = map Unicode.codes (Spec.segments s).
Proof.
  induction s as [|c s IH]; [reflexivity|].
  rewrite codes_cons. cbn [Unicode.segments Spec.segments].
  rewrite code_is_delimiter, IH.
  destruct (Spec.is_delimiter c); [reflexivity|].
  now destruct (Spec.segments s).
Qed.

Lemma segments_are_ascii (s : string) :
  is_ascii s = true -> Forall (fun seg => is_ascii seg = true) (Spec.segments s).
Proof.
  induction s as [|c s IH]; [repeat constructor|].
  unfold is_ascii at 1. cbn [str_forall]. intros H. apply andb_prop in H as [Hc Hs].
  specialize (IH Hs). cbn [Spec.segments].
  destruct (Spec.is_delimiter c); [constructor; [reflexivity | exact IH]|].
  destruct (Spec.segments s) as [|seg segs].
  - constructor; [|constructor]. unfold is_ascii. cbn [str_forall]. now rewrite Hc.
  - inversion IH as [|? ? Hseg Hsegs]; subst. constructor; [|exact Hsegs].
    unfold is_ascii. cbn [str_forall]. now rewrite Hc.
Qed.

Lemma codes_capitalize (seg : string) :
  is_ascii seg = true ->
  Unicode.str_capitalize (Unicode.codes seg) = Unicode.codes (str_capitalize seg).
Proof.
  intros H. apply is_ascii_codes in H.
  destruct seg as [|c r]; [reflexivity|].
  rewrite codes_cons in H |- *. inversion H as [|? ? Hc Hr]; subst.
  cbn [Unicode.str_capitalize str_capitalize].
  rewrite (ascii_title _ Hc), (ascii_do_lower _ _ Hr), codes_cons.
  cbn [app]. rewrite code_of_upper_char. f_equal.
  unfold str_lower. symmetry. apply codes_str_map, code_of_lower_char.
Qed.

(** X20: on a name of ASCII characters the name forms computed on code
    points, with Python's case mappings, are the name forms computed on
    the characters of the string with the ASCII case maps. *)
Theorem name_forms_agree_on_ascii (name : string) :
  is_ascii name = true ->
  Unicode.to_snake_case (Unicode.codes name) = Unicode.codes (to_snake_case name)
  /\ Unicode.to_camel_case (Unicode.codes name) = Unicode.codes (to_camel_case name).
Proof.
  intros Hascii. split.
  - unfold Unicode.to_snake_case, Unicode.str_lower.
    rewrite unicode_replace_dash, ascii_do_lower.
    + rewrite snake_case_char_map, List.map_map. symmetry.
      apply codes_str_map. intros c.
      now rewrite code_of_lower_char, code_of_dash_to_underscore.
    + apply is_ascii_codes in Hascii. rewrite List.Forall_forall in Hascii |- *.
      intros x Hx. apply in_map_iff in Hx as (y & <- & Hy).
      destruct (N.eqb 45 y); [lia | now apply Hascii].
  - unfold Unicode.to_camel_case.
    rewrite unicode_split_segments, codes_segments, camel_case_segments.
    rewrite codes_concat_all, !List.map_map. f_equal.
    pose proof (segments_are_ascii name Hascii) as Hsegs.
    induction Hsegs as [|seg segs Hseg _ IH]; [reflexivity|].
    cbn [map]. now rewrite (codes_capitalize seg Hseg), IH.
Qed.

Lemma name_forms_agree_witness :
  Unicode.to_snake_case (Unicode.codes "Markdown-Editor") = Unicode.codes "markdown_editor"
  /\ Unicode.to_camel_case (Unicode.codes "markdown-editor")
     = Unicode.codes "MarkdownEditor".
Proof.
  split.
  - apply (name_forms_agree_on_ascii "Markdown-Editor"). reflexivity.
  - apply (name_forms_agree_on_ascii "markdown-editor"). reflexivity.
Defined.

(** * Further properties of the substitution step *)

(** A pass leaves a text without its placeholder as it is. *)
Lemma replace_absent (old new : string) :
  old <> "" ->
  forall s, str_contains s old = false -> str_replace s old new = s.
Proof.
  intros Hold.
  apply (scan_ind old (fun s => str_contains s old = false -> str_replace s old new = s));
    [exact Hold | | | ].
  - intros _. now apply str_replace_nil.
  - intros s rest E _ H. rewrite (str_contains_hit _ _ _ E) in H. discriminate.
  - intros c s E IH H. rewrite (str_contains_miss _ _ _ E) in H.
    now rewrite (str_replace_miss _ new Hold _ _ E), IH.
Qed.

Lemma table_without_keys (table : list (string * string)) (text : string) :
  (forall old new, In (old, new) table -> old <> "" /\ str_contains text old = false) ->
  apply_replacements table text = text.
Proof.
  induction table as [|[old new] table IH]; intros H; [reflexivity|].
  unfold apply_replacements. cbn [List.fold_left fst snd].
  destruct (H old new (or_introl eq_refl)) as [Ho Hc].
  rewrite (replace_absent old new Ho text Hc).
  apply IH. intros o n Hin. apply (H o n). now right.
Qed.

(** X8: a file whose text, as read, holds none of the five placeholders
    goes through the passes unchanged: when its rewriting completes, it
    has been written back with the text as read (only its line ends
    translated) and is still reported as updated. *)
Theorem text_without_placeholders_is_kept
  (plugin user p text : string) (w w' : world) :
  (forall old new, In (old, new) (replacements plugin user) ->
                   str_contains (universal_newlines text) old = false) ->
  fs w !! Path p = Some (File text) ->
  update_file (replacements plugin user) p w = (w', Ok tt) ->
  apply_replacements (replacements plugin user) (universal_newlines text)
  = universal_newlines text
  /\ fs w' !! Path p = Some (File (universal_newlines text))
  /\ console w' = (console w ++ [("✓ Updated " ++ p)%string])%list.
Proof.
  intros Hfree Hfile Hrun.
  assert (Hsame : apply_replacements (replacements plugin user) (universal_newlines text)
                  = universal_newlines text).
  { apply table_without_keys. intros old new Hin.
    split; [exact (replacements_keys_nonempty _ _ _ _ Hin) | exact (Hfree _ _ Hin)]. }
  split; [exact Hsame|].
  rewrite (update_file_regular _ _ _ _ Hfile) in Hrun. injection Hrun as <-.
  split; [|reflexivity].
  rewrite updated_lookup. case_decide; [now rewrite Hsame | congruence].
Qed.

Lemma text_without_placeholders_witness :
  let w := world_of [("README.md", File "require('markdown_editor').setup()")] in
  let w' := fst (update_file (replacements "markdown-editor" "RyanGreenup") "README.md" w) in
  fs w' !! Path "README.md" = Some (File "require('markdown_editor').setup()")
  /\ console w' = ["✓ Updated README.md"].
Proof.
  intros w w'.
  apply (text_without_placeholders_is_kept "markdown-editor" "RyanGreenup" "README.md"
           "require('markdown_editor').setup()" w w').
  - intros old new Hin. cbn in Hin.
    destruct Hin as [H|[H|[H|[H|[H|[]]]]]]; injection H as <- _; reflexivity.
  - reflexivity.
  - vm_compute. reflexivity.
Defined.

Lemma update_file_shape table p w q :
  let w1 := fst (update_file table p w) in
  (fs w1 !! q = None <-> fs w !! q = None)
  /\ (fs w1 !! q = Some Dir <-> fs w !! q = Some Dir)
  /\ (Path p <> q -> fs w1 !! q = fs w !! q).
Proof.
  destruct (update_file_cases table p w)
    as [(_ & r & -> & _)|[[_ ->]|(text & Hp & ->)]];
    cbn [fst]; try tauto.
  rewrite updated_lookup. case_decide as Hpq; [|tauto].
  subst q. rewrite Hp. repeat split; try discriminate. congruence.
Qed.

Lemma for_each_shape table files w q :
  let w1 := fst (for_each files (update_file table) w) in
  (fs w1 !! q = None <-> fs w !! q = None)
  /\ (fs w1 !! q = Some Dir <-> fs w !! q = Some Dir)
  /\ ((forall p, In p files -> Path p <> q) -> fs w1 !! q = fs w !! q).
Proof.
  revert w. induction files as [|p files IH]; intros w; cbn zeta; [tauto|].
  cbn [for_each]. destruct (update_file_shape table p w q) as (H1 & H2 & H3).
  destruct (update_file table p w) as [w1 [[]|e]] eqn:E; cbn [fst] in H1, H2, H3.
  - rewrite (bind_ok _ _ _ _ _ E).
    destruct (IH w1) as (I1 & I2 & I3). cbn zeta in I1, I2, I3.
    rewrite I1, I2, H1, H2. repeat split; try tauto.
    intros Hq. rewrite I3, H3; [reflexivity | apply Hq; now left |].
    intros p' Hp'. apply Hq. now right.
  - rewrite (bind_raise _ _ _ _ _ E). cbn [fst].
    repeat split; try tauto. intros Hq. apply H3, Hq. now left.
Qed.

(** X9: the substitution step, completed or not, neither creates nor
    removes a path, and turns no file into a directory and no directory
    into a file. *)
Theorem substitution_step_keeps_paths (plugin user q : string) (w : world) :
  let w1 := fst (update_file_contents plugin user w) in
  (fs w1 !! q = None <-> fs w !! q = None)
  /\ (fs w1 !! q = Some Dir <-> fs w !! q = Some Dir).
Proof.
  destruct (for_each_shape (replacements plugin user)
              (files_to_update (to_snake_case plugin)) w q) as (H1 & H2 & _).
  split; [exact H1 | exact H2].
Qed.

(** X10: no rollback: when the files before a target have been rewritten
    and the target is a directory, the step raises [IsADirectoryError]
    there; the files already rewritten stay rewritten and the files after
    the target are not touched. *)
Theorem substitution_step_stops_at_directory
  (plugin user p : string) (before after : list string) (w w1 : world) :
  files_to_update (to_snake_case plugin) = (before ++ p :: after)%list ->
  for_each before (update_file (replacements plugin user)) w = (w1, Ok tt) ->
  fs w1 !! Path p = Some Dir ->
  update_file_contents plugin user w = (w1, Raise IsADirectoryError).
Proof.
  intros Hlist Hbefore Hdir. unfold update_file_contents.
  rewrite Hlist, for_each_app, (bind_ok _ _ _ _ _ Hbefore). cbn [for_each].
  now rewrite (bind_raise _ _ _ _ _ (update_file_dir _ _ _ Hdir)).
Qed.

Lemma substitution_step_stops_witness :
  let w := world_of [("lazy.lua", File "myplugin"); ("README.md", Dir)] in
  update_file_contents "foo" "alice" w
  = (World (<["lazy.lua" := File "foo"]> (fs w)) ["✓ Updated lazy.lua"] [],
     Raise IsADirectoryError).
Proof.
  intros w.
  apply (substitution_step_stops_at_directory "foo" "alice" "README.md"
           ["lua/foo/init.lua"; "lua/foo/config.lua"; "lua/foo/commands.lua"; "lazy.lua"]
           [] w).
  - reflexivity.
  - vm_compute. reflexivity.
  - reflexivity.
Defined.

(** * The target paths are pairwise distinct *)

Lemma str_app_assoc (a b c : string) : (a ++ b) ++ c = a ++ (b ++ c).
Proof.
  induction a as [|x a IH]; [reflexivity|]. now rewrite !str_app_cons, IH.
Qed.

Lemma slash_pattern : "/" <> "".
Proof. discriminate. Qed.

Lemma str_split_nonempty (s sep : string) : str_split s sep <> [].
Proof.
  unfold str_split. destruct (String.length s) as [|n]; [discriminate|].
  cbn [split_from]. destruct (strip_prefix sep s); [discriminate|].
  destruct s; [discriminate|]. destruct (split_from n sep s); discriminate.
Qed.

(** Splitting at slashes goes through a slash in the middle. *)
Lemma split_app_slash (a b : string) :
  str_split (a ++ String "/" b) "/" = (str_split a "/" ++ str_split b "/")%list.
Proof.
  induction a as [|c a IH].
  - change ("" ++ String "/" b) with (String "/" b).
    now rewrite (str_split_hit "/" slash_pattern (String "/" b) b).
  - rewrite str_app_cons. destruct (Ascii.eqb "/" c) eqn:Hc.
    + apply Ascii.eqb_eq in Hc. subst c.
      rewrite (str_split_hit "/" slash_pattern (String "/" (a ++ String "/" b))
                 (a ++ String "/" b)) by reflexivity.
      rewrite (str_split_hit "/" slash_pattern (String "/" a) a) by reflexivity.
      now rewrite IH.
    + rewrite !(str_split_miss "/")
        by (cbn [strip_prefix]; now rewrite Hc).
      rewrite IH. pose proof (str_split_nonempty a "/") as Hne.
      destruct (str_split a "/"); [congruence | reflexivity].
Qed.

Lemma join_ends_with (parts : list string) (name : string) :
  str_join "/" (parts ++ [name]) = name
  \/ exists a, str_join "/" (parts ++ [name]) = a ++ String "/" name.
Proof.
  induction parts as [|p parts IH]; [now left|]. right.
  destruct parts as [|q parts].
  - exists p. reflexivity.
  - change (str_join "/" ((p :: q :: parts) ++ [name]))
      with (p ++ "/" ++ str_join "/" ((q :: parts) ++ [name])).
    destruct IH as [->|[a ->]].
    + exists p. reflexivity.
    + exists (p ++ String "/" a). rewrite str_app_assoc. reflexivity.
Qed.

Lemma after_last_slash_app (a name : string) :
  after_last_slash name = None ->
  after_last_slash (a ++ String "/" name) = Some name.
Proof.
  intros H. induction a as [|c a IH].
  - change ("" ++ String "/" name) with (String "/" name).
    cbn [after_last_slash]. now rewrite H.
  - rewrite str_app_cons. cbn [after_last_slash]. now rewrite IH.
Qed.

(** The normalised path of [dir/name] ends in the component [name]. *)
Lemma path_basename (dir name : string) :
  str_split name "/" = [name] -> name <> "" -> name <> "." ->
  os_path_basename (Path (dir ++ String "/" name)) = name.
Proof.
  intros Hsplit Hne Hdot.
  assert (Hslash : after_last_slash name = None).
  { destruct (after_last_slash name) as [t|] eqn:E; [|reflexivity]. exfalso.
    assert (Hex : exists a, name = a ++ String "/" t).
    { clear Hsplit Hne Hdot. revert t E. induction name as [|c r IH]; intros t E.
      - discriminate.
      - cbn [after_last_slash] in E. destruct (after_last_slash r) as [t'|] eqn:Er.
        + injection E as <-. destruct (IH t' eq_refl) as [a ->].
          exists (String c a). reflexivity.
        + destruct (Ascii.eqb_spec c "/") as [->|]; [|discriminate].
          injection E as <-. now exists "". }
    destruct Hex as [a Ha]. rewrite Ha, split_app_slash in Hsplit.
    pose proof (str_split_nonempty a "/"). pose proof (str_split_nonempty t "/").
    destruct (str_split a "/") as [|x [|y l]]; destruct (str_split t "/");
      try congruence; discriminate. }
  unfold Path. rewrite split_app_slash, Hsplit, List.filter_app.
  cbn [List.filter].
  destruct (String.eqb_spec name "") as [|_]; [congruence|].
  destruct (String.eqb_spec name ".") as [|_]; [congruence|]. cbn [negb andb].
  set (parts := List.filter _ (str_split dir "/")).
  destruct (join_ends_with parts name) as [E|[a E]].
  - destruct (parts ++ [name])%list eqn:El; [now destruct parts|].
    rewrite E. unfold os_path_basename. now rewrite Hslash.
  - destruct (parts ++ [name])%list eqn:El; [now destruct parts|].
    rewrite E. unfold os_path_basename.
    now rewrite (after_last_slash_app a name Hslash).
Qed.

Lemma target_basenames (plugin_snake : string) :
  List.map (fun p => os_path_basename (Path p)) (files_to_update plugin_snake)
  = ["init.lua"; "config.lua"; "commands.lua"; "lazy.lua"; "README.md"].
Proof.
  unfold files_to_update. cbn [List.map].
  change ("lua/" ++ plugin_snake ++ "/init.lua")
    with ("lua/" ++ (plugin_snake ++ String "/" "init.lua")).
  change ("lua/" ++ plugin_snake ++ "/config.lua")
    with ("lua/" ++ (plugin_snake ++ String "/" "config.lua")).
  change ("lua/" ++ plugin_snake ++ "/commands.lua")
    with ("lua/" ++ (plugin_snake ++ String "/" "commands.lua")).
  rewrite <- !str_app_assoc.
  rewrite !path_basename by (reflexivity || discriminate).
  reflexivity.
Qed.

Lemma target_paths_distinct (plugin_snake : string) :
  List.NoDup (List.map Path (files_to_update plugin_snake)).
Proof.
  apply (List.NoDup_map_inv os_path_basename).
  rewrite List.map_map, target_basenames.
  repeat constructor; cbn [In]; intros H;
    repeat (destruct H as [H|H]; [discriminate H|]); exact H.
Qed.

(** X11: for every snake form the five target paths are pairwise distinct
    after normalisation; their last components are the five file names. *)
Theorem target_paths_are_distinct (plugin_snake : string) :
  List.NoDup (List.map Path (files_to_update plugin_snake))
  /\ List.map (fun p => os_path_basename (Path p)) (files_to_update plugin_snake)
     = ["init.lua"; "config.lua"; "commands.lua"; "lazy.lua"; "README.md"].
Proof. split; [apply target_paths_distinct | apply target_basenames]. Qed.

(** * Further properties of a run *)

Section RunExtras.

Variable mv : gmap string node -> string -> string -> gmap string node * result unit.
Variable git : list string -> result unit.

Lemma main_raises_with_local_steps plugin user url w w2 e :
  local_steps mv plugin user w = (w2, Raise e) ->
  main mv git plugin user url w = (w2, Raise e).
Proof. intros H. now rewrite main_split, (bind_raise _ _ _ _ _ H). Qed.

Lemma set_git_remote_spawned url w :
  exists w1, set_git_remote git url w = (w1, Ok tt) /\ fs w1 = fs w
             /\ spawned w1
                = (spawned w ++ [["git"; "remote"; "set-url"; "origin"; url]])%list.
Proof.
  destruct (git ["git"; "remote"; "set-url"; "origin"; url]) as [[]|e] eqn:E.
  - exists (remote_set url w). split; [now apply set_git_remote_done | now split].
  - exists (warned url w). split; [eapply set_git_remote_failed; eauto | now split].
Qed.

Lemma remote_steps_nonempty url :
  url <> "" ->
  remote_steps git (Some url)
  = bind (set_git_remote git url) (fun _ => update_lazy_spec url).
Proof. destruct url; [congruence | reflexivity]. Qed.

End RunExtras.

(** X12: an empty URL argument counts as no URL: the run is the run without
    a URL, so no process is spawned and lazy.lua gets no second patch. *)
Theorem empty_url_is_no_url
  (mv : gmap string node -> string -> string -> gmap string node * result unit)
  (git : list string -> result unit) (plugin user : string) (w : world) :
  main mv git plugin user (Some "") w = main mv git plugin user None w
  /\ spawned (fst (main mv git plugin user (Some "") w)) = spawned w.
Proof.
  split; [reflexivity|].
  change (main mv git plugin user (Some "") w) with (main mv git plugin user None w).
  rewrite main_split.
  pose proof (local_steps_spawned mv plugin user w) as Hs.
  destruct (local_steps mv plugin user w) as [w2 [[]|e]] eqn:E; cbn [fst] in Hs.
  - rewrite (bind_ok _ _ _ _ _ E). exact Hs.
  - rewrite (bind_raise _ _ _ _ _ E). exact Hs.
Qed.

(** X13: with a non-empty URL, a run whose local steps complete spawns
    exactly one command, [git remote set-url origin <url>], whatever its
    outcome; a run whose local steps raise spawns none. *)
Theorem git_is_spawned_once
  (mv : gmap string node -> string -> string -> gmap string node * result unit)
  (git : list string -> result unit) (plugin user url : string) (w : world) :
  url <> "" ->
  spawned (fst (main mv git plugin user (Some url) w))
  = match snd (local_steps mv plugin user w) with
    | Ok _ => (spawned w ++ [["git"; "remote"; "set-url"; "origin"; url]])%list
    | Raise _ => spawned w
    end.
Proof.
  intros Hurl. rewrite main_split.
  pose proof (local_steps_spawned mv plugin user w) as Hs.
  destruct (local_steps mv plugin user w) as [w2 [[]|e]] eqn:E; cbn [fst snd] in *.
  - rewrite (bind_ok _ _ _ _ _ E), (remote_steps_nonempty git url Hurl).
    destruct (set_git_remote_spawned git url w2) as (w3 & E3 & _ & Hsp).
    rewrite bind_assoc, (bind_ok _ _ _ _ _ E3).
    pose proof (update_lazy_spec_spawned url w3) as Hl.
    destruct (update_lazy_spec url w3) as [w4 [[]|e]] eqn:E4; cbn [fst] in Hl.
    + rewrite (bind_ok _ _ _ _ _ E4), typer_echo_run.
      cbn [fst spawned]. now rewrite Hl, Hsp, Hs.
    + rewrite (bind_raise _ _ _ _ _ E4). cbn [fst]. now rewrite Hl, Hsp, Hs.
  - rewrite (bind_raise _ _ _ _ _ E). exact Hs.
Qed.

Lemma git_is_spawned_once_witness :
  spawned (fst (main plain_move git_exits_nonzero "foo" "alice"
                     (Some "https://example.org/foo") (world_of [])))
  = [["git"; "remote"; "set-url"; "origin"; "https://example.org/foo"]].
Proof.
  apply (git_is_spawned_once plain_move git_exits_nonzero "foo" "alice"
           "https://example.org/foo" (world_of [])).
  discriminate.
Defined.

(** X14: when [lua/myplugin] exists and the move raises, the run ends
    there with that exception and exit status 1: only the first line has
    been printed, no file is read or rewritten, no process is spawned. *)
Theorem failed_move_aborts_the_run
  (mv : gmap string node -> string -> string -> gmap string node * result unit)
  (git : list string -> result unit)
  (plugin user : string) (url : option string) (w : world)
  (n : node) (f : gmap string node) (e : exn) :
  fs w !! Path "lua/myplugin" = Some n ->
  mv (fs w) (Path "lua/myplugin") (Path ("lua/" ++ to_snake_case plugin)) = (f, Raise e) ->
  main mv git plugin user url w
  = (World f (console w ++ [banner plugin user]) (spawned w), Raise e)
  /\ exit_code (snd (main mv git plugin user url w)) = 1.
Proof.
  intros Hdir Hmv.
  assert (Hloc : local_steps mv plugin user w
                 = (World f (console w ++ [banner plugin user]) (spawned w), Raise e)).
  { unfold local_steps.
    rewrite (bind_ok _ _ w _ tt (typer_echo_run _ w)).
    apply bind_raise. unfold rename_directory, bind, path_exists. cbn [fs].
    rewrite Hdir. unfold move. cbn [fs]. now rewrite Hmv. }
  rewrite (main_raises_with_local_steps mv git plugin user url w _ e Hloc).
  now split.
Qed.

Lemma failed_move_witness :
  let w := world_of [("lua/myplugin", Dir); ("README.md", File "myplugin")] in
  main (fun f _ _ => (f, Raise ShutilError)) git_succeeds "foo" "alice" None w
  = (World (fs w) ["Renaming: foo (foo, Foo) for alice"] [], Raise ShutilError).
Proof.
  intros w.
  apply (failed_move_aborts_the_run (fun f _ _ => (f, Raise ShutilError)) git_succeeds
           "foo" "alice" None w Dir (fs w) ShutilError).
  - reflexivity.
  - reflexivity.
Defined.

Lemma basename_after_trailing_slash (url : string) :
  os_path_basename (url ++ "/") = "".
Proof.
  unfold os_path_basename.
  change (url ++ "/") with (url ++ String "/" "").
  now rewrite (after_last_slash_app url "" eq_refl).
Qed.

(** X15: a URL that ends with a slash has an empty last segment, so the
    lazy.lua patch does nothing for it, whatever precedes the slash. *)
Theorem trailing_slash_url_is_not_patched (url : string) (w : world) :
  os_path_basename (url ++ "/") = ""
  /\ update_lazy_spec (url ++ "/") w = (w, Ok tt).
Proof.
  split; [apply basename_after_trailing_slash|].
  apply update_lazy_spec_noop. left. now rewrite basename_after_trailing_slash.
Qed.

(** X19: substituting twice is substituting once, provided no replacement
    value of the table can overlap any of its keys: after the first round
    no placeholder is left, so the second round changes nothing. *)
Theorem substitution_is_idempotent (plugin user text : string) :
  (forall key v old new,
      In (key, v) (replacements plugin user) ->
      In (old, new) (replacements plugin user) ->
      overlap_free new key = true) ->
  apply_replacements (replacements plugin user)
    (apply_replacements (replacements plugin user) text)
  = apply_replacements (replacements plugin user) text.
Proof.
  intros Hfree. apply table_without_keys. intros key v Hkey.
  split; [exact (replacements_keys_nonempty _ _ _ _ Hkey)|].
  apply table_clears; [|now exists v].
  intros old new Hin.
  split; [exact (replacements_keys_nonempty _ _ _ _ Hin) | exact (Hfree _ _ _ _ Hkey Hin)].
Qed.

Lemma substitution_idempotent_witness :
  let table := replacements "markdown-editor" "RyanGreenup" in
  let text := "require('myplugin') -- MyPlugin, your-username/your-plugin-name" in
  apply_replacements table (apply_replacements table text)
  = apply_replacements table text.
Proof.
  intros table text.
  apply (substitution_is_idempotent "markdown-editor" "RyanGreenup" text).
  intros key v old new Hk Ho. cbn in Hk, Ho.
  destruct Hk as [H|[H|[H|[H|[H|[]]]]]]; injection H as <- _;
    destruct Ho as [H|[H|[H|[H|[H|[]]]]]]; injection H as _ <-; reflexivity.
Defined.
